(** * DS3231 real-time-clock driver: calendar conversion, BCD helpers and
    the field checks of [DS3231_SetDateTime]

    A shallow embedding of [Source/DS3231.c] (with the types of
    [Include/DS3231.h]) and the properties of its calendar code.

    Conventions of the embedding:
    - a C unsigned integer of width [w] is a [Z] in [[0, 2^w)], and every
      assignment to such a variable is written with its wrap-around
      ([to_uint8], [to_uint16], [to_uint32]);
    - the [int32_t] locals of [DS3231_ToDateTime] are plain [Z]: signed
      division and remainder are [Z.quot] and [Z.rem] as in C, and the
      values stay far below [2^31] (see [year_loop_range]);
    - reading [a[i]] outside the array [a] is undefined behaviour in C; the
      embedding stops there with the outcome [OutOfBounds i];
    - a loop is a [Fixpoint] over a budget of iterations; the lemmas under
      "Termination" show that the budgets given by the top-level functions
      are never exhausted ([OutOfFuel] is not an outcome of theirs). *)

From Stdlib Require Import ZArith List Bool Lia.
Import ListNotations.

Local Open Scope Z_scope.

(** ** Machine integers *)

Definition to_uint8 (x : Z) : Z := x mod 2 ^ 8.
Definition to_uint16 (x : Z) : Z := x mod 2 ^ 16.
Definition to_uint32 (x : Z) : Z := x mod 2 ^ 32.

Definition is_uint8 (x : Z) : Prop := 0 <= x < 2 ^ 8.
Definition is_uint16 (x : Z) : Prop := 0 <= x < 2 ^ 16.
Definition is_uint32 (x : Z) : Prop := 0 <= x < 2 ^ 32.

(** ** Outcomes of a call *)

Inductive outcome (A : Type) : Type :=
| Done (a : A)          (* the call returns *)
| OutOfBounds (i : Z)   (* it reads index [i] outside an array *)
| OutOfFuel.            (* the iteration budget of the model ran out *)

Arguments Done {A} a.
Arguments OutOfBounds {A} i.
Arguments OutOfFuel {A}.

Definition bind {A B : Type} (m : outcome A) (k : A -> outcome B) : outcome B :=
  match m with
  | Done a => k a
  | OutOfBounds i => OutOfBounds i
  | OutOfFuel => OutOfFuel
  end.

Notation "x <- m ;; k" := (bind m (fun x => k))
  (at level 61, m at next level, right associativity).
Notation "' ( x , y ) <- m ;; k" := (bind m (fun p => let '(x, y) := p in k))
  (at level 61, x name, y name, m at next level, right associativity).

(** [a[i]] for a constant table [a]. *)
Definition array_get (a : list Z) (i : Z) : outcome Z :=
  if i <? 0 then OutOfBounds i
  else match nth_error a (Z.to_nat i) with
       | Some v => Done v
       | None => OutOfBounds i
       end.

(** ** Constants, tables and types of the driver *)

Definition SECONDS_FROM_1970_TO_2000 : Z := 946684800.

Definition days_in_month : list Z := [31; 28; 31; 30; 31; 30; 31; 31; 30; 31; 30; 31].
Definition dow : list Z := [0; 3; 2; 5; 0; 3; 5; 1; 4; 6; 2; 4].

Inductive DS3231_State : Type := DS3231_DISABLED | DS3231_ENABLED.

Inductive HAL_StatusTypeDef : Type := HAL_OK | HAL_ERROR | HAL_BUSY | HAL_TIMEOUT.

Record DS3231_DateTime : Type := mkDateTime {
  Day : Z;          (* uint8_t, 1 = Monday .. 7 = Sunday *)
  Date : Z;         (* uint8_t *)
  Month : Z;        (* uint8_t *)
  Year : Z;         (* uint16_t *)
  Hour_24mode : Z;  (* uint8_t *)
  Minute : Z;       (* uint8_t *)
  Second : Z;       (* uint8_t *)
  Enable : DS3231_State
}.

(** The values a [DS3231_DateTime] can hold in memory. *)
Definition wf_DateTime (dt : DS3231_DateTime) : Prop :=
  is_uint8 (Day dt) /\ is_uint8 (Date dt) /\ is_uint8 (Month dt) /\
  is_uint16 (Year dt) /\ is_uint8 (Hour_24mode dt) /\
  is_uint8 (Minute dt) /\ is_uint8 (Second dt).

(** ** BCD helpers *)

(** [(((bin & 0xF0) >> 4) * 10) + (bin & 0x0F)], returned as [uint8_t]. *)
Definition DS3231_DecodeBCD (bin : Z) : Z :=
  to_uint8 (Z.shiftr (Z.land bin 240) 4 * 10 + Z.land bin 15).

(** [dec % 10 + ((dec / 10) << 4)], returned as [uint8_t]. *)
Definition DS3231_EncodeBCD (dec : Z) : Z :=
  to_uint8 (dec mod 10 + Z.shiftl (dec / 10) 4).

(** ** DS3231_ToUnixTime *)

(** [for (uint8_t i = 1; i < months; i++) days += days_in_month[i - 1];]
    with [days] a [uint16_t]. *)
Fixpoint add_month_days (fuel : nat) (i months days : Z) : outcome Z :=
  match fuel with
  | O => OutOfFuel
  | S fuel' =>
      if i <? months then
        v <- array_get days_in_month (i - 1) ;;
        add_month_days fuel' (to_uint8 (i + 1)) months (to_uint16 (days + v))
      else Done days
  end.

(** The function returns [void]; its only effect is on [*unixtime], so the
    embedding maps the caller's value of [*unixtime] before the call to its
    value after the call. *)
Definition DS3231_ToUnixTime (dt : DS3231_DateTime) (unixtime : Z) : outcome Z :=
  let years := Year dt in
  let months := Month dt in
  let days := Date dt in
  let hours := Hour_24mode dt in
  let minutes := Minute dt in
  let seconds := Second dt in
  if 2000 <=? years then
    let years := to_uint16 (years - 2000) in
    let days := to_uint16 (days - 1) in
    days <- add_month_days 256 1 months days ;;
    let days := if (2 <? months) && (years mod 4 =? 0)
                then to_uint16 (days + 1) else days in
    let days := to_uint16 (days + (365 * years + (years + 3) / 4)) in
    Done (to_uint32 (((days * 24 + hours) * 60 + minutes) * 60 + seconds
                     + SECONDS_FROM_1970_TO_2000))
  else
    Done unixtime.

(** ** DS3231_ToDateTime *)

(** [currYear % 400 == 0 || (currYear % 4 == 0 && currYear % 100 != 0)] *)
Definition is_leap (currYear : Z) : bool :=
  (Z.rem currYear 400 =? 0)
  || ((Z.rem currYear 4 =? 0) && negb (Z.rem currYear 100 =? 0)).

(** The first [while (1)]: the year and the days left in it. *)
Fixpoint year_loop (fuel : nat) (currYear daysTillNow : Z) : outcome (Z * Z) :=
  match fuel with
  | O => OutOfFuel
  | S fuel' =>
      if is_leap currYear then
        if daysTillNow <? 366 then Done (currYear, daysTillNow)
        else year_loop fuel' (currYear + 1) (daysTillNow - 366)
      else
        if daysTillNow <? 365 then Done (currYear, daysTillNow)
        else year_loop fuel' (currYear + 1) (daysTillNow - 365)
  end.

(** The [while (1)] of the branch [flag == 1]; [index] and [month] are
    [uint8_t]. It returns [month] and [extraDays] at the [break]. *)
Fixpoint month_loop_leap (fuel : nat) (index month extraDays : Z) : outcome (Z * Z) :=
  match fuel with
  | O => OutOfFuel
  | S fuel' =>
      if index =? 1 then
        if extraDays - 29 <? 0 then Done (month, extraDays)
        else month_loop_leap fuel' (to_uint8 (index + 1)) (to_uint8 (month + 1))
                             (extraDays - 29)
      else
        v <- array_get days_in_month index ;;
        if extraDays - v <? 0 then Done (month, extraDays)
        else month_loop_leap fuel' (to_uint8 (index + 1)) (to_uint8 (month + 1))
                             (extraDays - v)
  end.

(** The [while (1)] of the branch [flag != 1]. *)
Fixpoint month_loop (fuel : nat) (index month extraDays : Z) : outcome (Z * Z) :=
  match fuel with
  | O => OutOfFuel
  | S fuel' =>
      v <- array_get days_in_month index ;;
      if extraDays - v <? 0 then Done (month, extraDays)
      else month_loop fuel' (to_uint8 (index + 1)) (to_uint8 (month + 1))
                      (extraDays - v)
  end.

(** "Calculating MONTH and DATE" and "Current Month": from the day of the
    year (1-based) and the leap flag to [month] and [date]. *)
Definition month_and_date (flag extraDays : Z) : outcome (Z * Z) :=
  '(month, extraDays) <-
     (if flag =? 1 then month_loop_leap 13 0 0 extraDays
      else month_loop 13 0 0 extraDays) ;;
  if 0 <? extraDays then
    Done (to_uint8 (month + 1), to_uint8 extraDays)
  else if (month =? 2) && (flag =? 1) then
    Done (month, 29)
  else
    v <- array_get days_in_month (month - 1) ;;
    Done (month, v).

(** The last lines of the function: the day of the week, from [currYear],
    [month] and [date]. *)
Definition day_of_week (currYear month date : Z) : outcome Z :=
  let currYear := currYear - (if month <? 3 then 1 else 0) in
  t <- array_get dow (month - 1) ;;
  let day := to_uint8 (Z.rem (currYear + Z.quot currYear 4 - Z.quot currYear 100
                              + Z.quot currYear 400 + t + date) 7) in
  Done (if day =? 0 then 7 else day).

(** The function writes every field of [*dt] but [Enable]. *)
Definition DS3231_ToDateTime (unixtime : Z) (dt : DS3231_DateTime)
  : outcome DS3231_DateTime :=
  let daysTillNow := unixtime / (24 * 60 * 60) in
  let extraTime := unixtime mod (24 * 60 * 60) in
  '(currYear, daysTillNow) <- year_loop (S (Z.to_nat daysTillNow)) 1970 daysTillNow ;;
  let extraDays := daysTillNow + 1 in
  let flag := if is_leap currYear then 1 else 0 in
  '(month, date) <- month_and_date flag extraDays ;;
  day <- day_of_week currYear month date ;;
  Done {| Day := day;
          Date := date;
          Month := month;
          Year := to_uint16 currYear;
          Hour_24mode := to_uint8 (Z.quot extraTime 3600);
          Minute := to_uint8 (Z.quot (Z.rem extraTime 3600) 60);
          Second := to_uint8 (Z.rem (Z.rem extraTime 3600) 60);
          Enable := Enable dt |}.

(** ** DS3231_SetDateTime *)

(** A C comparison yields the [int] 1 or 0; [|] is the bitwise or. *)
Definition ge_int (a b : Z) : Z := Z.b2z (b <=? a).
Definition le_int (a b : Z) : Z := Z.b2z (a <=? b).
Definition c_true (c : Z) : bool := negb (c =? 0).

Definition check_Day (dt : DS3231_DateTime) : Z :=
  Z.lor (ge_int (Day dt) 1) (le_int (Day dt) 7).
Definition check_Date (dt : DS3231_DateTime) : Z :=
  Z.lor (ge_int (Date dt) 1) (le_int (Date dt) 31).
Definition check_Month (dt : DS3231_DateTime) : Z :=
  Z.lor (ge_int (Month dt) 1) (le_int (Month dt) 12).
Definition check_Year (dt : DS3231_DateTime) : Z :=
  Z.lor (ge_int (Year dt) 0) (le_int (Year dt) 99).
Definition check_Hour_24mode (dt : DS3231_DateTime) : Z :=
  Z.lor (ge_int (Hour_24mode dt) 0) (le_int (Hour_24mode dt) 23).
Definition check_Minute (dt : DS3231_DateTime) : Z :=
  Z.lor (ge_int (Minute dt) 0) (le_int (Minute dt) 59).
Definition check_Second (dt : DS3231_DateTime) : Z :=
  Z.lor (ge_int (Second dt) 0) (le_int (Second dt) 59).

(** [buffer[i] = v] for [i] inside the array. *)
Definition array_set (i : nat) (v : Z) (buffer : list Z) : list Z :=
  firstn i buffer ++ v :: skipn (S i) buffer.

(** The seven checks of the function, in its order; [inl HAL_ERROR] is the
    [return HAL_ERROR] of an [else] branch, [inr buffer] the filled
    [buffer[7]] with which the function goes on. The local array starts
    with unspecified content, here [buffer0]. *)
Definition SetDateTime_checks (buffer0 : list Z) (dt : DS3231_DateTime)
  : HAL_StatusTypeDef + list Z :=
  let buffer := buffer0 in
  if c_true (check_Day dt) then
    let buffer := array_set 3 (DS3231_EncodeBCD (Day dt)) buffer in
    if c_true (check_Date dt) then
      let buffer := array_set 4 (DS3231_EncodeBCD (Date dt)) buffer in
      if c_true (check_Month dt) then
        let buffer := array_set 5 (DS3231_EncodeBCD (Month dt)) buffer in
        if c_true (check_Year dt) then
          let buffer :=
            array_set 6 (DS3231_EncodeBCD (to_uint8 (to_uint32 (Year dt - 2000))))
                      buffer in
          if c_true (check_Hour_24mode dt) then
            let buffer := array_set 2 (DS3231_EncodeBCD (Hour_24mode dt)) buffer in
            if c_true (check_Minute dt) then
              let buffer := array_set 1 (DS3231_EncodeBCD (Minute dt)) buffer in
              if c_true (check_Second dt) then
                inr (array_set 0 (DS3231_EncodeBCD (Second dt)) buffer)
              else inl HAL_ERROR
            else inl HAL_ERROR
          else inl HAL_ERROR
        else inl HAL_ERROR
      else inl HAL_ERROR
    else inl HAL_ERROR
  else inl HAL_ERROR.

Definition DS3231_REG_SECOND : Z := 0.
Definition DS3231_REG_CONTROL : Z := 14.

Section Bus.

(** The I2C transport of the HAL is outside the repository: its state and
    its two memory operations (on the device at [DS3231_I2C_ADDR], with
    [DS3231_TIMEOUT]) are parameters. *)
Variable i2c : Type.
Variable HAL_I2C_Mem_Write : Z -> list Z -> i2c -> HAL_StatusTypeDef * i2c.
Variable HAL_I2C_Mem_Read : Z -> nat -> i2c -> HAL_StatusTypeDef * list Z * i2c.

Definition DS3231_WriteRegister (reg data : Z) (s : i2c) : HAL_StatusTypeDef * i2c :=
  HAL_I2C_Mem_Write reg [data] s.

Definition DS3231_WriteRegisters (reg : Z) (data : list Z) (len : nat) (s : i2c)
  : HAL_StatusTypeDef * i2c :=
  HAL_I2C_Mem_Write reg (firstn len data) s.

(** [data0] is the content of [*data] before the call. *)
Definition DS3231_ReadRegister (reg data0 : Z) (s : i2c)
  : HAL_StatusTypeDef * Z * i2c :=
  let '(status, bytes, s) := HAL_I2C_Mem_Read reg 1%nat s in
  (status, nth 0 bytes data0, s).

(** What the function does once [buffer] is filled. *)
Definition SetDateTime_write (buffer : list Z) (regCONTROL0 : Z)
           (dt : DS3231_DateTime) (s : i2c) : HAL_StatusTypeDef * i2c :=
  let '(status, s) := DS3231_WriteRegisters DS3231_REG_SECOND buffer 7 s in
  match status with
  | HAL_OK =>
      let '(status, regCONTROL, s) :=
        DS3231_ReadRegister DS3231_REG_CONTROL regCONTROL0 s in
      match status with
      | HAL_OK =>
          let regCONTROL :=
            match Enable dt with
            | DS3231_ENABLED => Z.land regCONTROL 127
            | DS3231_DISABLED => Z.lor regCONTROL 128
            end in
          DS3231_WriteRegister DS3231_REG_CONTROL regCONTROL s
      | _ => (status, s)
      end
  | _ => (status, s)
  end.

Definition DS3231_SetDateTime (buffer0 : list Z) (regCONTROL0 : Z)
           (dt : DS3231_DateTime) (s : i2c) : HAL_StatusTypeDef * i2c :=
  match SetDateTime_checks buffer0 dt with
  | inl status => (status, s)
  | inr buffer => SetDateTime_write buffer regCONTROL0 dt s
  end.

End Bus.

(** ** The calendar in the words of the specification *)

(** Length of month [m] (1-12) of year [y], leap years by the Gregorian
    rule. *)
Definition month_length (y m : Z) : Z :=
  if (m =? 2) && is_leap y then 29 else nth (Z.to_nat (m - 1)) days_in_month 0.

Definition year_length (y : Z) : Z := if is_leap y then 366 else 365.

Definition valid_date (y m d : Z) : Prop :=
  1 <= m <= 12 /\ 1 <= d <= month_length y m.

(** Weekday of step 5: offsets [T] for the months 1-12, the year lowered by
    one in January and February, 0 mapped to 7. *)
Definition weekday_of (year month day : Z) : Z :=
  let y := if month <? 3 then year - 1 else year in
  let T := nth (Z.to_nat (month - 1)) [0; 3; 2; 5; 0; 3; 5; 1; 4; 6; 2; 4] 0 in
  let w := (y + y / 4 - y / 100 + y / 400 + T + day) mod 7 in
  if w =? 0 then 7 else w.

(** A valid broken-down time of the device's range: the fields in their
    bounds, the day valid for its month and year, the weekday the one of
    the date. *)
Definition valid_DateTime (t : DS3231_DateTime) : Prop :=
  2000 <= Year t <= 2099 /\
  valid_date (Year t) (Month t) (Date t) /\
  0 <= Hour_24mode t <= 23 /\ 0 <= Minute t <= 59 /\ 0 <= Second t <= 59 /\
  Day t = weekday_of (Year t) (Month t) (Date t).

(** Steps 2-6 of [to_epoch]: days since 2000-01-01. *)
Definition days_before_month (month : Z) : Z :=
  fold_right Z.add 0 (firstn (Z.to_nat (month - 1)) days_in_month).

Definition total_days (t : DS3231_DateTime) : Z :=
  let y := Year t - 2000 in
  days_before_month (Month t)
  + (Date t - 1)
  + (if (2 <? Month t) && (y mod 4 =? 0) then 1 else 0)
  + (365 * y + (y + 3) / 4).

(** Step 7. *)
Definition seconds_since_2000 (t : DS3231_DateTime) : Z :=
  ((total_days t * 24 + Hour_24mode t) * 60 + Minute t) * 60 + Second t.

(** ** Checking a property on an interval *)

Definition Zrange (lo hi : Z) : list Z :=
  map (fun k => lo + Z.of_nat k) (seq 0 (Z.to_nat (hi - lo + 1))).

(** ** Definitions used by the proofs *)

(** The [for] loop on every month and day of the month, and the bounds of
    the days before a month. *)
Definition add_month_days_check (m : Z) : bool :=
  forallb (fun d => match add_month_days 256 1 m (d - 1) with
                    | Done v => v =? days_before_month m + (d - 1)
                    | _ => false
                    end) (Zrange 1 31)
  && (0 <=? days_before_month m) && (days_before_month m <=? 334)
  && (28 <=? nth (Z.to_nat (m - 1)) days_in_month 0)
  && (nth (Z.to_nat (m - 1)) days_in_month 0 <=? 31).

Definition t_2000_01_01 : DS3231_DateTime :=
  mkDateTime 6 1 1 2000 0 0 0 DS3231_ENABLED.

Definition t_1999_12_31 : DS3231_DateTime :=
  mkDateTime 5 31 12 1999 23 59 59 DS3231_ENABLED.

Definition t_2000_12_31 : DS3231_DateTime :=
  mkDateTime 7 31 12 2000 0 0 0 DS3231_ENABLED.

(** Leap years among the years 1 .. [y - 1]. *)
Definition leaps_before (y : Z) : Z :=
  (y - 1) / 4 - (y - 1) / 100 + (y - 1) / 400.

(** Days from 1970-01-01 to the first day of year [y]. *)
Definition days_before_year (y : Z) : Z :=
  365 * (y - 1970) + leaps_before y - leaps_before 1970.

(** Length of month [m] under the leap flag of the function. *)
Definition flag_month_length (flag m : Z) : Z :=
  if (m =? 2) && (flag =? 1) then 29 else nth (Z.to_nat (m - 1)) days_in_month 0.

(** Day of the year (1-based) of day [d] of month [m]. *)
Definition day_of_year (flag m d : Z) : Z :=
  days_before_month m + d + (if (2 <? m) && (flag =? 1) then 1 else 0).

Definition leap_flag (y : Z) : Z := if is_leap y then 1 else 0.

(** What [month_and_date] does on day [e] of a year of [365 + flag] days:
    on the last day it reads [days_in_month[12]]; on every other day it
    returns the month and the day of the month of day [e]. *)
Definition month_and_date_check (flag e : Z) : bool :=
  match month_and_date flag e with
  | Done (m, d) =>
      (1 <=? m) && (m <=? 12) && (1 <=? d) && (d <=? flag_month_length flag m)
      && (e =? day_of_year flag m d) && (e <? 365 + flag)
  | OutOfBounds i => (i =? 12) && (e =? 365 + flag)
  | OutOfFuel => false
  end.

(** Conversely, every day of a month but December 31 is returned for its
    day of the year; December 31 is the last day of the year. *)
Definition day_of_year_check (flag m d : Z) : bool :=
  if d <=? flag_month_length flag m then
    if (m =? 12) && (d =? 31) then day_of_year flag m d =? 365 + flag
    else
      (day_of_year flag m d <? 365 + flag) && (1 <=? day_of_year flag m d)
      && match month_and_date flag (day_of_year flag m d) with
         | Done (m', d') => (m' =? m) && (d' =? d)
         | _ => false
         end
  else true.

(** ** Registers, bits and enumerations of the header *)

Definition DS3231_REG_A1_SECOND : Z := 7.
Definition DS3231_REG_A2_MINUTE : Z := 11.
Definition DS3231_REG_STATUS : Z := 15.

Definition DS3231_EOSC : Z := 7.
Definition DS3231_BBSQW : Z := 6.
Definition DS3231_RS1 : Z := 3.
Definition DS3231_INTCN : Z := 2.
Definition DS3231_A2IE : Z := 1.
Definition DS3231_A1IE : Z := 0.

Definition DS3231_A1F : Z := 0.
Definition DS3231_A2F : Z := 1.
Definition DS3231_EN32KHZ : Z := 3.
Definition DS3231_OSF : Z := 7.

Inductive DS3231_Rate : Type :=
| DS3231_RATE_1HZ | DS3231_RATE_1024HZ | DS3231_RATE_4096HZ | DS3231_RATE_8192HZ.

Inductive DS3231_InterruptMode : Type :=
| DS3231_SQUARE_WAVE_INTERRUPT | DS3231_ALARM_INTERRUPT.

(** The integer of an enumerator, and the enumerator of an integer that a
    getter has masked to the range of the enumeration. *)
Definition State_to_int (e : DS3231_State) : Z :=
  match e with DS3231_DISABLED => 0 | DS3231_ENABLED => 1 end.

Definition State_of_int (v : Z) : DS3231_State :=
  if v =? 0 then DS3231_DISABLED else DS3231_ENABLED.

Definition Rate_to_int (r : DS3231_Rate) : Z :=
  match r with
  | DS3231_RATE_1HZ => 0 | DS3231_RATE_1024HZ => 1
  | DS3231_RATE_4096HZ => 2 | DS3231_RATE_8192HZ => 3
  end.

Definition Rate_of_int (v : Z) : DS3231_Rate :=
  if v =? 0 then DS3231_RATE_1HZ
  else if v =? 1 then DS3231_RATE_1024HZ
  else if v =? 2 then DS3231_RATE_4096HZ
  else DS3231_RATE_8192HZ.

Definition InterruptMode_to_int (m : DS3231_InterruptMode) : Z :=
  match m with DS3231_SQUARE_WAVE_INTERRUPT => 0 | DS3231_ALARM_INTERRUPT => 1 end.

Definition InterruptMode_of_int (v : Z) : DS3231_InterruptMode :=
  if v =? 0 then DS3231_SQUARE_WAVE_INTERRUPT else DS3231_ALARM_INTERRUPT.

(** [!x] of C. *)
Definition lnot_int (x : Z) : Z := if x =? 0 then 1 else 0.

(** The two alarm structures have the same field names; each is in a
    module of its own. [Mode] is kept as the integer it is in memory:
    [DS3231_GetAlarm1] and [DS3231_GetAlarm2] store bit patterns in it that
    need not be enumerators. *)
Module Alarm1.
Record D3231_Alarm1 : Type := mk {
  Seconds : Z;   (* uint8_t *)
  Minutes : Z;   (* uint8_t *)
  Hours : Z;     (* uint8_t *)
  DayDate : Z;   (* uint8_t *)
  Mode : Z;      (* DS3231_Alarm1Mode *)
  IntEn : DS3231_State
}.
End Alarm1.

Module Alarm2.
Record D3231_Alarm2 : Type := mk {
  Minutes : Z;   (* uint8_t *)
  Hours : Z;     (* uint8_t *)
  DayDate : Z;   (* uint8_t *)
  Mode : Z;      (* DS3231_Alarm2Mode *)
  IntEn : DS3231_State
}.
End Alarm2.

Definition DS3231_A1_EVERY_S : Z := 15.
Definition DS3231_A1_MATCH_S : Z := 14.
Definition DS3231_A1_MATCH_S_M : Z := 12.
Definition DS3231_A1_MATCH_S_M_H : Z := 8.
Definition DS3231_A1_MATCH_S_M_H_DATE : Z := 0.
Definition DS3231_A1_MATCH_S_M_H_DAY : Z := 16.

Definition DS3231_A2_EVERY_M : Z := 7.
Definition DS3231_A2_MATCH_M : Z := 6.
Definition DS3231_A2_MATCH_M_H : Z := 4.
Definition DS3231_A2_MATCH_M_H_DATE : Z := 0.
Definition DS3231_A2_MATCH_M_H_DAY : Z := 8.

(** ** The bytes of the alarm and time registers *)

(** The initialiser of [data[4]] in [DS3231_SetAlarm1]. *)
Definition SetAlarm1_data (A1_st : Alarm1.D3231_Alarm1) : list Z :=
  let A1M1 := to_uint8 (Z.shiftl (Z.land (Alarm1.Mode A1_st) 1) 7) in
  let A1M2 := to_uint8 (Z.shiftl (Z.land (Alarm1.Mode A1_st) 2) 6) in
  let A1M3 := to_uint8 (Z.shiftl (Z.land (Alarm1.Mode A1_st) 4) 5) in
  let A1M4 := to_uint8 (Z.shiftl (Z.land (Alarm1.Mode A1_st) 8) 4) in
  let DY_DT := to_uint8 (Z.shiftl (Z.land (Alarm1.Mode A1_st) 16) 2) in
  [ to_uint8 (Z.lor (DS3231_EncodeBCD (Alarm1.Seconds A1_st)) A1M1);
    to_uint8 (Z.lor (DS3231_EncodeBCD (Alarm1.Minutes A1_st)) A1M2);
    to_uint8 (Z.lor (DS3231_EncodeBCD (Alarm1.Hours A1_st)) A1M3);
    to_uint8 (Z.lor (Z.lor (DS3231_EncodeBCD (Alarm1.DayDate A1_st)) DY_DT) A1M4) ].

(** What [DS3231_GetAlarm1] stores in [*A1_st] from [data[4]], before it
    reads [IntEn]. *)
Definition GetAlarm1_fields (data : list Z) (A1_st : Alarm1.D3231_Alarm1)
  : Alarm1.D3231_Alarm1 :=
  let d0 := nth 0 data 0 in
  let d1 := nth 1 data 0 in
  let d2 := nth 2 data 0 in
  let d3 := nth 3 data 0 in
  let Mode :=
    to_uint8
      (Z.lor (Z.lor (Z.lor (Z.lor (Z.shiftr (Z.land d0 128) 7)
                                  (Z.shiftr (Z.land d1 128) 6))
                           (Z.shiftr (Z.land d2 128) 5))
                    (Z.shiftr (Z.land d3 128) 4))
             (Z.shiftr (Z.land d3 64) 2)) in
  let DayDate := to_uint8 (Z.shiftr (Z.land d3 64) 6) in
  {| Alarm1.Seconds := DS3231_DecodeBCD (Z.land d0 127);
     Alarm1.Minutes := DS3231_DecodeBCD (Z.land d1 127);
     Alarm1.Hours := DS3231_DecodeBCD (Z.land d2 63);
     Alarm1.DayDate :=
       if c_true DayDate then DS3231_DecodeBCD (Z.land d3 15)
       else DS3231_DecodeBCD (Z.land d3 63);
     Alarm1.Mode := Mode;
     Alarm1.IntEn := Alarm1.IntEn A1_st |}.

(** The initialiser of [data[3]] in [DS3231_SetAlarm2]. *)
Definition SetAlarm2_data (A2_st : Alarm2.D3231_Alarm2) : list Z :=
  let A2M2 := to_uint8 (Z.shiftl (Z.land (Alarm2.Mode A2_st) 1) 7) in
  let A2M3 := to_uint8 (Z.shiftl (Z.land (Alarm2.Mode A2_st) 2) 6) in
  let A2M4 := to_uint8 (Z.shiftl (Z.land (Alarm2.Mode A2_st) 4) 5) in
  let DY_DT := to_uint8 (Z.shiftl (Z.land (Alarm2.Mode A2_st) 8) 3) in
  [ to_uint8 (Z.lor (DS3231_EncodeBCD (Alarm2.Minutes A2_st)) A2M2);
    to_uint8 (Z.lor (DS3231_EncodeBCD (Alarm2.Hours A2_st)) A2M3);
    to_uint8 (Z.lor (Z.lor (DS3231_EncodeBCD (Alarm2.DayDate A2_st)) DY_DT) A2M4) ].

(** What [DS3231_GetAlarm2] stores in [*A2_st] from [data[3]], before it
    reads [IntEn]. *)
Definition GetAlarm2_fields (data : list Z) (A2_st : Alarm2.D3231_Alarm2)
  : Alarm2.D3231_Alarm2 :=
  let d0 := nth 0 data 0 in
  let d1 := nth 1 data 0 in
  let d2 := nth 2 data 0 in
  let Mode :=
    to_uint8
      (Z.lor (Z.lor (Z.lor (Z.shiftr (Z.land d0 128) 7)
                           (Z.shiftr (Z.land d1 128) 6))
                    (Z.shiftr (Z.land d2 128) 5))
             (Z.shiftr (Z.land d2 64) 3)) in
  let DayDate := to_uint8 (Z.shiftr (Z.land d2 64) 6) in
  {| Alarm2.Minutes := DS3231_DecodeBCD (Z.land d0 127);
     Alarm2.Hours := DS3231_DecodeBCD (Z.land d1 127);
     Alarm2.DayDate :=
       if c_true DayDate then DS3231_DecodeBCD (Z.land d2 15)
       else DS3231_DecodeBCD (Z.land d2 63);
     Alarm2.Mode := Mode;
     Alarm2.IntEn := Alarm2.IntEn A2_st |}.

(** What [DS3231_GetDateTime] stores in [*dt] from [buffer[7]], before it
    reads the status register. *)
Definition GetDateTime_fields (buffer : list Z) (dt : DS3231_DateTime)
  : DS3231_DateTime :=
  {| Second := DS3231_DecodeBCD (Z.land (nth 0 buffer 0) 127);
     Minute := DS3231_DecodeBCD (Z.land (nth 1 buffer 0) 127);
     Hour_24mode := DS3231_DecodeBCD (Z.land (nth 2 buffer 0) 63);
     Day := DS3231_DecodeBCD (Z.land (nth 3 buffer 0) 7);
     Date := DS3231_DecodeBCD (Z.land (nth 4 buffer 0) 63);
     Month := DS3231_DecodeBCD (Z.land (nth 5 buffer 0) 31);
     Year := to_uint16 (to_uint32 (DS3231_DecodeBCD (nth 6 buffer 0) + 2000));
     Enable := Enable dt |}.

(** ** The register accessors *)

Section Driver.

(** The transport, as in section [Bus]. An uninitialised local of a
    function ([control], [data], [temp], [buffer]) is a parameter
    ([control0], [data0], ...) that gives its content before the read. *)
Variable i2c : Type.
Variable HAL_I2C_Mem_Write : Z -> list Z -> i2c -> HAL_StatusTypeDef * i2c.
Variable HAL_I2C_Mem_Read : Z -> nat -> i2c -> HAL_StatusTypeDef * list Z * i2c.

Local Abbreviation ReadRegister := (DS3231_ReadRegister i2c HAL_I2C_Mem_Read).
Local Abbreviation WriteRegister := (DS3231_WriteRegister i2c HAL_I2C_Mem_Write).
Local Abbreviation WriteRegisters := (DS3231_WriteRegisters i2c HAL_I2C_Mem_Write).

(** The bytes read replace the first entries of [data]. *)
Definition DS3231_ReadRegisters (reg : Z) (data0 : list Z) (len : nat) (s : i2c)
  : HAL_StatusTypeDef * list Z * i2c :=
  let '(status, bytes, s) := HAL_I2C_Mem_Read reg len s in
  (status, bytes ++ skipn (length bytes) data0, s).

Definition DS3231_SetBatterySquareWave (control0 : Z) (enable : DS3231_State)
           (s : i2c) : HAL_StatusTypeDef * i2c :=
  let '(status, control, s) := ReadRegister DS3231_REG_CONTROL control0 s in
  match status with
  | HAL_OK =>
      let control :=
        to_uint8 (Z.lor (Z.land control 191)
                        (Z.shiftl (Z.land (State_to_int enable) 1) DS3231_BBSQW)) in
      WriteRegister DS3231_REG_CONTROL control s
  | _ => (status, s)
  end.

Definition DS3231_GetBatterySquareWave (control0 : Z) (enable0 : DS3231_State)
           (s : i2c) : HAL_StatusTypeDef * DS3231_State * i2c :=
  let '(status, control, s) := ReadRegister DS3231_REG_CONTROL control0 s in
  match status with
  | HAL_OK =>
      (status, State_of_int (Z.land (Z.shiftr control DS3231_BBSQW) 1), s)
  | _ => (status, enable0, s)
  end.

Definition DS3231_SetOscillator (control0 : Z) (enable : DS3231_State)
           (s : i2c) : HAL_StatusTypeDef * i2c :=
  let '(status, control, s) := ReadRegister DS3231_REG_CONTROL control0 s in
  match status with
  | HAL_OK =>
      let control :=
        to_uint8 (Z.lor (Z.land control 127)
                        (Z.shiftl (Z.land (lnot_int (State_to_int enable)) 1)
                                  DS3231_EOSC)) in
      WriteRegister DS3231_REG_CONTROL control s
  | _ => (status, s)
  end.

(** No test of [status]: [*enable] is written from [data] in every case. *)
Definition DS3231_GetOscillatorStoppedFlag (data0 : Z) (s : i2c)
  : HAL_StatusTypeDef * DS3231_State * i2c :=
  let '(status, data, s) := ReadRegister DS3231_REG_STATUS data0 s in
  (status, State_of_int (Z.land (lnot_int (Z.shiftr data DS3231_OSF)) 1), s).

Definition DS3231_Set32kHzOutput (temp0 : Z) (enable : DS3231_State) (s : i2c)
  : HAL_StatusTypeDef * i2c :=
  let '(status, temp, s) := ReadRegister DS3231_REG_STATUS temp0 s in
  match status with
  | HAL_OK =>
      let temp := to_uint8 (Z.land temp 247) in
      let temp := to_uint8 (Z.lor temp (Z.shiftl (State_to_int enable) DS3231_EN32KHZ)) in
      WriteRegister DS3231_REG_STATUS temp s
  | _ => (status, s)
  end.

Definition DS3231_Get32kHzEnabled (data0 : Z) (s : i2c)
  : HAL_StatusTypeDef * DS3231_State * i2c :=
  let '(status, data, s) := ReadRegister DS3231_REG_STATUS data0 s in
  (status, State_of_int (Z.land (Z.shiftr data DS3231_EN32KHZ) 1), s).

Definition DS3231_SetInterruptMode (control0 : Z) (mode : DS3231_InterruptMode)
           (s : i2c) : HAL_StatusTypeDef * i2c :=
  let '(status, control, s) := ReadRegister DS3231_REG_CONTROL control0 s in
  match status with
  | HAL_OK =>
      let control :=
        to_uint8 (Z.lor (Z.land control 251)
                        (Z.shiftl (Z.land (InterruptMode_to_int mode) 1) DS3231_INTCN)) in
      WriteRegister DS3231_REG_CONTROL control s
  | _ => (status, s)
  end.

Definition DS3231_GetInterruptMode (control0 : Z) (mode0 : DS3231_InterruptMode)
           (s : i2c) : HAL_StatusTypeDef * DS3231_InterruptMode * i2c :=
  let '(status, control, s) := ReadRegister DS3231_REG_CONTROL control0 s in
  match status with
  | HAL_OK =>
      (status, InterruptMode_of_int (Z.land (Z.shiftr control DS3231_INTCN) 1), s)
  | _ => (status, mode0, s)
  end.

Definition DS3231_SetRateSelect (control0 : Z) (rate : DS3231_Rate) (s : i2c)
  : HAL_StatusTypeDef * i2c :=
  let '(status, control, s) := ReadRegister DS3231_REG_CONTROL control0 s in
  match status with
  | HAL_OK =>
      let control :=
        to_uint8 (Z.lor (Z.land control 231)
                        (Z.shiftl (Z.land (Rate_to_int rate) 3) DS3231_RS1)) in
      let '(status, s) := WriteRegister DS3231_REG_CONTROL control s in
      match status with
      | HAL_OK => DS3231_SetInterruptMode control0 DS3231_ALARM_INTERRUPT s
      | _ => (status, s)
      end
  | _ => (status, s)
  end.

Definition DS3231_GetRateSelect (control0 : Z) (rate0 : DS3231_Rate) (s : i2c)
  : HAL_StatusTypeDef * DS3231_Rate * i2c :=
  let '(status, control, s) := ReadRegister DS3231_REG_CONTROL control0 s in
  match status with
  | HAL_OK => (status, Rate_of_int (Z.land (Z.shiftr control DS3231_RS1) 3), s)
  | _ => (status, rate0, s)
  end.

(** The status of the write is not assigned: the test after it is on the
    status of the read. *)
Definition DS3231_SetAlarm1IntEn (control0 : Z) (enable : DS3231_State) (s : i2c)
  : HAL_StatusTypeDef * i2c :=
  let '(status, control, s) := ReadRegister DS3231_REG_CONTROL control0 s in
  match status with
  | HAL_OK =>
      let control :=
        to_uint8 (Z.lor (Z.land control 254)
                        (Z.shiftl (Z.land (State_to_int enable) 1) DS3231_A1IE)) in
      let '(_, s) := WriteRegister DS3231_REG_CONTROL control s in
      match status with
      | HAL_OK => DS3231_SetInterruptMode control0 DS3231_ALARM_INTERRUPT s
      | _ => (status, s)
      end
  | _ => (status, s)
  end.

Definition DS3231_GetAlarm1IntEn (control0 : Z) (enable0 : DS3231_State) (s : i2c)
  : HAL_StatusTypeDef * DS3231_State * i2c :=
  let '(status, control, s) := ReadRegister DS3231_REG_CONTROL control0 s in
  match status with
  | HAL_OK => (status, State_of_int (Z.land (Z.shiftr control DS3231_A1IE) 1), s)
  | _ => (status, enable0, s)
  end.

Definition DS3231_GetAlarm1Flag (data0 : Z) (s : i2c)
  : HAL_StatusTypeDef * DS3231_State * i2c :=
  let '(status, data, s) := ReadRegister DS3231_REG_STATUS data0 s in
  (status, State_of_int (Z.land (Z.shiftr data DS3231_A1F) 1), s).

Definition DS3231_ClearAlarm1Flag (control0 : Z) (s : i2c) : HAL_StatusTypeDef * i2c :=
  let '(status, control, s) := ReadRegister DS3231_REG_STATUS control0 s in
  match status with
  | HAL_OK =>
      let control := to_uint8 (Z.land control (Z.lnot (Z.shiftl 1 DS3231_A1F))) in
      WriteRegister DS3231_REG_STATUS control s
  | _ => (status, s)
  end.

Definition DS3231_SetAlarm2IntEn (control0 : Z) (enable : DS3231_State) (s : i2c)
  : HAL_StatusTypeDef * i2c :=
  let '(status, control, s) := ReadRegister DS3231_REG_CONTROL control0 s in
  match status with
  | HAL_OK =>
      let control :=
        to_uint8 (Z.lor (Z.land control 253)
                        (Z.shiftl (Z.land (State_to_int enable) 1) DS3231_A2IE)) in
      let '(status, s) := WriteRegister DS3231_REG_CONTROL control s in
      match status with
      | HAL_OK => DS3231_SetInterruptMode control0 DS3231_ALARM_INTERRUPT s
      | _ => (status, s)
      end
  | _ => (status, s)
  end.

Definition DS3231_GetAlarm2IntEn (control0 : Z) (enable0 : DS3231_State) (s : i2c)
  : HAL_StatusTypeDef * DS3231_State * i2c :=
  let '(status, control, s) := ReadRegister DS3231_REG_CONTROL control0 s in
  match status with
  | HAL_OK => (status, State_of_int (Z.land (Z.shiftr control DS3231_A2IE) 1), s)
  | _ => (status, enable0, s)
  end.

Definition DS3231_GetAlarm2Flag (data0 : Z) (s : i2c)
  : HAL_StatusTypeDef * DS3231_State * i2c :=
  let '(status, data, s) := ReadRegister DS3231_REG_STATUS data0 s in
  (status, State_of_int (Z.land (Z.shiftr data DS3231_A2F) 1), s).

Definition DS3231_ClearAlarm2Flag (control0 : Z) (s : i2c) : HAL_StatusTypeDef * i2c :=
  let '(status, control, s) := ReadRegister DS3231_REG_STATUS control0 s in
  match status with
  | HAL_OK =>
      let control := to_uint8 (Z.land control (Z.lnot (Z.shiftl 1 DS3231_A2F))) in
      WriteRegister DS3231_REG_STATUS control s
  | _ => (status, s)
  end.

Definition DS3231_SetAlarm1 (control0 : Z) (A1_st : Alarm1.D3231_Alarm1) (s : i2c)
  : HAL_StatusTypeDef * i2c :=
  let data := SetAlarm1_data A1_st in
  let '(status, s) := WriteRegisters DS3231_REG_A1_SECOND data 4 s in
  match status with
  | HAL_OK => DS3231_SetAlarm1IntEn control0 (Alarm1.IntEn A1_st) s
  | _ => (status, s)
  end.

Definition DS3231_GetAlarm1 (data0 : list Z) (control0 : Z)
           (A1_st : Alarm1.D3231_Alarm1) (s : i2c)
  : HAL_StatusTypeDef * Alarm1.D3231_Alarm1 * i2c :=
  let '(status, data, s) := DS3231_ReadRegisters DS3231_REG_A1_SECOND data0 4 s in
  match status with
  | HAL_OK =>
      let A1_st := GetAlarm1_fields data A1_st in
      let '(status, IntEn, s) := DS3231_GetAlarm1IntEn control0 (Alarm1.IntEn A1_st) s in
      (status,
       {| Alarm1.Seconds := Alarm1.Seconds A1_st;
          Alarm1.Minutes := Alarm1.Minutes A1_st;
          Alarm1.Hours := Alarm1.Hours A1_st;
          Alarm1.DayDate := Alarm1.DayDate A1_st;
          Alarm1.Mode := Alarm1.Mode A1_st;
          Alarm1.IntEn := IntEn |}, s)
  | _ => (status, A1_st, s)
  end.

Definition DS3231_SetAlarm2 (control0 : Z) (A2_st : Alarm2.D3231_Alarm2) (s : i2c)
  : HAL_StatusTypeDef * i2c :=
  let data := SetAlarm2_data A2_st in
  let '(status, s) := WriteRegisters DS3231_REG_A2_MINUTE data 3 s in
  match status with
  | HAL_OK => DS3231_SetAlarm2IntEn control0 (Alarm2.IntEn A2_st) s
  | _ => (status, s)
  end.

Definition DS3231_GetAlarm2 (data0 : list Z) (control0 : Z)
           (A2_st : Alarm2.D3231_Alarm2) (s : i2c)
  : HAL_StatusTypeDef * Alarm2.D3231_Alarm2 * i2c :=
  let '(status, data, s) := DS3231_ReadRegisters DS3231_REG_A2_MINUTE data0 3 s in
  match status with
  | HAL_OK =>
      let A2_st := GetAlarm2_fields data A2_st in
      let '(status, IntEn, s) := DS3231_GetAlarm2IntEn control0 (Alarm2.IntEn A2_st) s in
      (status,
       {| Alarm2.Minutes := Alarm2.Minutes A2_st;
          Alarm2.Hours := Alarm2.Hours A2_st;
          Alarm2.DayDate := Alarm2.DayDate A2_st;
          Alarm2.Mode := Alarm2.Mode A2_st;
          Alarm2.IntEn := IntEn |}, s)
  | _ => (status, A2_st, s)
  end.

Definition DS3231_GetDateTime (buffer0 : list Z) (regSTATUS0 : Z)
           (dt : DS3231_DateTime) (s : i2c)
  : HAL_StatusTypeDef * DS3231_DateTime * i2c :=
  let '(status, buffer, s) := DS3231_ReadRegisters DS3231_REG_SECOND buffer0 7 s in
  match status with
  | HAL_OK =>
      let dt := GetDateTime_fields buffer dt in
      let '(status, regSTATUS, s) := ReadRegister DS3231_REG_STATUS regSTATUS0 s in
      match status with
      | HAL_OK =>
          let regSTATUS := to_uint8 (Z.land regSTATUS 128) in
          let regSTATUS := to_uint8 (Z.shiftr regSTATUS DS3231_EOSC) in
          (status,
           {| Day := Day dt; Date := Date dt; Month := Month dt; Year := Year dt;
              Hour_24mode := Hour_24mode dt; Minute := Minute dt;
              Second := Second dt;
              Enable := if c_true regSTATUS then DS3231_DISABLED
                        else DS3231_ENABLED |}, s)
      | _ => (status, dt, s)
      end
  | _ => (status, dt, s)
  end.

(** [DS3231_device = i2cHandle] selects the transport, which is [i2c]
    here. *)
Definition DS3231_Init (control0 : Z) (s : i2c) : HAL_StatusTypeDef * i2c :=
  let '(status, s) := DS3231_SetAlarm1IntEn control0 DS3231_DISABLED s in
  match status with
  | HAL_OK =>
      let '(status, s) := DS3231_SetAlarm2IntEn control0 DS3231_DISABLED s in
      match status with
      | HAL_OK =>
          let '(status, s) := DS3231_ClearAlarm1Flag control0 s in
          match status with
          | HAL_OK =>
              let '(status, s) := DS3231_ClearAlarm2Flag control0 s in
              match status with
              | HAL_OK => DS3231_Set32kHzOutput control0 DS3231_DISABLED s
              | _ => (status, s)
              end
          | _ => (status, s)
          end
      | _ => (status, s)
      end
  | _ => (status, s)
  end.

End Driver.

(** ** A device that keeps what is written *)

(** [content s r] is the byte in register [r] of the device in state [s]:
    a read that succeeds returns the content and changes none of it, a
    write that succeeds stores its bytes and changes no other register. *)
Record memory_device (i2c : Type)
       (HAL_I2C_Mem_Write : Z -> list Z -> i2c -> HAL_StatusTypeDef * i2c)
       (HAL_I2C_Mem_Read : Z -> nat -> i2c -> HAL_StatusTypeDef * list Z * i2c)
       (content : i2c -> Z -> Z) : Prop := {
  content_byte : forall s r, 0 <= content s r < 256;
  read_content : forall reg len s bytes s',
    HAL_I2C_Mem_Read reg len s = (HAL_OK, bytes, s') ->
    bytes = map (fun k => content s (reg + Z.of_nat k)) (seq 0 len) /\
    forall r, content s' r = content s r;
  write_content : forall reg data s s',
    HAL_I2C_Mem_Write reg data s = (HAL_OK, s') ->
    forall r,
      content s' r
      = if (reg <=? r) && (r <? reg + Z.of_nat (length data))
        then to_uint8 (nth (Z.to_nat (r - reg)) data 0)
        else content s r
}.

(** A register file: every access succeeds. *)
Definition regfile : Type := Z -> Z.

Definition regfile_write (reg : Z) (data : list Z) (s : regfile)
  : HAL_StatusTypeDef * regfile :=
  (HAL_OK,
   fun r => if (reg <=? r) && (r <? reg + Z.of_nat (length data))
            then nth (Z.to_nat (r - reg)) data 0
            else s r).

Definition regfile_read (reg : Z) (len : nat) (s : regfile)
  : HAL_StatusTypeDef * list Z * regfile :=
  (HAL_OK, map (fun k => to_uint8 (s (reg + Z.of_nat k))) (seq 0 len), s).

Definition regfile_content (s : regfile) (r : Z) : Z := to_uint8 (s r).

Definition regfile_ones : regfile := fun _ => 255.

(** A transport whose first write fails and whose other accesses are those
    of the register file; the state counts the writes. *)
Definition flaky_write (reg : Z) (data : list Z) (s : nat * regfile)
  : HAL_StatusTypeDef * (nat * regfile) :=
  match fst s with
  | O => (HAL_ERROR, (1%nat, snd s))
  | S n => (HAL_OK, (S (S n), snd (regfile_write reg data (snd s))))
  end.

Definition flaky_read (reg : Z) (len : nat) (s : nat * regfile)
  : HAL_StatusTypeDef * list Z * (nat * regfile) :=
  (HAL_OK, snd (fst (regfile_read reg len (snd s))), s).

Definition day_rollover_check (flag m : Z) : bool :=
  days_before_month (m + 1) + (if (2 <? m + 1) && (flag =? 1) then 1 else 0)
  =? days_before_month m + (if (2 <? m) && (flag =? 1) then 1 else 0)
     + flag_month_length flag m.

Definition bcd_mask_check (mask hi : Z) : bool :=
  forallb (fun x => DS3231_DecodeBCD (Z.land (DS3231_EncodeBCD x) mask) =? x)
          (Zrange 0 hi).

Definition eosc_check (c : Z) : bool :=
  (Z.land (Z.shiftr (to_uint8 (Z.land c 127)) 7) 1 =? 0)
  && (Z.land (Z.shiftr (to_uint8 (Z.lor c 128)) 7) 1 =? 1).

Definition alarm_mode_bits_check (m : Z) : bool :=
  (to_uint8 (Z.lor (Z.lor (Z.lor (Z.lor (Z.land m 1) (Z.land m 2)) (Z.land m 4))
                          (Z.land m 8)) (Z.land m 16)) =? Z.land m 31)
  && (to_uint8 (Z.lor (Z.lor (Z.lor (Z.land m 1) (Z.land m 2)) (Z.land m 4))
                      (Z.land m 8)) =? Z.land m 15).

(** A register byte [EncodeBCD x | flags], with the flag of bit 7 taken
    from bit [bit] of the mode by a shift of [sh]: the flag is read back
    and the value is decoded under the mask. *)
Definition alarm_byte_check (bit sh mask x m : Z) : bool :=
  let byte :=
    to_uint8 (Z.lor (DS3231_EncodeBCD x) (to_uint8 (Z.shiftl (Z.land m bit) sh))) in
  (DS3231_DecodeBCD (Z.land byte mask) =? x)
  && (Z.shiftr (Z.land byte 128) sh =? Z.land m bit).

(** The day/date byte, with its two flags: bit 7 from bit [bit7] of the
    mode and bit 6 (day of the week or day of the month) from bit [bit6]. *)
Definition alarm_daydate_check (bit7 sh7 bit6 sh6 x m : Z) : bool :=
  let byte :=
    to_uint8 (Z.lor (Z.lor (DS3231_EncodeBCD x)
                           (to_uint8 (Z.shiftl (Z.land m bit6) sh6)))
                    (to_uint8 (Z.shiftl (Z.land m bit7) sh7))) in
  (Z.shiftr (Z.land byte 128) sh7 =? Z.land m bit7)
  && (Z.shiftr (Z.land byte 64) sh6 =? Z.land m bit6)
  && (if c_true (to_uint8 (Z.shiftr (Z.land byte 64) 6))
      then negb (Z.land m bit6 =? 0)
           && ((9 <? x) || (DS3231_DecodeBCD (Z.land byte 15) =? x))
      else (Z.land m bit6 =? 0) && (DS3231_DecodeBCD (Z.land byte 63) =? x)).

Definition forallb2 (P : Z -> Z -> bool) (hi : Z) : bool :=
  forallb (fun x => forallb (P x) (Zrange 0 255)) (Zrange 0 hi).

(** Writing the field [v] (of width mask [width], at bit [shift]) into the
    byte [c], [keep] being the mask of the other bits: the field reads back
    and the other bits are kept. *)
Definition set_field_check (keep width shift v c : Z) : bool :=
  let new := to_uint8 (Z.lor (Z.land c keep) (Z.shiftl (Z.land v width) shift)) in
  (Z.land (Z.shiftr new shift) width =? v) && (Z.land new keep =? Z.land c keep)
  && (new =? Z.lor (Z.land c keep) (Z.shiftl v shift)).

Definition set_32khz_check (v c : Z) : bool :=
  let new := to_uint8 (Z.lor (to_uint8 (Z.land c 247)) (Z.shiftl v DS3231_EN32KHZ)) in
  (Z.land (Z.shiftr new DS3231_EN32KHZ) 1 =? v) && (Z.land new 247 =? Z.land c 247)
  && (new =? Z.lor (Z.land c 247) (Z.shiftl v 3)).

Definition clear_flag_check (bit keep c : Z) : bool :=
  let new := to_uint8 (Z.land c (Z.lnot (Z.shiftl 1 bit))) in
  (new =? Z.land c keep) && (Z.land (Z.shiftr new bit) 1 =? 0).

(** The bytes written by the setters that end with
    [DS3231_SetInterruptMode(DS3231_ALARM_INTERRUPT)], and by
    [DS3231_Init]. *)
Definition set_INTCN_alarm (c : Z) : Z :=
  to_uint8 (Z.lor (Z.land c 251)
                  (Z.shiftl (Z.land (InterruptMode_to_int DS3231_ALARM_INTERRUPT) 1)
                            DS3231_INTCN)).

Definition rate_select_byte (v c : Z) : Z :=
  set_INTCN_alarm (to_uint8 (Z.lor (Z.land c 231) (Z.shiftl (Z.land v 3) DS3231_RS1))).

Definition alarm1_enable_byte (v c : Z) : Z :=
  set_INTCN_alarm (to_uint8 (Z.lor (Z.land c 254) (Z.shiftl (Z.land v 1) DS3231_A1IE))).

Definition alarm2_enable_byte (v c : Z) : Z :=
  set_INTCN_alarm (to_uint8 (Z.lor (Z.land c 253) (Z.shiftl (Z.land v 1) DS3231_A2IE))).

Definition init_status_byte (c : Z) : Z :=
  let c := to_uint8 (Z.land c (Z.lnot (Z.shiftl 1 DS3231_A1F))) in
  let c := to_uint8 (Z.land c (Z.lnot (Z.shiftl 1 DS3231_A2F))) in
  to_uint8 (Z.lor (to_uint8 (Z.land c 247))
                  (Z.shiftl (State_to_int DS3231_DISABLED) DS3231_EN32KHZ)).

Definition rate_select_check (v c : Z) : bool :=
  let n := rate_select_byte v c in
  (Z.land (Z.shiftr n DS3231_RS1) 3 =? v)
  && (Z.land (Z.shiftr n DS3231_INTCN) 1 =? 1)
  && (Z.land n 227 =? Z.land c 227).

Definition alarm1_enable_check (v c : Z) : bool :=
  let n := alarm1_enable_byte v c in
  (Z.land (Z.shiftr n DS3231_A1IE) 1 =? v)
  && (Z.land (Z.shiftr n DS3231_INTCN) 1 =? 1)
  && (Z.land n 250 =? Z.land c 250).

Definition alarm2_enable_check (v c : Z) : bool :=
  let n := alarm2_enable_byte v c in
  (Z.land (Z.shiftr n DS3231_A2IE) 1 =? v)
  && (Z.land (Z.shiftr n DS3231_INTCN) 1 =? 1)
  && (Z.land n 249 =? Z.land c 249).

Definition init_check (c : Z) : bool :=
  (alarm2_enable_byte 0 (alarm1_enable_byte 0 c) =? Z.lor (Z.land c 248) 4)
  && (init_status_byte c =? Z.land c 244).

(** The oscillator flag as [DS3231_GetDateTime] and as
    [DS3231_GetOscillatorStoppedFlag] compute it from the status byte. *)
Definition oscillator_flag_check (c : Z) : bool :=
  let regSTATUS := to_uint8 (Z.shiftr (to_uint8 (Z.land c 128)) DS3231_EOSC) in
  Bool.eqb (c_true regSTATUS) (negb (Z.land (Z.shiftr c 7) 1 =? 0))
  && (Z.land (lnot_int (Z.shiftr c DS3231_OSF)) 1
      =? (if Z.land (Z.shiftr c 7) 1 =? 0 then 1 else 0)).

(** * Properties *)

Lemma Zrange_In lo hi x : lo <= x <= hi -> In x (Zrange lo hi).
Proof.
  intros H. unfold Zrange. apply in_map_iff.
  exists (Z.to_nat (x - lo)). split; [lia|].
  apply in_seq. lia.
Qed.

Lemma forallb_Zrange (P : Z -> bool) lo hi :
  forallb P (Zrange lo hi) = true -> forall x, lo <= x <= hi -> P x = true.
Proof.
  intros H x Hx. rewrite forallb_forall in H. apply H, Zrange_In, Hx.
Qed.

(** ** Machine integers: small values are not changed *)

Lemma to_uint8_small x : 0 <= x < 256 -> to_uint8 x = x.
Proof. intros H. unfold to_uint8. apply Z.mod_small. change (2 ^ 8) with 256. lia. Qed.

Lemma to_uint8_idem_mod x : to_uint8 (to_uint8 x) = to_uint8 x.
Proof. unfold to_uint8. apply Z.mod_mod. discriminate. Qed.

Lemma to_uint16_small x : 0 <= x < 65536 -> to_uint16 x = x.
Proof. intros H. unfold to_uint16. apply Z.mod_small. change (2 ^ 16) with 65536. lia. Qed.

Lemma to_uint32_small x : 0 <= x < 4294967296 -> to_uint32 x = x.
Proof.
  intros H. unfold to_uint32. apply Z.mod_small.
  change (2 ^ 32) with 4294967296. lia.
Qed.

Lemma array_get_nth a i :
  0 <= i < Z.of_nat (length a) -> array_get a i = Done (nth (Z.to_nat i) a 0).
Proof.
  intros H. unfold array_get.
  destruct (Z.ltb_spec i 0) as [Hneg|_]; [lia|].
  destruct (nth_error a (Z.to_nat i)) as [v|] eqn:E.
  - f_equal. symmetry. apply nth_error_nth, E.
  - apply nth_error_None in E. lia.
Qed.

(** ** BCD *)

Lemma EncodeBCD_digits dec :
  0 <= dec <= 99 -> DS3231_EncodeBCD dec = dec mod 10 + 16 * (dec / 10).
Proof.
  intros H. unfold DS3231_EncodeBCD.
  rewrite Z.shiftl_mul_pow2 by lia. change (2 ^ 4) with 16.
  rewrite to_uint8_small; [lia|].
  assert (0 <= dec mod 10 < 10) by (apply Z.mod_pos_bound; lia).
  assert (0 <= dec / 10 < 10).
  { split; [apply Z.div_pos; lia | apply Z.div_lt_upper_bound; lia]. }
  lia.
Qed.

Lemma DecodeBCD_digits lo hi :
  0 <= lo < 16 -> 0 <= hi < 16 ->
  DS3231_DecodeBCD (lo + 16 * hi) = to_uint8 (hi * 10 + lo).
Proof.
  intros Hlo Hhi. unfold DS3231_DecodeBCD.
  change 240 with (Z.shiftl 15 4).
  assert (Hhigh : Z.shiftr (Z.land (lo + 16 * hi) (Z.shiftl 15 4)) 4 = hi).
  { rewrite Z.shiftr_land, Z.shiftr_shiftl_l by lia.
    change (Z.shiftl 15 (4 - 4)) with (Z.ones 4).
    rewrite Z.land_ones, Z.shiftr_div_pow2 by lia. change (2 ^ 4) with 16.
    replace ((lo + 16 * hi) / 16) with hi.
    - apply Z.mod_small; lia.
    - apply Z.div_unique with (r := lo); lia. }
  assert (Hlow : Z.land (lo + 16 * hi) 15 = lo).
  { change 15 with (Z.ones 4). rewrite Z.land_ones by lia. change (2 ^ 4) with 16.
    symmetry. apply Z.mod_unique with (q := hi); lia. }
  rewrite Hhigh, Hlow. reflexivity.
Qed.

(** C10. For every [d] with [0 <= d <= 99], decoding the BCD encoding of
    [d] gives [d] back: [DS3231_DecodeBCD (DS3231_EncodeBCD d) = d]. *)
Theorem DecodeBCD_EncodeBCD (d : Z) :
  0 <= d <= 99 -> DS3231_DecodeBCD (DS3231_EncodeBCD d) = d.
Proof.
  intros H. rewrite EncodeBCD_digits by exact H.
  assert (0 <= d mod 10 < 10) by (apply Z.mod_pos_bound; lia).
  assert (0 <= d / 10 < 10).
  { split; [apply Z.div_pos; lia | apply Z.div_lt_upper_bound; lia]. }
  rewrite DecodeBCD_digits by lia.
  rewrite to_uint8_small by lia.
  pose proof (Z.div_mod d 10). lia.
Qed.

Lemma DecodeBCD_EncodeBCD_59 :
  0 <= 59 <= 99 /\ DS3231_DecodeBCD (DS3231_EncodeBCD 59) = 59.
Proof. split; [lia | apply (DecodeBCD_EncodeBCD 59); lia]. Defined.

(** ** The checks of DS3231_SetDateTime *)

Lemma or_of_bounds x lo hi :
  lo <= hi + 1 -> Z.lor (ge_int x lo) (le_int x hi) = 1.
Proof.
  intros H. unfold ge_int, le_int.
  destruct (Z.leb_spec lo x), (Z.leb_spec x hi); simpl; try reflexivity; lia.
Qed.

(** C9. Each of the seven checks of [DS3231_SetDateTime] is the bitwise or
    of "at or above the minimum" and "at or below the maximum", which is 1
    for every value of the field; so for every input the checks fill the
    buffer and no [return HAL_ERROR] of theirs is taken: the status the
    function returns is the one of its bus accesses. *)
Theorem SetDateTime_checks_never_reject
        (i2c : Type)
        (HAL_I2C_Mem_Write : Z -> list Z -> i2c -> HAL_StatusTypeDef * i2c)
        (HAL_I2C_Mem_Read : Z -> nat -> i2c -> HAL_StatusTypeDef * list Z * i2c)
        (buffer0 : list Z) (regCONTROL0 : Z) (dt : DS3231_DateTime) (s : i2c) :
  check_Day dt = 1 /\ check_Date dt = 1 /\ check_Month dt = 1 /\
  check_Year dt = 1 /\ check_Hour_24mode dt = 1 /\ check_Minute dt = 1 /\
  check_Second dt = 1 /\
  (exists buffer, SetDateTime_checks buffer0 dt = inr buffer) /\
  SetDateTime_checks buffer0 dt <> inl HAL_ERROR /\
  exists buffer,
    DS3231_SetDateTime i2c HAL_I2C_Mem_Write HAL_I2C_Mem_Read buffer0 regCONTROL0 dt s
    = SetDateTime_write i2c HAL_I2C_Mem_Write HAL_I2C_Mem_Read buffer regCONTROL0 dt s.
Proof.
  assert (HD : check_Day dt = 1) by (apply or_of_bounds; lia).
  assert (HT : check_Date dt = 1) by (apply or_of_bounds; lia).
  assert (HM : check_Month dt = 1) by (apply or_of_bounds; lia).
  assert (HY : check_Year dt = 1) by (apply or_of_bounds; lia).
  assert (HH : check_Hour_24mode dt = 1) by (apply or_of_bounds; lia).
  assert (HI : check_Minute dt = 1) by (apply or_of_bounds; lia).
  assert (HS : check_Second dt = 1) by (apply or_of_bounds; lia).
  assert (E : exists buffer, SetDateTime_checks buffer0 dt = inr buffer).
  { unfold SetDateTime_checks. rewrite HD, HT, HM, HY, HH, HI, HS. simpl.
    eexists. reflexivity. }
  repeat (split; [assumption|]).
  destruct E as [buffer E]. split.
  - rewrite E. discriminate.
  - exists buffer. unfold DS3231_SetDateTime. rewrite E. reflexivity.
Qed.

(** ** DS3231_ToUnixTime on valid dates *)

Lemma add_month_days_table : forallb add_month_days_check (Zrange 1 12) = true.
Proof. vm_compute. reflexivity. Qed.

Lemma add_month_days_check_true m :
  1 <= m <= 12 ->
  (forall d, 1 <= d <= 31 ->
     match add_month_days 256 1 m (d - 1) with
     | Done v => v =? days_before_month m + (d - 1)
     | _ => false
     end = true) /\
  0 <= days_before_month m <= 334 /\
  28 <= nth (Z.to_nat (m - 1)) days_in_month 0 <= 31.
Proof.
  intros Hm.
  pose proof (forallb_Zrange _ _ _ add_month_days_table m Hm) as H.
  unfold add_month_days_check in H.
  do 4 (apply andb_prop in H; let H' := fresh "B" in destruct H as [H H']).
  split; [|lia].
  intros d Hd. apply (forallb_Zrange _ _ _ H d Hd).
Qed.

Lemma add_month_days_valid m d :
  1 <= m <= 12 -> 1 <= d <= 31 ->
  add_month_days 256 1 m (d - 1) = Done (days_before_month m + (d - 1)).
Proof.
  intros Hm Hd.
  destruct (add_month_days_check_true m Hm) as [H _]. specialize (H d Hd).
  destruct (add_month_days 256 1 m (d - 1)); try discriminate.
  f_equal. apply Z.eqb_eq, H.
Qed.

Lemma days_before_month_range m :
  1 <= m <= 12 -> 0 <= days_before_month m <= 334.
Proof. intros Hm. apply (add_month_days_check_true m Hm). Qed.

Lemma days_in_month_range m :
  1 <= m <= 12 -> 28 <= nth (Z.to_nat (m - 1)) days_in_month 0 <= 31.
Proof. intros Hm. apply (add_month_days_check_true m Hm). Qed.

Lemma month_length_range y m : 1 <= m <= 12 -> 28 <= month_length y m <= 31.
Proof.
  intros Hm. unfold month_length.
  destruct ((m =? 2) && is_leap y); [lia | apply days_in_month_range, Hm].
Qed.

(** The value the function writes for a year from 2000 on, when nothing
    wraps: the seconds since 2000-01-01 plus the offset to 1970-01-01. *)
Lemma ToUnixTime_valid_fields t unixtime :
  2000 <= Year t <= 2099 -> 1 <= Month t <= 12 -> 1 <= Date t <= 31 ->
  0 <= Hour_24mode t <= 23 -> 0 <= Minute t <= 59 -> 0 <= Second t <= 59 ->
  DS3231_ToUnixTime t unixtime
  = Done (seconds_since_2000 t + SECONDS_FROM_1970_TO_2000).
Proof.
  intros Hy Hm Hd Hh Hi Hs.
  unfold DS3231_ToUnixTime, seconds_since_2000, total_days.
  destruct (Z.leb_spec 2000 (Year t)) as [_|?]; [|lia].
  rewrite (to_uint16_small (Year t - 2000)) by lia.
  rewrite (to_uint16_small (Date t - 1)) by lia.
  rewrite add_month_days_valid by assumption. cbn [bind].
  pose proof (days_before_month_range _ Hm) as Hb.
  set (y := Year t - 2000) in *. set (b := days_before_month (Month t)) in *.
  assert (Hy' : 0 <= y <= 99) by (unfold y; lia).
  assert (Hq : 0 <= (y + 3) / 4 < 26).
  { split; [apply Z.div_pos; lia | apply Z.div_lt_upper_bound; lia]. }
  unfold SECONDS_FROM_1970_TO_2000.
  destruct ((2 <? Month t) && (y mod 4 =? 0)).
  - rewrite (to_uint16_small (b + (Date t - 1) + 1)) by lia.
    rewrite to_uint16_small by lia.
    rewrite to_uint32_small by lia. f_equal; lia.
  - rewrite to_uint16_small by lia.
    rewrite to_uint32_small by lia. f_equal; lia.
Qed.

Lemma valid_t_2000_01_01 : valid_DateTime t_2000_01_01.
Proof.
  unfold valid_DateTime, valid_date. cbn.
  repeat split; try lia; vm_compute; congruence.
Qed.

Lemma valid_t_2000_12_31 : valid_DateTime t_2000_12_31.
Proof.
  unfold valid_DateTime, valid_date. cbn.
  repeat split; try lia; vm_compute; congruence.
Qed.

(** C4, the claim as stated fails: for 2000-01-01T00:00:00 the formula of
    steps 2-7 gives 0, and the function writes 946684800. *)
Lemma ToUnixTime_has_offset :
  valid_DateTime t_2000_01_01 /\
  seconds_since_2000 t_2000_01_01 = 0 /\
  DS3231_ToUnixTime t_2000_01_01 0 = Done 946684800 /\
  DS3231_ToUnixTime t_2000_01_01 0 <> Done (seconds_since_2000 t_2000_01_01).
Proof.
  split; [exact valid_t_2000_01_01|].
  split; [reflexivity|]. split; [reflexivity|].
  vm_compute. discriminate.
Qed.

(** C4, amended. For every valid broken-down time [t] with year in
    2000-2099, [DS3231_ToUnixTime] writes
    [((total_days * 24 + hour) * 60 + minute) * 60 + second + 946684800]:
    the seconds since 2000-01-01 of steps 2-7 plus
    [SECONDS_FROM_1970_TO_2000], a count anchored at 1970-01-01. *)
Theorem ToUnixTime_formula (t : DS3231_DateTime) (unixtime : Z) :
  valid_DateTime t ->
  DS3231_ToUnixTime t unixtime
  = Done (((total_days t * 24 + Hour_24mode t) * 60 + Minute t) * 60 + Second t
          + 946684800).
Proof.
  intros (Hy & [Hm Hd] & Hh & Hi & Hs & _).
  pose proof (month_length_range (Year t) _ Hm).
  apply ToUnixTime_valid_fields; lia.
Qed.

Lemma ToUnixTime_formula_2000_12_31 :
  valid_DateTime t_2000_12_31 /\
  DS3231_ToUnixTime t_2000_12_31 0
  = Done (((total_days t_2000_12_31 * 24 + 0) * 60 + 0) * 60 + 0 + 946684800).
Proof.
  assert (Hv : valid_DateTime t_2000_12_31).
  { unfold valid_DateTime, valid_date. cbn.
    repeat split; try lia; vm_compute; congruence. }
  split; [exact Hv|].
  exact (ToUnixTime_formula t_2000_12_31 0 Hv).
Defined.

(** C5, the claim as stated fails: with the year 1999 the call returns as
    any other call does, and the caller's variable holds what it held
    before, here the very value written for 2000-01-01T00:00:00. *)
Lemma ToUnixTime_1999_not_signalled :
  Year t_1999_12_31 = 1999 /\
  DS3231_ToUnixTime t_1999_12_31 946684800 = Done 946684800 /\
  DS3231_ToUnixTime t_2000_01_01 946684800 = Done 946684800.
Proof. repeat split. Qed.

(** C5, amended. For every input with a year below 2000,
    [DS3231_ToUnixTime] returns without writing [*unixtime]: the caller's
    variable keeps the value it had before the call, so no negative or
    wrapped count is produced; the function returns [void] and signals
    nothing. *)
Theorem ToUnixTime_before_2000 (dt : DS3231_DateTime) (unixtime : Z) :
  Year dt < 2000 -> DS3231_ToUnixTime dt unixtime = Done unixtime.
Proof.
  intros H. unfold DS3231_ToUnixTime.
  destruct (Z.leb_spec 2000 (Year dt)); [lia | reflexivity].
Qed.

Lemma ToUnixTime_before_2000_at_1999 :
  Year t_1999_12_31 < 2000 /\ DS3231_ToUnixTime t_1999_12_31 77 = Done 77.
Proof.
  split; [cbn; lia | apply (ToUnixTime_before_2000 t_1999_12_31 77); cbn; lia].
Defined.

(** ** DS3231_ToDateTime at given instants *)

(** C6. The count of 2000-01-01T00:00:00, which is 946684800 (what
    [DS3231_ToUnixTime] writes for that date), is converted by
    [DS3231_ToDateTime] to year 2000, month 1, day 1, 00:00:00, weekday 6
    (Saturday). *)
Theorem ToDateTime_2000_01_01 (dt : DS3231_DateTime) :
  DS3231_ToUnixTime (mkDateTime 6 1 1 2000 0 0 0 (Enable dt)) 0 = Done 946684800 /\
  DS3231_ToDateTime 946684800 dt = Done (mkDateTime 6 1 1 2000 0 0 0 (Enable dt)).
Proof. split; vm_compute; reflexivity. Qed.

(** ** Termination: the loops over the months *)

Lemma array_get_not_OutOfFuel a i : array_get a i <> OutOfFuel.
Proof.
  unfold array_get. destruct (i <? 0); [discriminate|].
  destruct (nth_error a (Z.to_nat i)); discriminate.
Qed.

(** The [for] loop of [DS3231_ToUnixTime] ends within [months - i]
    iterations (or at a read outside the table). *)
Lemma add_month_days_terminates fuel :
  forall i months days,
    0 <= i -> months <= 255 -> Z.max 0 (months - i) < Z.of_nat fuel ->
    add_month_days fuel i months days <> OutOfFuel.
Proof.
  induction fuel as [|fuel IH]; intros i months days Hi Hm Hf; [lia|].
  cbn [add_month_days]. destruct (Z.ltb_spec i months) as [Hlt|Hge]; [|discriminate].
  destruct (array_get days_in_month (i - 1)) as [v|j|] eqn:E; cbn [bind].
  - rewrite (to_uint8_small (i + 1)) by lia. apply IH; lia.
  - discriminate.
  - destruct (array_get_not_OutOfFuel _ _ E).
Qed.

Lemma ToUnixTime_terminates dt unixtime :
  wf_DateTime dt -> DS3231_ToUnixTime dt unixtime <> OutOfFuel.
Proof.
  intros (_ & _ & Hm & _). unfold is_uint8 in Hm. change (2 ^ 8) with 256 in Hm.
  unfold DS3231_ToUnixTime. destruct (2000 <=? Year dt); [|discriminate].
  destruct (add_month_days 256 1 (Month dt) (to_uint16 (Date dt - 1))) eqn:E;
    cbn [bind]; try discriminate.
  exfalso. revert E. apply add_month_days_terminates; lia.
Qed.

(** The loops of [DS3231_ToDateTime] over the months end within 13
    iterations, whatever the number of days: at index 12 they read outside
    the table. *)
Lemma month_loop_terminates fuel :
  forall index month extraDays,
    0 <= index <= 12 -> 12 - index < Z.of_nat fuel ->
    month_loop fuel index month extraDays <> OutOfFuel.
Proof.
  induction fuel as [|fuel IH]; intros index month e Hi Hf; [lia|].
  cbn [month_loop].
  destruct (Z.eq_dec index 12) as [->|Hne]; [discriminate|].
  rewrite array_get_nth by (cbn; lia). cbn [bind].
  destruct (e - _ <? 0); [discriminate|].
  rewrite (to_uint8_small (index + 1)) by lia. apply IH; lia.
Qed.

Lemma month_loop_leap_terminates fuel :
  forall index month extraDays,
    0 <= index <= 12 -> 12 - index < Z.of_nat fuel ->
    month_loop_leap fuel index month extraDays <> OutOfFuel.
Proof.
  induction fuel as [|fuel IH]; intros index month e Hi Hf; [lia|].
  cbn [month_loop_leap].
  destruct (Z.eqb_spec index 1) as [->|Hne1].
  - destruct (e - 29 <? 0); [discriminate|]. apply IH; cbn; lia.
  - destruct (Z.eq_dec index 12) as [->|Hne]; [discriminate|].
    rewrite array_get_nth by (cbn; lia). cbn [bind].
    destruct (e - _ <? 0); [discriminate|].
    rewrite (to_uint8_small (index + 1)) by lia. apply IH; lia.
Qed.

Lemma month_and_date_terminates flag extraDays :
  month_and_date flag extraDays <> OutOfFuel.
Proof.
  unfold month_and_date.
  assert (H : (if flag =? 1 then month_loop_leap 13 0 0 extraDays
               else month_loop 13 0 0 extraDays) <> OutOfFuel).
  { destruct (flag =? 1);
      [apply month_loop_leap_terminates | apply month_loop_terminates]; cbn; lia. }
  destruct (if flag =? 1 then _ else _) as [[m e]|i|]; cbn [bind];
    [|discriminate|exact H].
  destruct (0 <? e); [discriminate|].
  destruct ((m =? 2) && (flag =? 1)); [discriminate|].
  destruct (array_get days_in_month (m - 1)) eqn:E; cbn [bind]; try discriminate.
  destruct (array_get_not_OutOfFuel _ _ E).
Qed.

(** ** Termination: the year loop *)

Lemma year_length_cases y : year_length y = 365 \/ year_length y = 366.
Proof. unfold year_length. destruct (is_leap y); auto. Qed.

(** With a budget above the number of days the loop reaches its [break];
    it leaves less than a year of days and accounts for the others. *)
Lemma year_loop_done fuel :
  forall y d, 0 <= d < Z.of_nat fuel ->
  exists y' d',
    year_loop fuel y d = Done (y', d') /\
    y <= y' /\ 0 <= d' < year_length y' /\ 365 * (y' - y) <= d - d'.
Proof.
  induction fuel as [|fuel IH]; intros y d Hd; [lia|].
  cbn [year_loop]. destruct (is_leap y) eqn:E.
  - destruct (Z.ltb_spec d 366) as [Hlt|Hge].
    + exists y, d. unfold year_length. rewrite E. repeat split; lia.
    + destruct (IH (y + 1) (d - 366)) as (y' & d' & H & ? & ? & ?); [lia|].
      exists y', d'. rewrite H. repeat split; lia.
  - destruct (Z.ltb_spec d 365) as [Hlt|Hge].
    + exists y, d. unfold year_length. rewrite E. repeat split; lia.
    + destruct (IH (y + 1) (d - 365)) as (y' & d' & H & ? & ? & ?); [lia|].
      exists y', d'. rewrite H. repeat split; lia.
Qed.

Lemma days_of_uint32 u :
  is_uint32 u -> 0 <= u / (24 * 60 * 60) <= 49710 /\ 0 <= u mod (24 * 60 * 60) < 86400.
Proof.
  unfold is_uint32. change (2 ^ 32) with 4294967296.
  change (24 * 60 * 60) with 86400. intros H.
  Z.div_mod_to_equations. lia.
Qed.

(** The values of the [int32_t] locals [currYear] and [daysTillNow] after
    the loop, for every 32-bit input. *)
Lemma year_loop_range u :
  is_uint32 u ->
  exists y d,
    year_loop (S (Z.to_nat (u / (24 * 60 * 60)))) 1970 (u / (24 * 60 * 60))
    = Done (y, d) /\
    1970 <= y <= 2106 /\ 0 <= d < year_length y.
Proof.
  intros Hu. destruct (days_of_uint32 u Hu) as [Hd _].
  destruct (year_loop_done (S (Z.to_nat (u / (24 * 60 * 60)))) 1970
                           (u / (24 * 60 * 60)))
    as (y & d & H & ? & ? & ?); [lia|].
  exists y, d. repeat split; try assumption; lia.
Qed.

(** ** The calendar behind the year loop *)

Lemma is_leap_mod y :
  0 <= y ->
  is_leap y = (y mod 400 =? 0) || ((y mod 4 =? 0) && negb (y mod 100 =? 0)).
Proof.
  intros H. unfold is_leap. rewrite !Z.rem_mod_nonneg by lia. reflexivity.
Qed.

Lemma days_before_year_succ y :
  1 <= y -> days_before_year (y + 1) = days_before_year y + year_length y.
Proof.
  intros H. unfold days_before_year, leaps_before, year_length.
  rewrite is_leap_mod by lia.
  replace (y + 1 - 1) with y by lia.
  destruct (Z.eqb_spec (y mod 400) 0) as [E4|E4];
    destruct (Z.eqb_spec (y mod 4) 0) as [E1|E1];
    destruct (Z.eqb_spec (y mod 100) 0) as [E2|E2]; cbn [orb andb negb];
    Z.div_mod_to_equations; lia.
Qed.

Lemma days_before_year_mono y z :
  1 <= y <= z -> days_before_year y <= days_before_year z.
Proof.
  intros H. unfold days_before_year, leaps_before.
  Z.div_mod_to_equations. lia.
Qed.

(** The loop keeps the day it started from. *)
Lemma year_loop_days fuel :
  forall y d y' d',
    1 <= y -> year_loop fuel y d = Done (y', d') ->
    days_before_year y + d = days_before_year y' + d'.
Proof.
  induction fuel as [|fuel IH]; intros y d y' d' Hy H; [discriminate|].
  cbn [year_loop] in H.
  pose proof (days_before_year_succ y Hy) as Hs. unfold year_length in Hs.
  destruct (is_leap y).
  - destruct (Z.ltb_spec d 366).
    + injection H as -> ->. reflexivity.
    + apply IH in H; lia.
  - destruct (Z.ltb_spec d 365).
    + injection H as -> ->. reflexivity.
    + apply IH in H; lia.
Qed.

(** ** Month and day of the month *)

Lemma month_and_date_table :
  forallb (fun flag => forallb (month_and_date_check flag) (Zrange 1 (365 + flag)))
          (Zrange 0 1) = true.
Proof. vm_compute. reflexivity. Qed.

Lemma month_and_date_cases flag e :
  0 <= flag <= 1 -> 1 <= e <= 365 + flag ->
  (e = 365 + flag /\ month_and_date flag e = OutOfBounds 12) \/
  (e < 365 + flag /\
   exists m d, month_and_date flag e = Done (m, d) /\
               1 <= m <= 12 /\ 1 <= d <= flag_month_length flag m /\
               e = day_of_year flag m d).
Proof.
  intros Hf He.
  pose proof (forallb_Zrange _ _ _ month_and_date_table flag Hf) as H.
  cbv beta in H.
  pose proof (forallb_Zrange _ _ _ H e He) as H'.
  unfold month_and_date_check in H'.
  destruct (month_and_date flag e) as [[m d]|i|]; [| |discriminate].
  - right.
    do 5 (apply andb_prop in H'; let B := fresh "B" in destruct H' as [H' B]).
    split; [lia|]. exists m, d. repeat split; lia.
  - left. apply andb_prop in H'. destruct H' as [Hi He'].
    apply Z.eqb_eq in Hi, He'. subst i. split; [exact He'|reflexivity].
Qed.

Lemma day_of_year_table :
  forallb (fun flag =>
    forallb (fun m => forallb (day_of_year_check flag m) (Zrange 1 31))
            (Zrange 1 12))
    (Zrange 0 1) = true.
Proof. vm_compute. reflexivity. Qed.

Lemma day_of_year_check_true flag m d :
  0 <= flag <= 1 -> 1 <= m <= 12 -> 1 <= d <= 31 ->
  day_of_year_check flag m d = true.
Proof.
  intros Hf Hm Hd.
  pose proof (forallb_Zrange _ _ _ day_of_year_table flag Hf) as H.
  cbv beta in H.
  pose proof (forallb_Zrange _ _ _ H m Hm) as H'. cbv beta in H'.
  exact (forallb_Zrange _ _ _ H' d Hd).
Qed.

Lemma flag_month_length_range flag m :
  1 <= m <= 12 -> 28 <= flag_month_length flag m <= 31.
Proof.
  intros Hm. unfold flag_month_length.
  destruct ((m =? 2) && (flag =? 1)); [lia | apply days_in_month_range, Hm].
Qed.

Lemma month_and_date_day_of_year flag m d :
  0 <= flag <= 1 -> 1 <= m <= 12 -> 1 <= d <= flag_month_length flag m ->
  ~ (m = 12 /\ d = 31) ->
  1 <= day_of_year flag m d < 365 + flag /\
  month_and_date flag (day_of_year flag m d) = Done (m, d).
Proof.
  intros Hf Hm Hd Hne.
  pose proof (flag_month_length_range flag m Hm) as Hr.
  pose proof (day_of_year_check_true flag m d Hf Hm ltac:(lia)) as H.
  unfold day_of_year_check in H.
  destruct (Z.leb_spec d (flag_month_length flag m)); [|lia].
  destruct ((m =? 12) && (d =? 31)) eqn:E.
  - apply andb_prop in E. destruct E as [E1 E2].
    apply Z.eqb_eq in E1, E2. tauto.
  - do 2 (apply andb_prop in H; let B := fresh "B" in destruct H as [H B]).
    split; [lia|].
    destruct (month_and_date flag (day_of_year flag m d)) as [[m' d']| |];
      try discriminate.
    apply andb_prop in B. destruct B as [B1 B2].
    apply Z.eqb_eq in B1, B2. subst. reflexivity.
Qed.

Lemma day_of_year_Dec_31 flag :
  0 <= flag <= 1 -> day_of_year flag 12 31 = 365 + flag.
Proof.
  intros Hf. assert (flag = 0 \/ flag = 1) as [->| ->] by lia; reflexivity.
Qed.

Lemma flag_month_length_leap_flag y m :
  flag_month_length (leap_flag y) m = month_length y m.
Proof.
  unfold flag_month_length, month_length, leap_flag.
  destruct (is_leap y); reflexivity.
Qed.

Lemma leap_flag_range y : 0 <= leap_flag y <= 1.
Proof. unfold leap_flag. destruct (is_leap y); lia. Qed.

Lemma year_length_leap_flag y : year_length y = 365 + leap_flag y.
Proof. unfold year_length, leap_flag. destruct (is_leap y); reflexivity. Qed.

(** ** The day of the week *)

Lemma day_of_week_weekday_of y m d :
  1 <= y -> 1 <= m <= 12 -> 0 <= d ->
  day_of_week y m d = Done (weekday_of y m d).
Proof.
  intros Hy Hm Hd. unfold day_of_week, weekday_of.
  rewrite array_get_nth by (cbn; lia). cbn [bind]. fold dow.
  assert (Ht : 0 <= nth (Z.to_nat (m - 1)) dow 0 <= 6).
  { assert (m = 1 \/ m = 2 \/ m = 3 \/ m = 4 \/ m = 5 \/ m = 6 \/ m = 7 \/
            m = 8 \/ m = 9 \/ m = 10 \/ m = 11 \/ m = 12) as Hc by lia.
    repeat (destruct Hc as [->|Hc]); [..|subst m]; vm_compute; split; discriminate. }
  set (T := nth (Z.to_nat (m - 1)) dow 0) in *.
  replace (y - (if m <? 3 then 1 else 0)) with (if m <? 3 then y - 1 else y)
    by (destruct (m <? 3); lia).
  set (y' := if m <? 3 then y - 1 else y).
  assert (Hy' : 0 <= y') by (unfold y'; destruct (m <? 3); lia).
  rewrite !Z.quot_div_nonneg by lia.
  assert (Hs : 0 <= y' + y' / 4 - y' / 100 + y' / 400 + T + d).
  { Z.div_mod_to_equations. lia. }
  rewrite Z.rem_mod_nonneg by lia.
  rewrite to_uint8_small; [reflexivity|].
  pose proof (Z.mod_pos_bound (y' + y' / 4 - y' / 100 + y' / 400 + T + d) 7).
  lia.
Qed.

Lemma weekday_of_range y m d : 1 <= weekday_of y m d <= 7.
Proof.
  unfold weekday_of. cbv zeta.
  match goal with |- context [?a mod 7] => pose proof (Z.mod_pos_bound a 7) as H end.
  match goal with |- context [if ?c =? 0 then _ else _] =>
    destruct (Z.eqb_spec c 0) end; lia.
Qed.

(** ** DS3231_ToDateTime on every 32-bit input *)

Lemma time_of_day_fields x :
  0 <= x < 86400 ->
  to_uint8 (Z.quot x 3600) = x / 3600 /\
  to_uint8 (Z.quot (Z.rem x 3600) 60) = x mod 3600 / 60 /\
  to_uint8 (Z.rem (Z.rem x 3600) 60) = x mod 3600 mod 60 /\
  0 <= x / 3600 <= 23 /\ 0 <= x mod 3600 / 60 <= 59 /\
  0 <= x mod 3600 mod 60 <= 59.
Proof.
  intros H.
  rewrite (Z.rem_mod_nonneg x 3600) by lia.
  assert (0 <= x mod 3600 < 3600) by (apply Z.mod_pos_bound; lia).
  rewrite (Z.rem_mod_nonneg (x mod 3600) 60) by lia.
  rewrite !Z.quot_div_nonneg by lia.
  assert (0 <= x / 3600 <= 23) by (Z.div_mod_to_equations; lia).
  assert (0 <= x mod 3600 / 60 <= 59) by (Z.div_mod_to_equations; lia).
  assert (0 <= x mod 3600 mod 60 <= 59) by (Z.div_mod_to_equations; lia).
  rewrite !to_uint8_small by lia. repeat split; lia.
Qed.

(** The function on day [doy] (0-based) of year [y]: on the last day of
    the year it reads [days_in_month[12]], on every other day it returns
    the date, the time and the weekday of the input. In particular the
    budget of the loops is never exhausted. *)
Theorem ToDateTime_cases (u : Z) (dt : DS3231_DateTime) :
  is_uint32 u ->
  exists y doy,
    1970 <= y <= 2106 /\ 0 <= doy < year_length y /\
    u / 86400 = days_before_year y + doy /\
    ((doy = year_length y - 1 /\ DS3231_ToDateTime u dt = OutOfBounds 12) \/
     (doy < year_length y - 1 /\
      exists m d,
        valid_date y m d /\ doy + 1 = day_of_year (leap_flag y) m d /\
        DS3231_ToDateTime u dt
        = Done {| Day := weekday_of y m d; Date := d; Month := m; Year := y;
                  Hour_24mode := u mod 86400 / 3600;
                  Minute := u mod 86400 mod 3600 / 60;
                  Second := u mod 86400 mod 3600 mod 60;
                  Enable := Enable dt |})).
Proof.
  intros Hu.
  destruct (year_loop_range u Hu) as (y & doy & H & Hy & Hdoy).
  destruct (days_of_uint32 u Hu) as [_ Ht].
  pose proof (year_loop_days _ 1970 _ _ _ ltac:(lia) H) as Hdays.
  change (days_before_year 1970) with 0 in Hdays.
  change (24 * 60 * 60) with 86400 in *.
  exists y, doy. repeat split; try lia.
  unfold DS3231_ToDateTime. change (24 * 60 * 60) with 86400.
  rewrite H. cbn [bind]. fold (leap_flag y).
  rewrite year_length_leap_flag in *.
  destruct (month_and_date_cases (leap_flag y) (doy + 1)
              (leap_flag_range y) ltac:(lia))
    as [[He Hm]|(He & m & d & Hm & Hm1 & Hd1 & Hdoy1)].
  - left. split; [lia|]. rewrite Hm. reflexivity.
  - right. split; [lia|]. exists m, d.
    rewrite flag_month_length_leap_flag in Hd1.
    split; [split; assumption|]. split; [assumption|].
    rewrite Hm. cbn [bind].
    rewrite day_of_week_weekday_of by lia. cbn [bind].
    destruct (time_of_day_fields _ Ht) as (-> & -> & -> & _).
    rewrite to_uint16_small by lia. reflexivity.
Qed.

(** Every 32-bit input that is not on a December 31 gives a valid date. *)
Corollary ToDateTime_valid (u : Z) (dt dt' : DS3231_DateTime) :
  is_uint32 u -> DS3231_ToDateTime u dt = Done dt' ->
  1970 <= Year dt' <= 2106 /\
  valid_date (Year dt') (Month dt') (Date dt') /\
  0 <= Hour_24mode dt' <= 23 /\ 0 <= Minute dt' <= 59 /\
  0 <= Second dt' <= 59 /\
  Day dt' = weekday_of (Year dt') (Month dt') (Date dt') /\
  1 <= Day dt' <= 7.
Proof.
  intros Hu H.
  destruct (ToDateTime_cases u dt Hu)
    as (y & doy & Hy & Hdoy & _ & [[_ E]|(_ & m & d & Hv & _ & E)]).
  - rewrite E in H. discriminate.
  - rewrite E in H. injection H as <-. cbn.
    destruct (days_of_uint32 u Hu) as [_ Ht].
    change (24 * 60 * 60) with 86400 in Ht.
    destruct (time_of_day_fields _ Ht) as (_ & _ & _ & ? & ? & ?).
    pose proof (weekday_of_range y m d). repeat split; try lia; apply Hv.
Qed.

Corollary ToDateTime_terminates (u : Z) (dt : DS3231_DateTime) :
  is_uint32 u -> DS3231_ToDateTime u dt <> OutOfFuel.
Proof.
  intros Hu.
  destruct (ToDateTime_cases u dt Hu)
    as (y & doy & _ & _ & _ & [[_ E]|(_ & m & d & _ & _ & E)]);
    rewrite E; discriminate.
Qed.

(** Whenever [DS3231_ToDateTime] returns a date, its weekday is the
    congruence [(y + y/4 - y/100 + y/400 + T[month] + day) mod 7] of the
    returned year (lowered by one in January and February), month and day,
    with [T = {0,3,2,5,0,3,5,1,4,6,2,4}] and 0 mapped to 7. *)
Corollary ToDateTime_Day_congruence (u : Z) (dt dt' : DS3231_DateTime) :
  is_uint32 u -> DS3231_ToDateTime u dt = Done dt' ->
  Day dt' = weekday_of (Year dt') (Month dt') (Date dt').
Proof.
  intros Hu H. apply (ToDateTime_valid u dt dt' Hu H).
Qed.

(** C7. [DS3231_ToDateTime] does not produce a weekday for every second
    count. 1703980800 is the first second of 2023-12-31, a Sunday: the
    congruence gives 7 for that date, and so do the weekday lines of the
    function when they are given it; but the function never reaches them
    on this input, it reads [days_in_month[12]] in the month loop and
    returns no date. The seconds of 2024-01-01 give weekday 1 (Monday) and
    those of 2024-12-25 weekday 3 (Wednesday). *)
Theorem ToDateTime_weekday_2023_12_31_not_produced (dt : DS3231_DateTime) :
  is_uint32 1703980800 /\
  weekday_of 2023 12 31 = 7 /\
  day_of_week 2023 12 31 = Done 7 /\
  DS3231_ToDateTime 1703980800 dt = OutOfBounds 12 /\
  (forall dt', DS3231_ToDateTime 1703980800 dt <> Done dt') /\
  DS3231_ToDateTime (1703980800 + 86400) dt
  = Done (mkDateTime 1 1 1 2024 0 0 0 (Enable dt)) /\
  DS3231_ToDateTime 1735084800 dt
  = Done (mkDateTime 3 25 12 2024 0 0 0 (Enable dt)).
Proof.
  split; [unfold is_uint32; lia|].
  split; [vm_compute; reflexivity|].
  split; [vm_compute; reflexivity|].
  split; [vm_compute; reflexivity|].
  split; [intros dt'; vm_compute; discriminate|].
  split; vm_compute; reflexivity.
Qed.

(** C8. 2000-02-29 and 2024-02-29 are dates of both conversions: each is
    converted to a second count, and that count is converted back to it;
    and no 32-bit second count is converted to 2001-02-29 or to
    2023-02-29. *)
Theorem leap_day_boundary :
  (forall dt,
     DS3231_ToUnixTime (mkDateTime 2 29 2 2000 0 0 0 (Enable dt)) 0 = Done 951782400 /\
     DS3231_ToDateTime 951782400 dt = Done (mkDateTime 2 29 2 2000 0 0 0 (Enable dt))) /\
  (forall dt,
     DS3231_ToUnixTime (mkDateTime 4 29 2 2024 0 0 0 (Enable dt)) 0 = Done 1709164800 /\
     DS3231_ToDateTime 1709164800 dt = Done (mkDateTime 4 29 2 2024 0 0 0 (Enable dt))) /\
  (forall u dt dt',
     is_uint32 u -> DS3231_ToDateTime u dt = Done dt' ->
     ~ (Year dt' = 2001 /\ Month dt' = 2 /\ Date dt' = 29) /\
     ~ (Year dt' = 2023 /\ Month dt' = 2 /\ Date dt' = 29)).
Proof.
  split; [|split].
  - intros dt. split; vm_compute; reflexivity.
  - intros dt. split; vm_compute; reflexivity.
  - intros u dt dt' Hu H.
    destruct (ToDateTime_valid u dt dt' Hu H) as (_ & [_ Hd] & _).
    split; intros (Hy & Hm & Hd29); rewrite Hy, Hm, Hd29 in Hd;
      vm_compute in Hd; destruct Hd as [_ Hd]; apply Hd; reflexivity.
Qed.

Lemma leap_day_boundary_2001_03_01 :
  ~ (Year (mkDateTime 4 1 3 2001 0 0 0 DS3231_ENABLED) = 2001 /\
     Month (mkDateTime 4 1 3 2001 0 0 0 DS3231_ENABLED) = 2 /\
     Date (mkDateTime 4 1 3 2001 0 0 0 DS3231_ENABLED) = 29).
Proof.
  apply (proj2 (proj2 leap_day_boundary) 983404800 t_2000_01_01).
  - unfold is_uint32. lia.
  - vm_compute. reflexivity.
Defined.

(** ** There and back *)

Lemma days_before_year_unique y d y' d' :
  1 <= y -> 1 <= y' -> 0 <= d < year_length y -> 0 <= d' < year_length y' ->
  days_before_year y + d = days_before_year y' + d' ->
  y = y' /\ d = d'.
Proof.
  intros Hy Hy' Hd Hd' H.
  assert (y = y'); [|subst; lia].
  destruct (Z.lt_trichotomy y y') as [Hlt|[Heq|Hgt]]; [|exact Heq|].
  - pose proof (days_before_year_succ y Hy).
    pose proof (days_before_year_mono (y + 1) y' ltac:(lia)). lia.
  - pose proof (days_before_year_succ y' Hy').
    pose proof (days_before_year_mono (y' + 1) y ltac:(lia)). lia.
Qed.

Lemma is_leap_2000s y :
  2000 <= y <= 2099 -> is_leap y = ((y - 2000) mod 4 =? 0).
Proof.
  intros H. rewrite is_leap_mod by lia.
  destruct (Z.eqb_spec (y mod 400) 0) as [E4|E4];
    destruct (Z.eqb_spec (y mod 4) 0) as [E1|E1];
    destruct (Z.eqb_spec (y mod 100) 0) as [E2|E2];
    destruct (Z.eqb_spec ((y - 2000) mod 4) 0) as [E3|E3]; cbn [orb andb negb];
    try reflexivity; exfalso; Z.div_mod_to_equations; lia.
Qed.

Lemma days_before_year_2000s y :
  2000 <= y <= 2099 ->
  days_before_year y = 10957 + 365 * (y - 2000) + (y - 2000 + 3) / 4.
Proof.
  intros H. unfold days_before_year, leaps_before.
  change ((1970 - 1) / 4 - (1970 - 1) / 100 + (1970 - 1) / 400) with 477.
  Z.div_mod_to_equations. lia.
Qed.

(** The days of steps 2-6, counted from 1970-01-01, are the days before the
    year plus the day of the year. *)
Lemma total_days_day_of_year t :
  2000 <= Year t <= 2099 ->
  10957 + total_days t
  = days_before_year (Year t)
    + (day_of_year (leap_flag (Year t)) (Month t) (Date t) - 1).
Proof.
  intros H. unfold total_days, day_of_year, leap_flag.
  rewrite days_before_year_2000s, is_leap_2000s by assumption.
  destruct ((Year t - 2000) mod 4 =? 0); cbn [Z.eqb Pos.eqb]; lia.
Qed.

Lemma day_of_year_inj flag m d m' d' :
  0 <= flag <= 1 ->
  1 <= m <= 12 -> 1 <= d <= flag_month_length flag m ->
  1 <= m' <= 12 -> 1 <= d' <= flag_month_length flag m' ->
  day_of_year flag m d < 365 + flag ->
  day_of_year flag m d = day_of_year flag m' d' ->
  m = m' /\ d = d'.
Proof.
  intros Hf Hm Hd Hm' Hd' Hlt E.
  pose proof (day_of_year_Dec_31 flag Hf) as HD.
  destruct (month_and_date_day_of_year flag m d Hf Hm Hd) as [_ H1].
  { intros [-> ->]. lia. }
  destruct (month_and_date_day_of_year flag m' d' Hf Hm' Hd') as [_ H2].
  { intros [-> ->]. lia. }
  rewrite E, H2 in H1. injection H1 as -> ->. split; reflexivity.
Qed.

Lemma seconds_split days h mi s :
  0 <= h <= 23 -> 0 <= mi <= 59 -> 0 <= s <= 59 ->
  let e := ((days * 24 + h) * 60 + mi) * 60 + s in
  e / 86400 = days /\ e mod 86400 / 3600 = h /\
  e mod 86400 mod 3600 / 60 = mi /\ e mod 86400 mod 3600 mod 60 = s.
Proof.
  intros Hh Hm Hs e.
  assert (E1 : e / 86400 = days).
  { symmetry. apply Z.div_unique with (r := (h * 60 + mi) * 60 + s);
      unfold e; lia. }
  assert (E2 : e mod 86400 = (h * 60 + mi) * 60 + s).
  { symmetry. apply Z.mod_unique with (q := days); unfold e; lia. }
  rewrite E2.
  assert (E3 : ((h * 60 + mi) * 60 + s) / 3600 = h).
  { symmetry. apply Z.div_unique with (r := mi * 60 + s); lia. }
  assert (E4 : ((h * 60 + mi) * 60 + s) mod 3600 = mi * 60 + s).
  { symmetry. apply Z.mod_unique with (q := h); lia. }
  rewrite E4.
  assert (E5 : (mi * 60 + s) / 60 = mi).
  { symmetry. apply Z.div_unique with (r := s); lia. }
  assert (E6 : (mi * 60 + s) mod 60 = s).
  { symmetry. apply Z.mod_unique with (q := mi); lia. }
  auto.
Qed.

(** Round trip on every valid time of 2000-2099 that is not on a
    December 31: [DS3231_ToDateTime] gives back what [DS3231_ToUnixTime]
    was given, weekday included. *)
Theorem round_trip_except_Dec_31 (t dt : DS3231_DateTime) (unixtime : Z) :
  valid_DateTime t -> ~ (Month t = 12 /\ Date t = 31) -> Enable dt = Enable t ->
  exists e,
    DS3231_ToUnixTime t unixtime = Done e /\ is_uint32 e /\
    DS3231_ToDateTime e dt = Done t.
Proof.
  intros Hv Hne Hen.
  destruct Hv as (Hy & [Hm Hd] & Hh & Hi & Hs & Hw).
  assert (HU : DS3231_ToUnixTime t unixtime
               = Done (((total_days t * 24 + Hour_24mode t) * 60 + Minute t) * 60
                       + Second t + 946684800)).
  { pose proof (month_length_range (Year t) _ Hm).
    apply ToUnixTime_valid_fields; lia. }
  set (flag := leap_flag (Year t)) in *.
  assert (Hf : 0 <= flag <= 1) by apply leap_flag_range.
  rewrite <- flag_month_length_leap_flag in Hd. fold flag in Hd.
  destruct (month_and_date_day_of_year flag _ _ Hf Hm Hd Hne) as [Hdoy _].
  pose proof (total_days_day_of_year t Hy) as Htd. fold flag in Htd.
  pose proof (days_before_year_2000s _ Hy) as Hby.
  assert (Hq : 0 <= (Year t - 2000 + 3) / 4 < 26).
  { split; [apply Z.div_pos; lia | apply Z.div_lt_upper_bound; lia]. }
  set (e := ((total_days t * 24 + Hour_24mode t) * 60 + Minute t) * 60
            + Second t + 946684800) in *.
  assert (He : e = (((10957 + total_days t) * 24 + Hour_24mode t) * 60
                    + Minute t) * 60 + Second t) by (unfold e; lia).
  destruct (seconds_split (10957 + total_days t) _ _ _ Hh Hi Hs)
    as (S1 & S2 & S3 & S4).
  rewrite <- He in S1, S2, S3, S4.
  assert (Hu : is_uint32 e).
  { unfold is_uint32. change (2 ^ 32) with 4294967296. lia. }
  exists e. split; [exact HU|]. split; [exact Hu|].
  destruct (ToDateTime_cases e dt Hu)
    as (y & doy & Hy' & Hdoy' & Hdays & Hcases).
  rewrite S1, Htd in Hdays.
  destruct (days_before_year_unique (Year t) (day_of_year flag (Month t) (Date t) - 1)
                                    y doy) as [Ey Ed]; try lia.
  { rewrite year_length_leap_flag. fold flag. lia. }
  subst y. fold flag in Hcases.
  rewrite year_length_leap_flag in Hcases. fold flag in Hcases.
  destruct Hcases as [[Hlast _]|(_ & m & d & [Hm' Hd'] & Hdoy1 & E)]; [lia|].
  rewrite <- flag_month_length_leap_flag in Hd'. fold flag in Hd'.
  destruct (day_of_year_inj flag (Month t) (Date t) m d) as [Em Edd];
    try assumption; try lia.
  subst m d. rewrite E, S2, S3, S4, <- Hw, Hen.
  destruct t; reflexivity.
Qed.

Lemma round_trip_2000_01_01 :
  exists e,
    DS3231_ToUnixTime t_2000_01_01 0 = Done e /\ is_uint32 e /\
    DS3231_ToDateTime e t_2000_01_01 = Done t_2000_01_01.
Proof.
  apply (round_trip_except_Dec_31 t_2000_01_01 t_2000_01_01 0).
  - exact valid_t_2000_01_01.
  - cbn. lia.
  - reflexivity.
Defined.

(** ** December 31 *)

(** On the last day of a year the loop over the months has used up the
    twelve entries of [days_in_month] with [extraDays] at 0 and goes on to
    read a thirteenth. *)
Lemma month_and_date_last_day flag :
  0 <= flag <= 1 -> month_and_date flag (365 + flag) = OutOfBounds 12.
Proof.
  intros Hf. assert (flag = 0 \/ flag = 1) as [->| ->] by lia; reflexivity.
Qed.

(** C1. The round trip fails on 2000-12-31T00:00:00 (a Sunday, weekday 7),
    a valid time of the range: [DS3231_ToUnixTime] writes 978220800 for it
    and [DS3231_ToDateTime] on 978220800 reads [days_in_month[12]] instead
    of returning the time. *)
Theorem round_trip_fails_2000_12_31 :
  valid_DateTime t_2000_12_31 /\
  DS3231_ToUnixTime t_2000_12_31 0 = Done 978220800 /\
  DS3231_ToDateTime 978220800 t_2000_12_31 = OutOfBounds 12 /\
  DS3231_ToDateTime 978220800 t_2000_12_31 <> Done t_2000_12_31.
Proof.
  split; [exact valid_t_2000_12_31|].
  split; [vm_compute; reflexivity|].
  split; [vm_compute; reflexivity|].
  vm_compute. discriminate.
Qed.

(** C2. [DS3231_ToDateTime] does not return a date for every 32-bit input:
    on 31449600, the first second of 1970-12-31, it reads
    [days_in_month[12]], outside the 12 entries of the table [days_in_month]. *)
Theorem ToDateTime_1970_12_31_out_of_bounds (dt : DS3231_DateTime) :
  is_uint32 31449600 /\
  length days_in_month = 12%nat /\
  DS3231_ToDateTime 31449600 dt = OutOfBounds 12 /\
  array_get days_in_month 12 = OutOfBounds 12.
Proof.
  split; [unfold is_uint32; lia|].
  repeat split; vm_compute; reflexivity.
Qed.

(** C3. On 1735603200, the first second of 2024-12-31, the days of the
    year are used up exactly at the end of December, and
    [DS3231_ToDateTime] does not return December 31: it reads
    [days_in_month[12]]. The day before is returned as December 30, the day
    after as January 1, and a month end before December (April 30) is
    returned as the last day of its month. *)
Theorem ToDateTime_2024_12_31_not_last_day (dt : DS3231_DateTime) :
  year_loop (S (Z.to_nat (1735603200 / 86400))) 1970 (1735603200 / 86400)
  = Done (2024, 365) /\
  day_of_year 1 12 31 = 366 /\
  month_loop_leap 13 0 0 366 = OutOfBounds 12 /\
  DS3231_ToDateTime 1735603200 dt = OutOfBounds 12 /\
  DS3231_ToDateTime (1735603200 - 86400) dt
  = Done (mkDateTime 1 30 12 2024 0 0 0 (Enable dt)) /\
  DS3231_ToDateTime (1735603200 + 86400) dt
  = Done (mkDateTime 3 1 1 2025 0 0 0 (Enable dt)) /\
  DS3231_ToDateTime 1714435200 dt
  = Done (mkDateTime 2 30 4 2024 0 0 0 (Enable dt)).
Proof. repeat split; vm_compute; reflexivity. Qed.

(** Every month end before December is returned as the last day of its
    month. *)
Lemma month_and_date_month_end flag m :
  0 <= flag <= 1 -> 1 <= m <= 11 ->
  month_and_date flag (day_of_year flag m (flag_month_length flag m))
  = Done (m, flag_month_length flag m).
Proof.
  intros Hf Hm.
  pose proof (flag_month_length_range flag m ltac:(lia)).
  apply month_and_date_day_of_year; lia.
Qed.

(** * Further properties of the driver *)

Lemma Done_inj (A : Type) (a b : A) : Done a = Done b -> a = b.
Proof. intros H. congruence. Qed.

(** ** BCD on every byte *)

Lemma forallb_bytes (P : Z -> bool) :
  forallb P (Zrange 0 255) = true -> forall b, is_uint8 b -> P b = true.
Proof.
  intros H b Hb. apply (forallb_Zrange P 0 255 H).
  unfold is_uint8 in Hb. change (2 ^ 8) with 256 in Hb. lia.
Qed.

Lemma DecodeBCD_EncodeBCD_table :
  forallb (fun d => DS3231_DecodeBCD (DS3231_EncodeBCD d)
                    =? (if d <? 160 then d else d - 160))
          (Zrange 0 255) = true.
Proof. vm_compute. reflexivity. Qed.

(** Decoding the encoding of a byte [d] gives [d] up to 159, not only up
    to 99; from 160 on the tens no longer fit the high nibble and the result
    is [d - 160]. *)
Theorem DecodeBCD_EncodeBCD_uint8 (d : Z) :
  is_uint8 d ->
  DS3231_DecodeBCD (DS3231_EncodeBCD d) = if d <? 160 then d else d - 160.
Proof.
  intros Hd. apply Z.eqb_eq.
  exact (forallb_bytes _ DecodeBCD_EncodeBCD_table d Hd).
Qed.

Lemma DecodeBCD_EncodeBCD_uint8_200 :
  is_uint8 200 /\ DS3231_DecodeBCD (DS3231_EncodeBCD 200) = 40.
Proof.
  assert (H : is_uint8 200) by (unfold is_uint8; lia).
  split; [exact H | exact (DecodeBCD_EncodeBCD_uint8 200 H)].
Defined.

Lemma EncodeBCD_DecodeBCD_table :
  forallb (fun b => Bool.eqb (DS3231_EncodeBCD (DS3231_DecodeBCD b) =? b)
                             (b mod 16 <=? 9))
          (Zrange 0 255) = true.
Proof. vm_compute. reflexivity. Qed.

(** Encoding the decoding of a byte [b] gives [b] back exactly when the low
    nibble of [b] is a decimal digit. *)
Theorem EncodeBCD_DecodeBCD (b : Z) :
  is_uint8 b ->
  (DS3231_EncodeBCD (DS3231_DecodeBCD b) = b <-> b mod 16 <= 9).
Proof.
  intros Hb.
  pose proof (forallb_bytes _ EncodeBCD_DecodeBCD_table b Hb) as H.
  cbv beta in H. apply Bool.eqb_prop in H.
  rewrite <- Z.eqb_eq, <- Z.leb_le, H. reflexivity.
Qed.

Lemma EncodeBCD_DecodeBCD_0x59 :
  is_uint8 89 /\ (DS3231_EncodeBCD (DS3231_DecodeBCD 89) = 89 <-> 89 mod 16 <= 9).
Proof.
  assert (H : is_uint8 89) by (unfold is_uint8; lia).
  split; [exact H | exact (EncodeBCD_DecodeBCD 89 H)].
Defined.

(** ** DS3231_ToUnixTime: range, injectivity, months and days out of range *)

Lemma day_of_year_range flag m d :
  0 <= flag <= 1 -> 1 <= m <= 12 -> 1 <= d <= flag_month_length flag m ->
  1 <= day_of_year flag m d <= 365 + flag.
Proof.
  intros Hf Hm Hd.
  destruct (Z.eq_dec m 12) as [Em|Em]; [destruct (Z.eq_dec d 31) as [Ed|Ed]|].
  - subst. rewrite day_of_year_Dec_31 by assumption. lia.
  - destruct (month_and_date_day_of_year flag m d Hf Hm Hd); lia.
  - destruct (month_and_date_day_of_year flag m d Hf Hm Hd); lia.
Qed.

Lemma day_of_year_inj_all flag m d m' d' :
  0 <= flag <= 1 ->
  1 <= m <= 12 -> 1 <= d <= flag_month_length flag m ->
  1 <= m' <= 12 -> 1 <= d' <= flag_month_length flag m' ->
  day_of_year flag m d = day_of_year flag m' d' ->
  m = m' /\ d = d'.
Proof.
  intros Hf Hm Hd Hm' Hd' E.
  pose proof (day_of_year_Dec_31 flag Hf) as HD.
  assert (Hlast : forall a b, 1 <= a <= 12 -> 1 <= b <= flag_month_length flag a ->
                              day_of_year flag a b = 365 + flag -> a = 12 /\ b = 31).
  { intros a b Ha Hb Hab.
    destruct (Z.eq_dec a 12) as [Ea|Ea]; [destruct (Z.eq_dec b 31) as [Eb|Eb]|];
      [tauto| |];
      destruct (month_and_date_day_of_year flag a b Hf Ha Hb); lia. }
  destruct (Z.eq_dec (day_of_year flag m d) (365 + flag)) as [El|El].
  - destruct (Hlast m d Hm Hd El) as [-> ->].
    destruct (Hlast m' d' Hm' Hd' ltac:(lia)) as [-> ->]. tauto.
  - pose proof (day_of_year_range flag m d Hf Hm Hd).
    apply (day_of_year_inj flag); try assumption. lia.
Qed.

Lemma valid_DateTime_day_of_year t :
  valid_DateTime t ->
  1 <= day_of_year (leap_flag (Year t)) (Month t) (Date t)
    <= 365 + leap_flag (Year t).
Proof.
  intros (_ & [Hm Hd] & _).
  apply day_of_year_range; [apply leap_flag_range | assumption |].
  rewrite flag_month_length_leap_flag. exact Hd.
Qed.

Lemma ToUnixTime_valid t unixtime :
  valid_DateTime t ->
  DS3231_ToUnixTime t unixtime
  = Done ((((10957 + total_days t) * 24 + Hour_24mode t) * 60 + Minute t) * 60
          + Second t).
Proof.
  intros (Hy & [Hm Hd] & Hh & Hi & Hs & _).
  pose proof (month_length_range (Year t) _ Hm).
  rewrite ToUnixTime_valid_fields by lia.
  unfold seconds_since_2000, SECONDS_FROM_1970_TO_2000. f_equal. lia.
Qed.

(** For every valid time of 2000-2099 the count written lies between the
    ones of 2000-01-01T00:00:00 and 2099-12-31T23:59:59: nothing wraps in
    the 32 bits of [*unixtime]. *)
Theorem ToUnixTime_range (t : DS3231_DateTime) (unixtime : Z) :
  valid_DateTime t ->
  exists e, DS3231_ToUnixTime t unixtime = Done e /\
            946684800 <= e <= 4102444799.
Proof.
  intros Hv. rewrite (ToUnixTime_valid t unixtime Hv).
  eexists. split; [reflexivity|].
  pose proof (valid_DateTime_day_of_year t Hv) as Hdoy.
  destruct Hv as (Hy & _ & Hh & Hi & Hs & _).
  pose proof (total_days_day_of_year t Hy) as Htd.
  pose proof (days_before_year_2000s _ Hy) as Hby.
  pose proof (leap_flag_range (Year t)).
  assert (Hq : 0 <= (Year t - 2000 + 3) / 4 < 26).
  { split; [apply Z.div_pos; lia | apply Z.div_lt_upper_bound; lia]. }
  assert (Hlast : days_before_year (Year t) + 365 + leap_flag (Year t) <= 47482).
  { pose proof (days_before_year_succ (Year t) ltac:(lia)) as Hs'.
    rewrite year_length_leap_flag in Hs'.
    pose proof (days_before_year_mono (Year t + 1) 2100 ltac:(lia)) as Hm'.
    change (days_before_year 2100) with 47482 in Hm'. lia. }
  lia.
Qed.

Lemma ToUnixTime_range_2000_01_01 :
  exists e, DS3231_ToUnixTime t_2000_01_01 0 = Done e /\
            946684800 <= e <= 4102444799.
Proof.
  apply (ToUnixTime_range t_2000_01_01 0).
  unfold valid_DateTime, valid_date. cbn.
  repeat split; try lia; vm_compute; congruence.
Defined.

(** Two valid times of 2000-2099 with the same count are the same date and
    time. *)
Theorem ToUnixTime_injective (t1 t2 : DS3231_DateTime) (u1 u2 : Z) :
  valid_DateTime t1 -> valid_DateTime t2 ->
  DS3231_ToUnixTime t1 u1 = DS3231_ToUnixTime t2 u2 ->
  Year t1 = Year t2 /\ Month t1 = Month t2 /\ Date t1 = Date t2 /\
  Hour_24mode t1 = Hour_24mode t2 /\ Minute t1 = Minute t2 /\
  Second t1 = Second t2 /\ Day t1 = Day t2.
Proof.
  intros Hv1 Hv2 E.
  rewrite (ToUnixTime_valid t1 u1 Hv1), (ToUnixTime_valid t2 u2 Hv2) in E.
  apply Done_inj in E.
  pose proof (valid_DateTime_day_of_year t1 Hv1) as Hd1.
  pose proof (valid_DateTime_day_of_year t2 Hv2) as Hd2.
  destruct Hv1 as (Hy1 & [Hm1 Hdd1] & Hh1 & Hi1 & Hs1 & Hw1).
  destruct Hv2 as (Hy2 & [Hm2 Hdd2] & Hh2 & Hi2 & Hs2 & Hw2).
  destruct (seconds_split (10957 + total_days t1) _ _ _ Hh1 Hi1 Hs1)
    as (A1 & A2 & A3 & A4).
  destruct (seconds_split (10957 + total_days t2) _ _ _ Hh2 Hi2 Hs2)
    as (B1 & B2 & B3 & B4).
  rewrite E in A1, A2, A3, A4.
  rewrite B1 in A1. rewrite B2 in A2. rewrite B3 in A3. rewrite B4 in A4.
  rewrite (total_days_day_of_year t1 Hy1), (total_days_day_of_year t2 Hy2) in A1.
  destruct (days_before_year_unique
              (Year t1) (day_of_year (leap_flag (Year t1)) (Month t1) (Date t1) - 1)
              (Year t2) (day_of_year (leap_flag (Year t2)) (Month t2) (Date t2) - 1))
    as [Ey Ed]; try lia; try (rewrite year_length_leap_flag; lia).
  rewrite <- flag_month_length_leap_flag in Hdd1, Hdd2.
  rewrite Ey in Ed, Hdd1.
  destruct (day_of_year_inj_all (leap_flag (Year t2)) (Month t1) (Date t1)
                                (Month t2) (Date t2))
    as [Em Edd]; try assumption; try lia; [apply leap_flag_range|].
  rewrite Hw1, Hw2, Ey, Em, Edd. repeat split; lia.
Qed.

Lemma ToUnixTime_injective_2000_01_01 :
  Year t_2000_01_01 = 2000 /\ Month t_2000_01_01 = 1 /\ Date t_2000_01_01 = 1 /\
  Hour_24mode t_2000_01_01 = 0 /\ Minute t_2000_01_01 = 0 /\
  Second t_2000_01_01 = 0 /\ Day t_2000_01_01 = 6.
Proof.
  assert (Hv : valid_DateTime t_2000_01_01).
  { unfold valid_DateTime, valid_date. cbn.
    repeat split; try lia; vm_compute; congruence. }
  assert (Hv' : valid_DateTime (mkDateTime 6 1 1 2000 0 0 0 DS3231_DISABLED)).
  { unfold valid_DateTime, valid_date. cbn.
    repeat split; try lia; vm_compute; congruence. }
  apply (ToUnixTime_injective t_2000_01_01
           (mkDateTime 6 1 1 2000 0 0 0 DS3231_DISABLED) 0 7 Hv Hv').
  reflexivity.
Defined.

(** With a year from 2000 on, the loop over the months stays inside
    [days_in_month] up to month 13 and reads [days_in_month[12]] from
    month 14 on. *)
Lemma add_month_days_in_bounds fuel :
  forall i months days,
    1 <= i -> months <= 13 -> months - i < Z.of_nat fuel ->
    exists v, add_month_days (S fuel) i months days = Done v.
Proof.
  induction fuel as [|fuel IH]; intros i months days Hi Hm Hf.
  - cbn [add_month_days]. destruct (Z.ltb_spec i months); [lia|]. eauto.
  - remember (S fuel) as f eqn:Ef. cbn [add_month_days].
    destruct (Z.ltb_spec i months) as [Hlt|Hge]; [|eauto].
    rewrite array_get_nth by (cbn; lia). cbn [bind].
    rewrite (to_uint8_small (i + 1)) by lia.
    subst f. apply IH; lia.
Qed.

Lemma add_month_days_out_of_bounds fuel :
  forall i months days,
    1 <= i <= 13 -> 14 <= months -> 13 - i < Z.of_nat fuel ->
    add_month_days fuel i months days = OutOfBounds 12.
Proof.
  induction fuel as [|fuel IH]; intros i months days Hi Hm Hf; [lia|].
  cbn [add_month_days]. destruct (Z.ltb_spec i months) as [_|?]; [|lia].
  destruct (Z.eq_dec i 13) as [->|Hne]; [reflexivity|].
  rewrite array_get_nth by (cbn; lia). cbn [bind].
  rewrite (to_uint8_small (i + 1)) by lia. apply IH; lia.
Qed.

(** For a structure with a year from 2000 on, [DS3231_ToUnixTime] reads
    outside [days_in_month] (at index 12) exactly when the month is 14 or
    more; for the months 0 to 13 it writes a count. *)
Theorem ToUnixTime_month_out_of_bounds (dt : DS3231_DateTime) (unixtime : Z) :
  wf_DateTime dt -> 2000 <= Year dt ->
  (14 <= Month dt -> DS3231_ToUnixTime dt unixtime = OutOfBounds 12) /\
  (Month dt <= 13 -> exists e, DS3231_ToUnixTime dt unixtime = Done e).
Proof.
  intros (_ & _ & Hm & _) Hy. unfold is_uint8 in Hm.
  unfold DS3231_ToUnixTime.
  destruct (Z.leb_spec 2000 (Year dt)) as [_|?]; [|lia].
  split; intros H.
  - rewrite add_month_days_out_of_bounds by lia. reflexivity.
  - destruct (add_month_days_in_bounds 255 1 (Month dt)
                (to_uint16 (Date dt - 1)) ltac:(lia) H ltac:(lia)) as [v ->].
    cbn [bind]. eauto.
Qed.

Lemma ToUnixTime_month_out_of_bounds_14 :
  DS3231_ToUnixTime (mkDateTime 1 1 14 2024 0 0 0 DS3231_ENABLED) 0
  = OutOfBounds 12.
Proof.
  apply (ToUnixTime_month_out_of_bounds
           (mkDateTime 1 1 14 2024 0 0 0 DS3231_ENABLED) 0).
  - unfold wf_DateTime, is_uint8, is_uint16. cbn. lia.
  - cbn. lia.
  - cbn. lia.
Defined.

Lemma day_rollover_table :
  forallb (fun flag => forallb (day_rollover_check flag) (Zrange 1 11))
          (Zrange 0 1) = true.
Proof. vm_compute. reflexivity. Qed.

(** The day of the month is not checked against the month: in 2000-2099 a
    day past the end of its month (up to 31) gets the count of the day that
    many days into the next month, as February 30 that of March 1 or 2. *)
Theorem ToUnixTime_day_past_month_end (t : DS3231_DateTime) (unixtime : Z) :
  2000 <= Year t <= 2099 -> 1 <= Month t <= 11 ->
  month_length (Year t) (Month t) < Date t <= 31 ->
  0 <= Hour_24mode t <= 23 -> 0 <= Minute t <= 59 -> 0 <= Second t <= 59 ->
  DS3231_ToUnixTime t unixtime
  = DS3231_ToUnixTime
      (mkDateTime (Day t) (Date t - month_length (Year t) (Month t))
                  (Month t + 1) (Year t) (Hour_24mode t) (Minute t) (Second t)
                  (Enable t)) unixtime.
Proof.
  intros Hy Hm Hd Hh Hi Hs.
  pose proof (month_length_range (Year t) (Month t) ltac:(lia)) as Hl.
  rewrite !ToUnixTime_valid_fields; cbn [Year Month Date Hour_24mode Minute Second];
    try lia.
  unfold seconds_since_2000, total_days.
  cbn [Year Month Date Hour_24mode Minute Second].
  pose proof (forallb_Zrange _ _ _ day_rollover_table (leap_flag (Year t))
                             (leap_flag_range _)) as H.
  cbv beta in H.
  pose proof (forallb_Zrange _ _ _ H (Month t) Hm) as H'.
  unfold day_rollover_check in H'. apply Z.eqb_eq in H'.
  rewrite flag_month_length_leap_flag in H'.
  unfold leap_flag in H'. rewrite is_leap_2000s in H' by assumption.
  do 2 f_equal.
  destruct ((Year t - 2000) mod 4 =? 0); cbn [Z.eqb Pos.eqb] in H'; lia.
Qed.

Lemma ToUnixTime_day_past_month_end_Feb_30 :
  DS3231_ToUnixTime (mkDateTime 3 30 2 2024 0 0 0 DS3231_ENABLED) 0
  = DS3231_ToUnixTime (mkDateTime 3 1 3 2024 0 0 0 DS3231_ENABLED) 0.
Proof.
  apply (ToUnixTime_day_past_month_end
           (mkDateTime 3 30 2 2024 0 0 0 DS3231_ENABLED) 0);
    cbn; lia.
Defined.

(** ** DS3231_ToDateTime: what it returns, its inverse, December 31 *)

(** Whenever [DS3231_ToDateTime] returns, on a 32-bit count, the date is a
    date of the calendar in 1970-2106, the weekday is in 1-7, the time
    fields are the hour, minute and second of the second of the day, and
    [Enable] is the one [*dt] had. *)
Theorem ToDateTime_returns_valid (u : Z) (dt dt' : DS3231_DateTime) :
  is_uint32 u -> DS3231_ToDateTime u dt = Done dt' ->
  1970 <= Year dt' <= 2106 /\
  valid_date (Year dt') (Month dt') (Date dt') /\
  1 <= Day dt' <= 7 /\
  0 <= Hour_24mode dt' <= 23 /\ 0 <= Minute dt' <= 59 /\
  0 <= Second dt' <= 59 /\
  Hour_24mode dt' * 3600 + Minute dt' * 60 + Second dt' = u mod 86400 /\
  Enable dt' = Enable dt.
Proof.
  intros Hu H.
  destruct (ToDateTime_cases u dt Hu)
    as (y & doy & Hy & Hdoy & _ & [[_ E]|(_ & m & d & Hv & _ & E)]).
  - rewrite E in H. discriminate.
  - rewrite E in H. apply Done_inj in H. subst dt'.
    cbn [Year Month Date Day Hour_24mode Minute Second Enable].
    destruct (days_of_uint32 u Hu) as [_ Ht].
    change (24 * 60 * 60) with 86400 in Ht.
    destruct (time_of_day_fields _ Ht) as (_ & _ & _ & ? & ? & ?).
    pose proof (weekday_of_range y m d).
    repeat split; try lia; try apply Hv.
    Z.div_mod_to_equations. lia.
Qed.

Lemma ToDateTime_returns_valid_2024_07_04 :
  1970 <= 2024 <= 2106 /\ valid_date 2024 7 4 /\ 1 <= 4 <= 7 /\
  0 <= 12 <= 23 /\ 0 <= 0 <= 59 /\ 0 <= 0 <= 59 /\
  12 * 3600 + 0 * 60 + 0 = 1720094400 mod 86400 /\
  DS3231_ENABLED = DS3231_ENABLED.
Proof.
  apply (ToDateTime_returns_valid 1720094400 t_2000_01_01
           (mkDateTime 4 4 7 2024 12 0 0 DS3231_ENABLED)).
  - unfold is_uint32. lia.
  - vm_compute. reflexivity.
Defined.

(** [DS3231_ToUnixTime] undoes [DS3231_ToDateTime]: a 32-bit count that is
    converted to a date of 2000-2099 is the count written for that date. *)
Theorem ToUnixTime_ToDateTime (u unixtime : Z) (dt dt' : DS3231_DateTime) :
  is_uint32 u -> DS3231_ToDateTime u dt = Done dt' ->
  2000 <= Year dt' <= 2099 ->
  DS3231_ToUnixTime dt' unixtime = Done u.
Proof.
  intros Hu H Hy'.
  destruct (ToDateTime_cases u dt Hu)
    as (y & doy & Hy & Hdoy & Hdays & [[_ E]|(_ & m & d & Hv & Hdoy1 & E)]).
  - rewrite E in H. discriminate.
  - rewrite E in H. apply Done_inj in H.
    assert (Ey : Year dt' = y) by (subst dt'; reflexivity). rewrite Ey in Hy'.
    destruct (days_of_uint32 u Hu) as [_ Ht].
    change (24 * 60 * 60) with 86400 in Ht.
    destruct (time_of_day_fields _ Ht) as (_ & _ & _ & ? & ? & ?).
    destruct Hv as [Hm Hd].
    pose proof (month_length_range y m Hm).
    pose proof (total_days_day_of_year dt') as Htd.
    subst dt'. cbn [Year Month Date] in Htd. specialize (Htd Hy').
    rewrite ToUnixTime_valid_fields
      by (cbn [Year Month Date Hour_24mode Minute Second]; lia).
    unfold seconds_since_2000, SECONDS_FROM_1970_TO_2000.
    cbn [Hour_24mode Minute Second]. f_equal.
    match goal with |- context [total_days ?t] => set (td := total_days t) in * end.
    Z.div_mod_to_equations. lia.
Qed.

Lemma ToUnixTime_ToDateTime_2024_07_04 :
  DS3231_ToUnixTime (mkDateTime 4 4 7 2024 12 0 0 DS3231_ENABLED) 0
  = Done 1720094400.
Proof.
  apply (ToUnixTime_ToDateTime 1720094400 0 t_2000_01_01
           (mkDateTime 4 4 7 2024 12 0 0 DS3231_ENABLED)).
  - unfold is_uint32. lia.
  - vm_compute. reflexivity.
  - cbn. lia.
Defined.

(** The day before every January 1 is lost: if the count of a day later is
    converted to a January 1, the count itself makes [DS3231_ToDateTime]
    read [days_in_month[12]]. *)
Theorem ToDateTime_day_before_January_1 (u : Z) (dt dt1 : DS3231_DateTime) :
  0 <= u -> is_uint32 (u + 86400) ->
  DS3231_ToDateTime (u + 86400) dt = Done dt1 ->
  Month dt1 = 1 -> Date dt1 = 1 ->
  DS3231_ToDateTime u dt = OutOfBounds 12.
Proof.
  intros Hu0 Hu1 H1 Hm1 Hd1.
  assert (Hu : is_uint32 u) by (unfold is_uint32 in *; lia).
  destruct (ToDateTime_cases (u + 86400) dt Hu1)
    as (y1 & doy1 & Hy1 & Hdoy1 & Hdays1 & [[_ E]|(_ & m & d & _ & Hdy & E)]).
  { rewrite E in H1. discriminate. }
  rewrite E in H1. apply Done_inj in H1. subst dt1.
  cbn [Month Date] in Hm1, Hd1. subst m d.
  assert (Hz : doy1 = 0).
  { assert (Hone : day_of_year (leap_flag y1) 1 1 = 1).
    { unfold day_of_year. destruct (leap_flag y1 =? 1); reflexivity. }
    lia. }
  subst doy1.
  replace ((u + 86400) / 86400) with (u / 86400 + 1) in Hdays1
    by (Z.div_mod_to_equations; lia).
  destruct (ToDateTime_cases u dt Hu)
    as (y & doy & Hy & Hdoy & Hdays & [[_ E']|(Hlt & _)]); [exact E'|].
  exfalso.
  assert (H1970 : 1971 <= y1).
  { destruct (Z.le_gt_cases 1971 y1) as [?|Hlt']; [assumption|].
    assert (y1 = 1970) by lia. subst y1.
    change (days_before_year 1970) with 0 in Hdays1.
    assert (0 <= u / 86400) by (apply Z.div_pos; lia). lia. }
  pose proof (days_before_year_succ (y1 - 1) ltac:(lia)) as Hs.
  replace (y1 - 1 + 1) with y1 in Hs by lia.
  pose proof (year_length_cases (y1 - 1)).
  destruct (days_before_year_unique y doy (y1 - 1) (year_length (y1 - 1) - 1))
    as [Ey Ed]; try lia.
  subst y. lia.
Qed.

Lemma ToDateTime_day_before_January_1_2025 :
  DS3231_ToDateTime 1735603200 t_2000_01_01 = OutOfBounds 12.
Proof.
  apply (ToDateTime_day_before_January_1 1735603200 t_2000_01_01
           (mkDateTime 3 1 1 2025 0 0 0 DS3231_ENABLED)).
  - lia.
  - unfold is_uint32. lia.
  - vm_compute. reflexivity.
  - reflexivity.
  - reflexivity.
Defined.

(** ** The bytes of the time registers *)

Lemma DecodeBCD_mask mask hi x :
  bcd_mask_check mask hi = true -> 0 <= x <= hi ->
  DS3231_DecodeBCD (Z.land (DS3231_EncodeBCD x) mask) = x.
Proof.
  intros H Hx. apply Z.eqb_eq. exact (forallb_Zrange _ _ _ H x Hx).
Qed.

Lemma bcd_mask_127 : bcd_mask_check 127 79 = true.
Proof. vm_compute. reflexivity. Qed.

Lemma bcd_mask_63 : bcd_mask_check 63 39 = true.
Proof. vm_compute. reflexivity. Qed.

Lemma bcd_mask_31 : bcd_mask_check 31 19 = true.
Proof. vm_compute. reflexivity. Qed.

Lemma bcd_mask_7 : bcd_mask_check 7 7 = true.
Proof. vm_compute. reflexivity. Qed.

Lemma bcd_mask_255 : bcd_mask_check 255 159 = true.
Proof. vm_compute. reflexivity. Qed.

Lemma EncodeBCD_uint8 x : 0 <= DS3231_EncodeBCD x < 256.
Proof. unfold DS3231_EncodeBCD, to_uint8. apply Z.mod_pos_bound. reflexivity. Qed.

Lemma DecodeBCD_EncodeBCD_small d :
  0 <= d <= 159 -> DS3231_DecodeBCD (DS3231_EncodeBCD d) = d.
Proof.
  intros Hd.
  rewrite <- (DecodeBCD_mask 255 159 d bcd_mask_255 Hd) at 2.
  change 255 with (Z.ones 8). rewrite Z.land_ones by lia.
  change (2 ^ 8) with 256. rewrite Z.mod_small by apply EncodeBCD_uint8.
  reflexivity.
Qed.

(** The seven checks fill the seven entries of [buffer], the seconds first
    and the year last. *)
Lemma SetDateTime_checks_buffer buffer0 dt :
  length buffer0 = 7%nat ->
  SetDateTime_checks buffer0 dt
  = inr [DS3231_EncodeBCD (Second dt); DS3231_EncodeBCD (Minute dt);
         DS3231_EncodeBCD (Hour_24mode dt); DS3231_EncodeBCD (Day dt);
         DS3231_EncodeBCD (Date dt); DS3231_EncodeBCD (Month dt);
         DS3231_EncodeBCD (to_uint8 (to_uint32 (Year dt - 2000)))].
Proof.
  intros Hl.
  do 7 (destruct buffer0 as [|? buffer0]; [discriminate|]).
  destruct buffer0; [|discriminate].
  unfold SetDateTime_checks, check_Day, check_Date, check_Month, check_Year,
    check_Hour_24mode, check_Minute, check_Second.
  rewrite !or_of_bounds by lia. reflexivity.
Qed.

Lemma to_uint8_EncodeBCD x : to_uint8 (DS3231_EncodeBCD x) = DS3231_EncodeBCD x.
Proof. unfold DS3231_EncodeBCD. apply to_uint8_idem_mod. Qed.

(** The fields decoded from the seven bytes of a time in range. *)
Lemma GetDateTime_fields_encoded (dt dt0 : DS3231_DateTime) :
  1 <= Day dt <= 7 -> 1 <= Date dt <= 31 -> 1 <= Month dt <= 12 ->
  2000 <= Year dt <= 2099 -> 0 <= Hour_24mode dt <= 23 ->
  0 <= Minute dt <= 59 -> 0 <= Second dt <= 59 ->
  GetDateTime_fields
    [DS3231_EncodeBCD (Second dt); DS3231_EncodeBCD (Minute dt);
     DS3231_EncodeBCD (Hour_24mode dt); DS3231_EncodeBCD (Day dt);
     DS3231_EncodeBCD (Date dt); DS3231_EncodeBCD (Month dt);
     DS3231_EncodeBCD (to_uint8 (to_uint32 (Year dt - 2000)))] dt0
  = mkDateTime (Day dt) (Date dt) (Month dt) (Year dt) (Hour_24mode dt)
               (Minute dt) (Second dt) (Enable dt0).
Proof.
  intros Hd Ht Hm Hy Hh Hi Hs.
  pose proof bcd_mask_127 as M127. pose proof bcd_mask_63 as M63.
  pose proof bcd_mask_31 as M31. pose proof bcd_mask_7 as M7.
  unfold GetDateTime_fields. cbn [nth].
  rewrite (DecodeBCD_mask 127 79 (Second dt) M127) by lia.
  rewrite (DecodeBCD_mask 127 79 (Minute dt) M127) by lia.
  rewrite (DecodeBCD_mask 63 39 (Hour_24mode dt) M63) by lia.
  rewrite (DecodeBCD_mask 7 7 (Day dt) M7) by lia.
  rewrite (DecodeBCD_mask 63 39 (Date dt) M63) by lia.
  rewrite (DecodeBCD_mask 31 19 (Month dt) M31) by lia.
  rewrite (to_uint32_small (Year dt - 2000)) by lia.
  rewrite (to_uint8_small (Year dt - 2000)) by lia.
  rewrite DecodeBCD_EncodeBCD_small by lia.
  rewrite to_uint32_small by lia. rewrite to_uint16_small by lia.
  f_equal. lia.
Qed.

Lemma eosc_table : forallb eosc_check (Zrange 0 255) = true.
Proof. vm_compute. reflexivity. Qed.

Lemma eosc_fact c :
  is_uint8 c ->
  Z.land (Z.shiftr (to_uint8 (Z.land c 127)) 7) 1 = 0 /\
  Z.land (Z.shiftr (to_uint8 (Z.lor c 128)) 7) 1 = 1.
Proof.
  intros Hc. pose proof (forallb_bytes _ eosc_table c Hc) as T.
  unfold eosc_check in T. apply andb_prop in T. destruct T as [T1 T2].
  split; [apply Z.eqb_eq, T1 | apply Z.eqb_eq, T2].
Qed.

(** The bytes [DS3231_SetDateTime] computes for a time with its fields in
    range (weekday 1-7, day 1-31, month 1-12, year 2000-2099, 24-hour time)
    are decoded by [DS3231_GetDateTime] to the same fields. *)
Theorem GetDateTime_SetDateTime_fields (buffer0 : list Z) (dt dt0 : DS3231_DateTime) :
  length buffer0 = 7%nat ->
  1 <= Day dt <= 7 -> 1 <= Date dt <= 31 -> 1 <= Month dt <= 12 ->
  2000 <= Year dt <= 2099 -> 0 <= Hour_24mode dt <= 23 ->
  0 <= Minute dt <= 59 -> 0 <= Second dt <= 59 ->
  exists buffer,
    SetDateTime_checks buffer0 dt = inr buffer /\
    GetDateTime_fields buffer dt0
    = mkDateTime (Day dt) (Date dt) (Month dt) (Year dt) (Hour_24mode dt)
                 (Minute dt) (Second dt) (Enable dt0).
Proof.
  intros Hl Hd Ht Hm Hy Hh Hi Hs.
  eexists. split; [apply SetDateTime_checks_buffer, Hl|].
  apply GetDateTime_fields_encoded; assumption.
Qed.

Lemma GetDateTime_SetDateTime_fields_2024_07_04 :
  exists buffer,
    SetDateTime_checks [0; 0; 0; 0; 0; 0; 0]
                       (mkDateTime 4 4 7 2024 12 30 15 DS3231_ENABLED)
    = inr buffer /\
    GetDateTime_fields buffer t_2000_01_01
    = mkDateTime 4 4 7 2024 12 30 15 DS3231_ENABLED.
Proof.
  apply (GetDateTime_SetDateTime_fields
           [0; 0; 0; 0; 0; 0; 0]
           (mkDateTime 4 4 7 2024 12 30 15 DS3231_ENABLED) t_2000_01_01);
    cbn; try reflexivity; lia.
Defined.

(** ** The bytes of the alarm registers *)

Lemma alarm_mode_bits_table : forallb alarm_mode_bits_check (Zrange 0 255) = true.
Proof. vm_compute. reflexivity. Qed.

Lemma alarm_seconds_table : forallb2 (alarm_byte_check 1 7 127) 59 = true.
Proof. vm_compute. reflexivity. Qed.

Lemma alarm_minutes_table : forallb2 (alarm_byte_check 2 6 127) 59 = true.
Proof. vm_compute. reflexivity. Qed.

Lemma alarm_hours_table : forallb2 (alarm_byte_check 4 5 63) 23 = true.
Proof. vm_compute. reflexivity. Qed.

Lemma alarm1_daydate_table : forallb2 (alarm_daydate_check 8 4 16 2) 31 = true.
Proof. vm_compute. reflexivity. Qed.

Lemma alarm2_daydate_table : forallb2 (alarm_daydate_check 4 5 8 3) 31 = true.
Proof. vm_compute. reflexivity. Qed.

Lemma forallb2_true P hi x m :
  forallb2 P hi = true -> 0 <= x <= hi -> is_uint8 m -> P x m = true.
Proof.
  intros H Hx Hm. unfold forallb2 in H.
  pose proof (forallb_Zrange _ _ _ H x Hx) as H'. cbv beta in H'.
  exact (forallb_bytes _ H' m Hm).
Qed.

Lemma alarm_byte_fact bit sh mask hi x m :
  forallb2 (alarm_byte_check bit sh mask) hi = true ->
  0 <= x <= hi -> is_uint8 m ->
  let byte :=
    to_uint8 (Z.lor (DS3231_EncodeBCD x) (to_uint8 (Z.shiftl (Z.land m bit) sh))) in
  DS3231_DecodeBCD (Z.land byte mask) = x /\
  Z.shiftr (Z.land byte 128) sh = Z.land m bit.
Proof.
  intros H Hx Hm byte.
  pose proof (forallb2_true _ _ x m H Hx Hm) as T.
  unfold alarm_byte_check in T. cbv zeta in T. fold byte in T.
  apply andb_prop in T. destruct T as [T1 T2].
  split; [apply Z.eqb_eq, T1 | apply Z.eqb_eq, T2].
Qed.

Lemma alarm_daydate_fact bit7 sh7 bit6 sh6 x m :
  forallb2 (alarm_daydate_check bit7 sh7 bit6 sh6) 31 = true ->
  1 <= x <= (if Z.land m bit6 =? 0 then 31 else 7) -> is_uint8 m ->
  let byte :=
    to_uint8 (Z.lor (Z.lor (DS3231_EncodeBCD x)
                           (to_uint8 (Z.shiftl (Z.land m bit6) sh6)))
                    (to_uint8 (Z.shiftl (Z.land m bit7) sh7))) in
  Z.shiftr (Z.land byte 128) sh7 = Z.land m bit7 /\
  Z.shiftr (Z.land byte 64) sh6 = Z.land m bit6 /\
  (if c_true (to_uint8 (Z.shiftr (Z.land byte 64) 6))
   then DS3231_DecodeBCD (Z.land byte 15)
   else DS3231_DecodeBCD (Z.land byte 63)) = x.
Proof.
  intros H Hx Hm byte.
  assert (Hx' : 0 <= x <= 31) by (destruct (Z.land m bit6 =? 0); lia).
  pose proof (forallb2_true _ _ x m H Hx' Hm) as T.
  unfold alarm_daydate_check in T. cbv zeta in T. fold byte in T.
  apply andb_prop in T. destruct T as [T T3].
  apply andb_prop in T. destruct T as [T1 T2].
  apply Z.eqb_eq in T1, T2. split; [exact T1|]. split; [exact T2|].
  destruct (c_true (to_uint8 (Z.shiftr (Z.land byte 64) 6))).
  - apply andb_prop in T3. destruct T3 as [N D].
    destruct (Z.land m bit6 =? 0); [discriminate|].
    destruct (Z.ltb_spec 9 x); [lia|]. apply Z.eqb_eq, D.
  - apply andb_prop in T3. destruct T3 as [_ D]. apply Z.eqb_eq, D.
Qed.

Lemma alarm_mode_bits m :
  is_uint8 m ->
  to_uint8 (Z.lor (Z.lor (Z.lor (Z.lor (Z.land m 1) (Z.land m 2)) (Z.land m 4))
                         (Z.land m 8)) (Z.land m 16)) = Z.land m 31 /\
  to_uint8 (Z.lor (Z.lor (Z.lor (Z.land m 1) (Z.land m 2)) (Z.land m 4))
                  (Z.land m 8)) = Z.land m 15.
Proof.
  intros Hm.
  pose proof (forallb_bytes _ alarm_mode_bits_table m Hm) as T. unfold alarm_mode_bits_check in T.
  apply andb_prop in T. destruct T as [T1 T2].
  split; [apply Z.eqb_eq, T1 | apply Z.eqb_eq, T2].
Qed.

(** The four bytes [DS3231_SetAlarm1] computes for an alarm with its fields
    in range (seconds and minutes to 59, hours to 23, and a day of the week
    1-7 when bit 4 of the mode is set, a day of the month 1-31 otherwise)
    are decoded by [DS3231_GetAlarm1] to the same time fields and to the
    five low bits of the mode. *)
Theorem GetAlarm1_SetAlarm1_fields (a a0 : Alarm1.D3231_Alarm1) :
  0 <= Alarm1.Seconds a <= 59 -> 0 <= Alarm1.Minutes a <= 59 ->
  0 <= Alarm1.Hours a <= 23 -> is_uint8 (Alarm1.Mode a) ->
  1 <= Alarm1.DayDate a <= (if Z.land (Alarm1.Mode a) 16 =? 0 then 31 else 7) ->
  GetAlarm1_fields (SetAlarm1_data a) a0
  = Alarm1.mk (Alarm1.Seconds a) (Alarm1.Minutes a) (Alarm1.Hours a)
              (Alarm1.DayDate a) (Z.land (Alarm1.Mode a) 31) (Alarm1.IntEn a0).
Proof.
  destruct a as [s mi h d m e].
  cbn [Alarm1.Seconds Alarm1.Minutes Alarm1.Hours Alarm1.DayDate Alarm1.Mode].
  intros Hs Hmi Hh Hm Hd.
  destruct (alarm_byte_fact 1 7 127 59 s m alarm_seconds_table Hs Hm) as [A1 A2].
  destruct (alarm_byte_fact 2 6 127 59 mi m alarm_minutes_table Hmi Hm) as [B1 B2].
  destruct (alarm_byte_fact 4 5 63 23 h m alarm_hours_table Hh Hm) as [C1 C2].
  destruct (alarm_daydate_fact 8 4 16 2 d m alarm1_daydate_table Hd Hm)
    as (D1 & D2 & D3).
  cbv zeta in A1, A2, B1, B2, C1, C2, D1, D2, D3.
  unfold GetAlarm1_fields, SetAlarm1_data.
  cbn [nth Alarm1.Seconds Alarm1.Minutes Alarm1.Hours Alarm1.DayDate Alarm1.Mode].
  cbv zeta.
  rewrite A1, A2, B1, B2, C1, C2, D1, D2, D3.
  rewrite (proj1 (alarm_mode_bits m Hm)). reflexivity.
Qed.

Lemma GetAlarm1_SetAlarm1_fields_weekday :
  GetAlarm1_fields
    (SetAlarm1_data (Alarm1.mk 30 15 7 3 DS3231_A1_MATCH_S_M_H_DAY DS3231_ENABLED))
    (Alarm1.mk 0 0 0 0 0 DS3231_DISABLED)
  = Alarm1.mk 30 15 7 3 16 DS3231_DISABLED.
Proof.
  apply (GetAlarm1_SetAlarm1_fields
           (Alarm1.mk 30 15 7 3 DS3231_A1_MATCH_S_M_H_DAY DS3231_ENABLED)
           (Alarm1.mk 0 0 0 0 0 DS3231_DISABLED));
    cbn; try lia.
  unfold is_uint8, DS3231_A1_MATCH_S_M_H_DAY. lia.
Defined.

(** The three bytes [DS3231_SetAlarm2] computes for an alarm with its
    fields in range (minutes to 59, hours to 23, and a day of the week 1-7
    when bit 3 of the mode is set, a day of the month 1-31 otherwise) are
    decoded by [DS3231_GetAlarm2] to the same time fields and to the four
    low bits of the mode. *)
Theorem GetAlarm2_SetAlarm2_fields (a a0 : Alarm2.D3231_Alarm2) :
  0 <= Alarm2.Minutes a <= 59 -> 0 <= Alarm2.Hours a <= 23 ->
  is_uint8 (Alarm2.Mode a) ->
  1 <= Alarm2.DayDate a <= (if Z.land (Alarm2.Mode a) 8 =? 0 then 31 else 7) ->
  GetAlarm2_fields (SetAlarm2_data a) a0
  = Alarm2.mk (Alarm2.Minutes a) (Alarm2.Hours a) (Alarm2.DayDate a)
              (Z.land (Alarm2.Mode a) 15) (Alarm2.IntEn a0).
Proof.
  destruct a as [mi h d m e].
  cbn [Alarm2.Minutes Alarm2.Hours Alarm2.DayDate Alarm2.Mode].
  intros Hmi Hh Hm Hd.
  assert (Hh' : 0 <= h <= 59) by lia.
  destruct (alarm_byte_fact 1 7 127 59 mi m alarm_seconds_table Hmi Hm) as [B1 B2].
  destruct (alarm_byte_fact 2 6 127 59 h m alarm_minutes_table Hh' Hm) as [C1 C2].
  destruct (alarm_daydate_fact 4 5 8 3 d m alarm2_daydate_table Hd Hm)
    as (D1 & D2 & D3).
  cbv zeta in B1, B2, C1, C2, D1, D2, D3.
  unfold GetAlarm2_fields, SetAlarm2_data.
  cbn [nth Alarm2.Minutes Alarm2.Hours Alarm2.DayDate Alarm2.Mode].
  cbv zeta.
  rewrite B1, B2, C1, C2, D1, D2, D3.
  rewrite (proj2 (alarm_mode_bits m Hm)). reflexivity.
Qed.

Lemma GetAlarm2_SetAlarm2_fields_date :
  GetAlarm2_fields
    (SetAlarm2_data (Alarm2.mk 45 23 31 DS3231_A2_MATCH_M_H_DATE DS3231_ENABLED))
    (Alarm2.mk 0 0 0 0 DS3231_DISABLED)
  = Alarm2.mk 45 23 31 0 DS3231_DISABLED.
Proof.
  apply (GetAlarm2_SetAlarm2_fields
           (Alarm2.mk 45 23 31 DS3231_A2_MATCH_M_H_DATE DS3231_ENABLED)
           (Alarm2.mk 0 0 0 0 DS3231_DISABLED));
    cbn; try lia.
  unfold is_uint8, DS3231_A2_MATCH_M_H_DATE. lia.
Defined.

(** ** Fields of the control and status registers *)

Lemma set_BBSQW_table : forallb2 (set_field_check 191 1 6) 1 = true.
Proof. vm_compute. reflexivity. Qed.

Lemma set_EOSC_table : forallb2 (set_field_check 127 1 7) 1 = true.
Proof. vm_compute. reflexivity. Qed.

Lemma set_INTCN_table : forallb2 (set_field_check 251 1 2) 1 = true.
Proof. vm_compute. reflexivity. Qed.

Lemma set_A1IE_table : forallb2 (set_field_check 254 1 0) 1 = true.
Proof. vm_compute. reflexivity. Qed.

Lemma set_A2IE_table : forallb2 (set_field_check 253 1 1) 1 = true.
Proof. vm_compute. reflexivity. Qed.

Lemma set_RS_table : forallb2 (set_field_check 231 3 3) 3 = true.
Proof. vm_compute. reflexivity. Qed.

Lemma set_32khz_table : forallb2 set_32khz_check 1 = true.
Proof. vm_compute. reflexivity. Qed.

Lemma clear_A1F_table : forallb (clear_flag_check 0 254) (Zrange 0 255) = true.
Proof. vm_compute. reflexivity. Qed.

Lemma clear_A2F_table : forallb (clear_flag_check 1 253) (Zrange 0 255) = true.
Proof. vm_compute. reflexivity. Qed.

Lemma set_field_fact keep width shift v c :
  forallb2 (set_field_check keep width shift) width = true ->
  0 <= v <= width -> is_uint8 c ->
  let new := to_uint8 (Z.lor (Z.land c keep) (Z.shiftl (Z.land v width) shift)) in
  Z.land (Z.shiftr new shift) width = v /\ Z.land new keep = Z.land c keep /\
  new = Z.lor (Z.land c keep) (Z.shiftl v shift).
Proof.
  intros H Hv Hc new.
  pose proof (forallb2_true _ _ v c H Hv Hc) as T.
  unfold set_field_check in T. cbv zeta in T. fold new in T.
  apply andb_prop in T. destruct T as [T T3].
  apply andb_prop in T. destruct T as [T1 T2].
  split; [apply Z.eqb_eq, T1 | split; [apply Z.eqb_eq, T2 | apply Z.eqb_eq, T3]].
Qed.

Lemma set_32khz_fact v c :
  0 <= v <= 1 -> is_uint8 c ->
  let new := to_uint8 (Z.lor (to_uint8 (Z.land c 247)) (Z.shiftl v DS3231_EN32KHZ)) in
  Z.land (Z.shiftr new DS3231_EN32KHZ) 1 = v /\ Z.land new 247 = Z.land c 247 /\
  new = Z.lor (Z.land c 247) (Z.shiftl v 3).
Proof.
  intros Hv Hc new.
  pose proof (forallb2_true _ _ v c set_32khz_table Hv Hc) as T.
  unfold set_32khz_check in T. cbv zeta in T. fold new in T.
  apply andb_prop in T. destruct T as [T T3].
  apply andb_prop in T. destruct T as [T1 T2].
  split; [apply Z.eqb_eq, T1 | split; [apply Z.eqb_eq, T2 | apply Z.eqb_eq, T3]].
Qed.

Lemma clear_flag_fact bit keep c :
  forallb (clear_flag_check bit keep) (Zrange 0 255) = true -> is_uint8 c ->
  let new := to_uint8 (Z.land c (Z.lnot (Z.shiftl 1 bit))) in
  new = Z.land c keep /\ Z.land (Z.shiftr new bit) 1 = 0.
Proof.
  intros H Hc new.
  pose proof (forallb_bytes _ H c Hc) as T.
  unfold clear_flag_check in T. cbv zeta in T. fold new in T.
  apply andb_prop in T. destruct T as [T1 T2].
  split; [apply Z.eqb_eq, T1 | apply Z.eqb_eq, T2].
Qed.

Lemma State_to_int_range e : 0 <= State_to_int e <= 1.
Proof. destruct e; cbn; lia. Qed.

Lemma State_of_to_int e : State_of_int (State_to_int e) = e.
Proof. destruct e; reflexivity. Qed.

Lemma Rate_to_int_range r : 0 <= Rate_to_int r <= 3.
Proof. destruct r; cbn; lia. Qed.

Lemma Rate_of_to_int r : Rate_of_int (Rate_to_int r) = r.
Proof. destruct r; reflexivity. Qed.

Lemma InterruptMode_to_int_range m : 0 <= InterruptMode_to_int m <= 1.
Proof. destruct m; cbn; lia. Qed.

Lemma InterruptMode_of_to_int m : InterruptMode_of_int (InterruptMode_to_int m) = m.
Proof. destruct m; reflexivity. Qed.

Lemma to_uint8_idem x : to_uint8 (to_uint8 x) = to_uint8 x.
Proof. unfold to_uint8. apply Z.mod_mod. discriminate. Qed.

Lemma to_uint8_is_uint8 x : is_uint8 (to_uint8 x).
Proof. unfold is_uint8, to_uint8. apply Z.mod_pos_bound. reflexivity. Qed.

Lemma rate_select_table : forallb2 rate_select_check 3 = true.
Proof. vm_compute. reflexivity. Qed.

Lemma alarm1_enable_table : forallb2 alarm1_enable_check 1 = true.
Proof. vm_compute. reflexivity. Qed.

Lemma alarm2_enable_table : forallb2 alarm2_enable_check 1 = true.
Proof. vm_compute. reflexivity. Qed.

Lemma init_table : forallb init_check (Zrange 0 255) = true.
Proof. vm_compute. reflexivity. Qed.

Lemma oscillator_flag_table : forallb oscillator_flag_check (Zrange 0 255) = true.
Proof. vm_compute. reflexivity. Qed.

Lemma rate_select_fact v c :
  0 <= v <= 3 -> is_uint8 c ->
  Z.land (Z.shiftr (rate_select_byte v c) DS3231_RS1) 3 = v /\
  Z.land (Z.shiftr (rate_select_byte v c) DS3231_INTCN) 1 = 1 /\
  Z.land (rate_select_byte v c) 227 = Z.land c 227.
Proof.
  intros Hv Hc.
  pose proof (forallb2_true _ _ v c rate_select_table Hv Hc) as T.
  unfold rate_select_check in T. cbv zeta in T.
  apply andb_prop in T. destruct T as [T T3].
  apply andb_prop in T. destruct T as [T1 T2].
  split; [apply Z.eqb_eq, T1 | split; [apply Z.eqb_eq, T2 | apply Z.eqb_eq, T3]].
Qed.

Lemma alarm1_enable_fact v c :
  0 <= v <= 1 -> is_uint8 c ->
  Z.land (Z.shiftr (alarm1_enable_byte v c) DS3231_A1IE) 1 = v /\
  Z.land (Z.shiftr (alarm1_enable_byte v c) DS3231_INTCN) 1 = 1 /\
  Z.land (alarm1_enable_byte v c) 250 = Z.land c 250.
Proof.
  intros Hv Hc.
  pose proof (forallb2_true _ _ v c alarm1_enable_table Hv Hc) as T.
  unfold alarm1_enable_check in T. cbv zeta in T.
  apply andb_prop in T. destruct T as [T T3].
  apply andb_prop in T. destruct T as [T1 T2].
  split; [apply Z.eqb_eq, T1 | split; [apply Z.eqb_eq, T2 | apply Z.eqb_eq, T3]].
Qed.

Lemma alarm2_enable_fact v c :
  0 <= v <= 1 -> is_uint8 c ->
  Z.land (Z.shiftr (alarm2_enable_byte v c) DS3231_A2IE) 1 = v /\
  Z.land (Z.shiftr (alarm2_enable_byte v c) DS3231_INTCN) 1 = 1 /\
  Z.land (alarm2_enable_byte v c) 249 = Z.land c 249.
Proof.
  intros Hv Hc.
  pose proof (forallb2_true _ _ v c alarm2_enable_table Hv Hc) as T.
  unfold alarm2_enable_check in T. cbv zeta in T.
  apply andb_prop in T. destruct T as [T T3].
  apply andb_prop in T. destruct T as [T1 T2].
  split; [apply Z.eqb_eq, T1 | split; [apply Z.eqb_eq, T2 | apply Z.eqb_eq, T3]].
Qed.

Lemma init_fact c :
  is_uint8 c ->
  alarm2_enable_byte 0 (alarm1_enable_byte 0 c) = Z.lor (Z.land c 248) 4 /\
  init_status_byte c = Z.land c 244.
Proof.
  intros Hc. pose proof (forallb_bytes _ init_table c Hc) as T.
  unfold init_check in T. apply andb_prop in T. destruct T as [T1 T2].
  split; [apply Z.eqb_eq, T1 | apply Z.eqb_eq, T2].
Qed.

Lemma oscillator_flag_fact c :
  is_uint8 c ->
  c_true (to_uint8 (Z.shiftr (to_uint8 (Z.land c 128)) DS3231_EOSC))
  = negb (Z.land (Z.shiftr c 7) 1 =? 0) /\
  Z.land (lnot_int (Z.shiftr c DS3231_OSF)) 1
  = (if Z.land (Z.shiftr c 7) 1 =? 0 then 1 else 0).
Proof.
  intros Hc. pose proof (forallb_bytes _ oscillator_flag_table c Hc) as T.
  unfold oscillator_flag_check in T. cbv zeta in T.
  apply andb_prop in T. destruct T as [T1 T2].
  split; [apply Bool.eqb_prop, T1 | apply Z.eqb_eq, T2].
Qed.

Lemma regfile_memory_device :
  memory_device regfile regfile_write regfile_read regfile_content.
Proof.
  split.
  - intros s r. unfold regfile_content, to_uint8. apply Z.mod_pos_bound. reflexivity.
  - intros reg len s bytes s' H. unfold regfile_read in H.
    inversion H. subst. split; [reflexivity | reflexivity].
  - intros reg data s s' H r. unfold regfile_write in H.
    inversion H. subst. unfold regfile_content.
    destruct ((reg <=? r) && (r <? reg + Z.of_nat (length data))); reflexivity.
Qed.

(** ** The driver on a device that keeps what is written *)

Section MemoryDevice.

Variable i2c : Type.
Variable HAL_I2C_Mem_Write : Z -> list Z -> i2c -> HAL_StatusTypeDef * i2c.
Variable HAL_I2C_Mem_Read : Z -> nat -> i2c -> HAL_StatusTypeDef * list Z * i2c.
Variable content : i2c -> Z -> Z.
Hypothesis device : memory_device i2c HAL_I2C_Mem_Write HAL_I2C_Mem_Read content.

Lemma content_is_uint8 s r : is_uint8 (content s r).
Proof. unfold is_uint8. change (2 ^ 8) with 256. apply (content_byte _ _ _ _ device). Qed.

Lemma ReadRegister_content reg data0 s v s' :
  DS3231_ReadRegister i2c HAL_I2C_Mem_Read reg data0 s = (HAL_OK, v, s') ->
  v = content s reg /\ forall r, content s' r = content s r.
Proof.
  unfold DS3231_ReadRegister.
  destruct (HAL_I2C_Mem_Read reg 1%nat s) as [[st bytes] s1] eqn:E.
  intros H. inversion H. subst st s1. clear H.
  destruct (read_content _ _ _ _ device _ _ _ _ _ E) as [Hb Hc].
  subst bytes. cbn. rewrite Z.add_0_r. split; [reflexivity | exact Hc].
Qed.

Lemma WriteRegister_content reg v s s' :
  DS3231_WriteRegister i2c HAL_I2C_Mem_Write reg v s = (HAL_OK, s') ->
  forall r, content s' r = if r =? reg then to_uint8 v else content s r.
Proof.
  unfold DS3231_WriteRegister. intros H r.
  rewrite (write_content _ _ _ _ device _ _ _ _ H r).
  change (Z.of_nat (length [v])) with 1.
  destruct (Z.leb_spec reg r); destruct (Z.ltb_spec r (reg + 1));
    destruct (Z.eqb_spec r reg) as [E|Hne];
    cbn [andb]; try lia; try reflexivity.
  subst r. rewrite Z.sub_diag. reflexivity.
Qed.

(** A function that reads a register, changes the byte by [f] and writes
    it back. *)
Lemma read_modify_write_content reg (f : Z -> Z) control0 s s' :
  (let '(status, control, s1) :=
     DS3231_ReadRegister i2c HAL_I2C_Mem_Read reg control0 s in
   match status with
   | HAL_OK => DS3231_WriteRegister i2c HAL_I2C_Mem_Write reg (f control) s1
   | _ => (status, s1)
   end) = (HAL_OK, s') ->
  forall r, content s' r
            = if r =? reg then to_uint8 (f (content s reg)) else content s r.
Proof.
  destruct (DS3231_ReadRegister i2c HAL_I2C_Mem_Read reg control0 s)
    as [[st c] s1] eqn:E.
  destruct st; try discriminate. intros H r.
  destruct (ReadRegister_content _ _ _ _ _ E) as [-> Hf].
  rewrite (WriteRegister_content _ _ _ _ H r), Hf. reflexivity.
Qed.

(** A getter that tests the status of its read. *)
Lemma checked_getter_content (A : Type) reg (g : Z -> A) control0 (a0 a : A) s st s' :
  (let '(status, control, s1) :=
     DS3231_ReadRegister i2c HAL_I2C_Mem_Read reg control0 s in
   match status with
   | HAL_OK => (status, g control, s1)
   | _ => (status, a0, s1)
   end) = (st, a, s') ->
  st = HAL_OK ->
  a = g (content s reg) /\ forall r, content s' r = content s r.
Proof.
  destruct (DS3231_ReadRegister i2c HAL_I2C_Mem_Read reg control0 s)
    as [[st1 c] s1] eqn:E.
  intros H Hst. destruct st1; inversion H; subst; try discriminate.
  destruct (ReadRegister_content _ _ _ _ _ E) as [-> Hf]. auto.
Qed.

(** A getter that does not test it. *)
Lemma unchecked_getter_content (A : Type) reg (g : Z -> A) data0 (a : A) s st s' :
  (let '(status, data, s1) :=
     DS3231_ReadRegister i2c HAL_I2C_Mem_Read reg data0 s in
   (status, g data, s1)) = (st, a, s') ->
  st = HAL_OK ->
  a = g (content s reg) /\ forall r, content s' r = content s r.
Proof.
  destruct (DS3231_ReadRegister i2c HAL_I2C_Mem_Read reg data0 s)
    as [[st1 c] s1] eqn:E.
  intros H Hst. inversion H; subst.
  destruct (ReadRegister_content _ _ _ _ _ E) as [-> Hf]. auto.
Qed.

(** After [DS3231_SetBatterySquareWave] has succeeded,
    [DS3231_GetBatterySquareWave] returns the state that was set; the other
    bits of the control register and the other registers are unchanged. *)
Theorem GetBatterySquareWave_SetBatterySquareWave
        control0 control1 enable enable0 s s1 st e s2 :
  DS3231_SetBatterySquareWave i2c HAL_I2C_Mem_Write HAL_I2C_Mem_Read
                              control0 enable s = (HAL_OK, s1) ->
  DS3231_GetBatterySquareWave i2c HAL_I2C_Mem_Read control1 enable0 s1
  = (st, e, s2) ->
  st = HAL_OK ->
  e = enable /\
  Z.land (content s1 DS3231_REG_CONTROL) 191
  = Z.land (content s DS3231_REG_CONTROL) 191 /\
  forall r, r <> DS3231_REG_CONTROL -> content s1 r = content s r.
Proof.
  intros Hset Hget Hst.
  pose proof (read_modify_write_content _ _ _ _ _ Hset) as Hc.
  destruct (checked_getter_content _ _ _ _ _ _ _ _ _ Hget Hst) as [-> _].
  destruct (set_field_fact 191 1 6 (State_to_int enable)
              (content s DS3231_REG_CONTROL) set_BBSQW_table
              (State_to_int_range _) (content_is_uint8 _ _)) as (F1 & F2 & _).
  cbv zeta in F1, F2.
  pose proof (Hc DS3231_REG_CONTROL) as Hcc. rewrite Z.eqb_refl in Hcc.
  rewrite to_uint8_idem in Hcc. change DS3231_BBSQW with 6 in *.
  rewrite Hcc, F1, F2, State_of_to_int.
  split; [reflexivity|]. split; [reflexivity|].
  intros r Hr. rewrite (Hc r).
  destruct (Z.eqb_spec r DS3231_REG_CONTROL); [contradiction | reflexivity].
Qed.

Lemma ReadRegisters_content reg data0 len s data s' :
  DS3231_ReadRegisters i2c HAL_I2C_Mem_Read reg data0 len s = (HAL_OK, data, s') ->
  length data0 = len ->
  data = map (fun k => content s (reg + Z.of_nat k)) (seq 0 len) /\
  forall r, content s' r = content s r.
Proof.
  unfold DS3231_ReadRegisters.
  destruct (HAL_I2C_Mem_Read reg len s) as [[st bytes] s1] eqn:E.
  intros H Hl. inversion H. subst st s1. clear H.
  destruct (read_content _ _ _ _ device _ _ _ _ _ E) as [Hb Hc].
  split; [|exact Hc].
  assert (Hlen : length bytes = len) by (rewrite Hb, length_map, length_seq; reflexivity).
  rewrite Hlen, skipn_all2 by lia. rewrite app_nil_r. exact Hb.
Qed.

Lemma WriteRegisters_content reg data len s s' :
  DS3231_WriteRegisters i2c HAL_I2C_Mem_Write reg data len s = (HAL_OK, s') ->
  length data = len ->
  forall r,
    content s' r
    = if (reg <=? r) && (r <? reg + Z.of_nat len)
      then to_uint8 (nth (Z.to_nat (r - reg)) data 0)
      else content s r.
Proof.
  unfold DS3231_WriteRegisters. intros H Hl r.
  rewrite firstn_all2 in H by lia.
  rewrite (write_content _ _ _ _ device _ _ _ _ H r), Hl. reflexivity.
Qed.

(** A setter that writes [f control] and goes on with
    [DS3231_SetInterruptMode(DS3231_ALARM_INTERRUPT)]. *)
Lemma write_then_alarm_mode_content (f : Z -> Z) control0 s s' :
  (let '(status, control, s1) :=
     DS3231_ReadRegister i2c HAL_I2C_Mem_Read DS3231_REG_CONTROL control0 s in
   match status with
   | HAL_OK =>
       let '(status, s2) :=
         DS3231_WriteRegister i2c HAL_I2C_Mem_Write DS3231_REG_CONTROL (f control) s1 in
       match status with
       | HAL_OK =>
           DS3231_SetInterruptMode i2c HAL_I2C_Mem_Write HAL_I2C_Mem_Read
                                   control0 DS3231_ALARM_INTERRUPT s2
       | _ => (status, s2)
       end
   | _ => (status, s1)
   end) = (HAL_OK, s') ->
  forall r,
    content s' r
    = if r =? DS3231_REG_CONTROL
      then set_INTCN_alarm (to_uint8 (f (content s DS3231_REG_CONTROL)))
      else content s r.
Proof.
  destruct (DS3231_ReadRegister i2c HAL_I2C_Mem_Read DS3231_REG_CONTROL control0 s)
    as [[st c] s1] eqn:E1.
  destruct st; try discriminate.
  destruct (DS3231_WriteRegister i2c HAL_I2C_Mem_Write DS3231_REG_CONTROL (f c) s1)
    as [st2 s2] eqn:E2.
  destruct st2; try discriminate. intros H r.
  destruct (ReadRegister_content _ _ _ _ _ E1) as [-> Hf].
  pose proof (WriteRegister_content _ _ _ _ E2) as Hw.
  pose proof (read_modify_write_content _ _ _ _ _ H r) as Hm.
  rewrite Hm, (Hw r), (Hw DS3231_REG_CONTROL), !Hf, Z.eqb_refl.
  destruct (r =? DS3231_REG_CONTROL); [|reflexivity].
  rewrite to_uint8_idem. reflexivity.
Qed.

(** After [DS3231_SetInterruptMode] has succeeded,
    [DS3231_GetInterruptMode] returns the mode that was set; the other bits
    of the control register and the other registers are unchanged. *)
Theorem GetInterruptMode_SetInterruptMode
        control0 control1 mode mode0 s s1 st m s2 :
  DS3231_SetInterruptMode i2c HAL_I2C_Mem_Write HAL_I2C_Mem_Read
                          control0 mode s = (HAL_OK, s1) ->
  DS3231_GetInterruptMode i2c HAL_I2C_Mem_Read control1 mode0 s1 = (st, m, s2) ->
  st = HAL_OK ->
  m = mode /\
  Z.land (content s1 DS3231_REG_CONTROL) 251
  = Z.land (content s DS3231_REG_CONTROL) 251 /\
  forall r, r <> DS3231_REG_CONTROL -> content s1 r = content s r.
Proof.
  intros Hset Hget Hst.
  pose proof (read_modify_write_content _ _ _ _ _ Hset) as Hc.
  destruct (checked_getter_content _ _ _ _ _ _ _ _ _ Hget Hst) as [-> _].
  destruct (set_field_fact 251 1 2 (InterruptMode_to_int mode)
              (content s DS3231_REG_CONTROL) set_INTCN_table
              (InterruptMode_to_int_range _) (content_is_uint8 _ _)) as (F1 & F2 & _).
  cbv zeta in F1, F2.
  pose proof (Hc DS3231_REG_CONTROL) as Hcc. rewrite Z.eqb_refl in Hcc.
  rewrite to_uint8_idem in Hcc. change DS3231_INTCN with 2 in *.
  rewrite Hcc, F1, F2, InterruptMode_of_to_int.
  split; [reflexivity|]. split; [reflexivity|].
  intros r Hr. rewrite (Hc r).
  destruct (Z.eqb_spec r DS3231_REG_CONTROL); [contradiction | reflexivity].
Qed.

(** After [DS3231_SetRateSelect] has succeeded, [DS3231_GetRateSelect]
    returns the rate that was set and [DS3231_GetInterruptMode] returns
    [DS3231_ALARM_INTERRUPT], whatever the mode was before; the other five
    bits of the control register and the other registers are unchanged. *)
Theorem SetRateSelect_rate_and_mode
        control0 control1 control2 rate rate0 mode0 s s1 :
  DS3231_SetRateSelect i2c HAL_I2C_Mem_Write HAL_I2C_Mem_Read
                       control0 rate s = (HAL_OK, s1) ->
  (forall st r s2,
     DS3231_GetRateSelect i2c HAL_I2C_Mem_Read control1 rate0 s1 = (st, r, s2) ->
     st = HAL_OK -> r = rate) /\
  (forall st m s2,
     DS3231_GetInterruptMode i2c HAL_I2C_Mem_Read control2 mode0 s1 = (st, m, s2) ->
     st = HAL_OK -> m = DS3231_ALARM_INTERRUPT) /\
  Z.land (content s1 DS3231_REG_CONTROL) 227
  = Z.land (content s DS3231_REG_CONTROL) 227 /\
  forall r, r <> DS3231_REG_CONTROL -> content s1 r = content s r.
Proof.
  intros Hset.
  pose proof (write_then_alarm_mode_content
                (fun control =>
                   to_uint8 (Z.lor (Z.land control 231)
                                   (Z.shiftl (Z.land (Rate_to_int rate) 3) DS3231_RS1)))
                control0 s s1 Hset) as Hc.
  cbv beta in Hc.
  pose proof (Hc DS3231_REG_CONTROL) as Hcc. rewrite Z.eqb_refl in Hcc.
  rewrite to_uint8_idem in Hcc.
  change (content s1 DS3231_REG_CONTROL
          = rate_select_byte (Rate_to_int rate) (content s DS3231_REG_CONTROL)) in Hcc.
  destruct (rate_select_fact (Rate_to_int rate) (content s DS3231_REG_CONTROL)
              (Rate_to_int_range _) (content_is_uint8 _ _)) as (F1 & F2 & F3).
  rewrite <- Hcc in F1, F2, F3.
  split; [|split; [|split]].
  - intros st r s2 Hget Hst.
    destruct (checked_getter_content _ _ _ _ _ _ _ _ _ Hget Hst) as [-> _].
    rewrite F1. apply Rate_of_to_int.
  - intros st m s2 Hget Hst.
    destruct (checked_getter_content _ _ _ _ _ _ _ _ _ Hget Hst) as [-> _].
    rewrite F2. reflexivity.
  - exact F3.
  - intros r Hr. rewrite (Hc r).
    destruct (Z.eqb_spec r DS3231_REG_CONTROL); [contradiction | reflexivity].
Qed.

(** After [DS3231_SetAlarm2IntEn] has succeeded, [DS3231_GetAlarm2IntEn]
    returns the state that was set and [DS3231_GetInterruptMode] returns
    [DS3231_ALARM_INTERRUPT]; the other six bits of the control register
    and the other registers are unchanged. *)
Theorem SetAlarm2IntEn_enable_and_mode
        control0 control1 control2 enable enable0 mode0 s s1 :
  DS3231_SetAlarm2IntEn i2c HAL_I2C_Mem_Write HAL_I2C_Mem_Read
                        control0 enable s = (HAL_OK, s1) ->
  (forall st e s2,
     DS3231_GetAlarm2IntEn i2c HAL_I2C_Mem_Read control1 enable0 s1 = (st, e, s2) ->
     st = HAL_OK -> e = enable) /\
  (forall st m s2,
     DS3231_GetInterruptMode i2c HAL_I2C_Mem_Read control2 mode0 s1 = (st, m, s2) ->
     st = HAL_OK -> m = DS3231_ALARM_INTERRUPT) /\
  Z.land (content s1 DS3231_REG_CONTROL) 249
  = Z.land (content s DS3231_REG_CONTROL) 249 /\
  forall r, r <> DS3231_REG_CONTROL -> content s1 r = content s r.
Proof.
  intros Hset.
  pose proof (write_then_alarm_mode_content
                (fun control =>
                   to_uint8 (Z.lor (Z.land control 253)
                                   (Z.shiftl (Z.land (State_to_int enable) 1)
                                             DS3231_A2IE)))
                control0 s s1 Hset) as Hc.
  cbv beta in Hc.
  pose proof (Hc DS3231_REG_CONTROL) as Hcc. rewrite Z.eqb_refl in Hcc.
  rewrite to_uint8_idem in Hcc.
  change (content s1 DS3231_REG_CONTROL
          = alarm2_enable_byte (State_to_int enable) (content s DS3231_REG_CONTROL))
    in Hcc.
  destruct (alarm2_enable_fact (State_to_int enable) (content s DS3231_REG_CONTROL)
              (State_to_int_range _) (content_is_uint8 _ _)) as (F1 & F2 & F3).
  rewrite <- Hcc in F1, F2, F3.
  split; [|split; [|split]].
  - intros st e s2 Hget Hst.
    destruct (checked_getter_content _ _ _ _ _ _ _ _ _ Hget Hst) as [-> _].
    rewrite F1. apply State_of_to_int.
  - intros st m s2 Hget Hst.
    destruct (checked_getter_content _ _ _ _ _ _ _ _ _ Hget Hst) as [-> _].
    rewrite F2. reflexivity.
  - exact F3.
  - intros r Hr. rewrite (Hc r).
    destruct (Z.eqb_spec r DS3231_REG_CONTROL); [contradiction | reflexivity].
Qed.

(** After [DS3231_Set32kHzOutput] has succeeded, [DS3231_Get32kHzEnabled]
    returns the state that was set; the other bits of the status register
    and the other registers are unchanged. *)
Theorem Get32kHzEnabled_Set32kHzOutput temp0 data0 enable s s1 st e s2 :
  DS3231_Set32kHzOutput i2c HAL_I2C_Mem_Write HAL_I2C_Mem_Read
                        temp0 enable s = (HAL_OK, s1) ->
  DS3231_Get32kHzEnabled i2c HAL_I2C_Mem_Read data0 s1 = (st, e, s2) ->
  st = HAL_OK ->
  e = enable /\
  Z.land (content s1 DS3231_REG_STATUS) 247
  = Z.land (content s DS3231_REG_STATUS) 247 /\
  forall r, r <> DS3231_REG_STATUS -> content s1 r = content s r.
Proof.
  intros Hset Hget Hst.
  pose proof (read_modify_write_content _ _ _ _ _ Hset) as Hc.
  destruct (unchecked_getter_content _ _ _ _ _ _ _ _ Hget Hst) as [-> _].
  destruct (set_32khz_fact (State_to_int enable) (content s DS3231_REG_STATUS)
              (State_to_int_range _) (content_is_uint8 _ _)) as (F1 & F2 & _).
  cbv zeta in F1, F2.
  pose proof (Hc DS3231_REG_STATUS) as Hcc. rewrite Z.eqb_refl in Hcc.
  rewrite to_uint8_idem in Hcc.
  rewrite Hcc, F1, F2, State_of_to_int.
  split; [reflexivity|]. split; [reflexivity|].
  intros r Hr. rewrite (Hc r).
  destruct (Z.eqb_spec r DS3231_REG_STATUS); [contradiction | reflexivity].
Qed.

(** After [DS3231_SetOscillator] has succeeded, bit 7 of the control
    register (EOSC, "not enable") is 0 for [DS3231_ENABLED] and 1 for
    [DS3231_DISABLED]; the other bits of the register and the other
    registers are unchanged. *)
Theorem SetOscillator_EOSC control0 enable s s1 :
  DS3231_SetOscillator i2c HAL_I2C_Mem_Write HAL_I2C_Mem_Read
                       control0 enable s = (HAL_OK, s1) ->
  Z.land (Z.shiftr (content s1 DS3231_REG_CONTROL) 7) 1
  = match enable with DS3231_ENABLED => 0 | DS3231_DISABLED => 1 end /\
  Z.land (content s1 DS3231_REG_CONTROL) 127
  = Z.land (content s DS3231_REG_CONTROL) 127 /\
  forall r, r <> DS3231_REG_CONTROL -> content s1 r = content s r.
Proof.
  intros Hset.
  pose proof (read_modify_write_content _ _ _ _ _ Hset) as Hc.
  assert (Hv : 0 <= lnot_int (State_to_int enable) <= 1) by (destruct enable; cbn; lia).
  destruct (set_field_fact 127 1 7 (lnot_int (State_to_int enable))
              (content s DS3231_REG_CONTROL) set_EOSC_table
              Hv (content_is_uint8 _ _)) as (F1 & F2 & _).
  cbv zeta in F1, F2.
  pose proof (Hc DS3231_REG_CONTROL) as Hcc. rewrite Z.eqb_refl in Hcc.
  rewrite to_uint8_idem in Hcc. change DS3231_EOSC with 7 in *.
  rewrite Hcc, F1, F2.
  split; [destruct enable; reflexivity|]. split; [reflexivity|].
  intros r Hr. rewrite (Hc r).
  destruct (Z.eqb_spec r DS3231_REG_CONTROL); [contradiction | reflexivity].
Qed.

(** After [DS3231_ClearAlarm1Flag] has succeeded, [DS3231_GetAlarm1Flag]
    returns [DS3231_DISABLED]; the status register has lost bit 0 only and
    the other registers are unchanged. *)
Theorem GetAlarm1Flag_ClearAlarm1Flag control0 data0 s s1 st e s2 :
  DS3231_ClearAlarm1Flag i2c HAL_I2C_Mem_Write HAL_I2C_Mem_Read control0 s
  = (HAL_OK, s1) ->
  DS3231_GetAlarm1Flag i2c HAL_I2C_Mem_Read data0 s1 = (st, e, s2) ->
  st = HAL_OK ->
  e = DS3231_DISABLED /\
  content s1 DS3231_REG_STATUS = Z.land (content s DS3231_REG_STATUS) 254 /\
  forall r, r <> DS3231_REG_STATUS -> content s1 r = content s r.
Proof.
  intros Hset Hget Hst.
  pose proof (read_modify_write_content _ _ _ _ _ Hset) as Hc.
  destruct (unchecked_getter_content _ _ _ _ _ _ _ _ Hget Hst) as [-> _].
  destruct (clear_flag_fact 0 254 (content s DS3231_REG_STATUS) clear_A1F_table
              (content_is_uint8 _ _)) as (F1 & F2).
  cbv zeta in F1, F2.
  pose proof (Hc DS3231_REG_STATUS) as Hcc. rewrite Z.eqb_refl in Hcc.
  rewrite to_uint8_idem in Hcc. change DS3231_A1F with 0 in *.
  rewrite Hcc, F2. split; [reflexivity|]. split; [exact F1|].
  intros r Hr. rewrite (Hc r).
  destruct (Z.eqb_spec r DS3231_REG_STATUS); [contradiction | reflexivity].
Qed.

(** After [DS3231_ClearAlarm2Flag] has succeeded, [DS3231_GetAlarm2Flag]
    returns [DS3231_DISABLED]; the status register has lost bit 1 only and
    the other registers are unchanged. *)
Theorem GetAlarm2Flag_ClearAlarm2Flag control0 data0 s s1 st e s2 :
  DS3231_ClearAlarm2Flag i2c HAL_I2C_Mem_Write HAL_I2C_Mem_Read control0 s
  = (HAL_OK, s1) ->
  DS3231_GetAlarm2Flag i2c HAL_I2C_Mem_Read data0 s1 = (st, e, s2) ->
  st = HAL_OK ->
  e = DS3231_DISABLED /\
  content s1 DS3231_REG_STATUS = Z.land (content s DS3231_REG_STATUS) 253 /\
  forall r, r <> DS3231_REG_STATUS -> content s1 r = content s r.
Proof.
  intros Hset Hget Hst.
  pose proof (read_modify_write_content _ _ _ _ _ Hset) as Hc.
  destruct (unchecked_getter_content _ _ _ _ _ _ _ _ Hget Hst) as [-> _].
  destruct (clear_flag_fact 1 253 (content s DS3231_REG_STATUS) clear_A2F_table
              (content_is_uint8 _ _)) as (F1 & F2).
  cbv zeta in F1, F2.
  pose proof (Hc DS3231_REG_STATUS) as Hcc. rewrite Z.eqb_refl in Hcc.
  rewrite to_uint8_idem in Hcc. change DS3231_A2F with 1 in *.
  rewrite Hcc, F2. split; [reflexivity|]. split; [exact F1|].
  intros r Hr. rewrite (Hc r).
  destruct (Z.eqb_spec r DS3231_REG_STATUS); [contradiction | reflexivity].
Qed.

Lemma SetAlarm1IntEn_content control0 enable s s' :
  (forall reg data s0, fst (HAL_I2C_Mem_Write reg data s0) = HAL_OK) ->
  DS3231_SetAlarm1IntEn i2c HAL_I2C_Mem_Write HAL_I2C_Mem_Read control0 enable s
  = (HAL_OK, s') ->
  forall r,
    content s' r
    = if r =? DS3231_REG_CONTROL
      then alarm1_enable_byte (State_to_int enable) (content s DS3231_REG_CONTROL)
      else content s r.
Proof.
  intros Hok H. unfold DS3231_SetAlarm1IntEn in H.
  destruct (DS3231_ReadRegister i2c HAL_I2C_Mem_Read DS3231_REG_CONTROL control0 s)
    as [[st c] s1] eqn:E1.
  destruct st; try discriminate.
  match type of H with
  | context [DS3231_WriteRegister _ _ ?reg ?v ?s0] =>
      destruct (DS3231_WriteRegister i2c HAL_I2C_Mem_Write reg v s0)
        as [st2 s2] eqn:E2;
      pose proof (Hok reg [v] s0) as Hst
  end.
  unfold DS3231_WriteRegister in E2. rewrite E2 in Hst. cbn [fst] in Hst. subst st2.
  fold (DS3231_WriteRegister i2c HAL_I2C_Mem_Write) in E2.
  intros r.
  destruct (ReadRegister_content _ _ _ _ _ E1) as [-> Hf].
  pose proof (WriteRegister_content _ _ _ _ E2) as Hw.
  pose proof (read_modify_write_content _ _ _ _ _ H r) as Hm.
  rewrite Hm, (Hw r), (Hw DS3231_REG_CONTROL), !Hf, Z.eqb_refl.
  destruct (r =? DS3231_REG_CONTROL); [|reflexivity].
  rewrite !to_uint8_idem. reflexivity.
Qed.

(** On a device whose writes succeed, after [DS3231_Init] has succeeded the
    control register has A1IE and A2IE at 0 and INTCN at 1 with its five
    high bits unchanged (BBSQW too), the status register has lost A1F, A2F
    and EN32kHz only, and the other registers are unchanged. *)
Theorem Init_registers control0 s s1 :
  (forall reg data s0, fst (HAL_I2C_Mem_Write reg data s0) = HAL_OK) ->
  DS3231_Init i2c HAL_I2C_Mem_Write HAL_I2C_Mem_Read control0 s = (HAL_OK, s1) ->
  content s1 DS3231_REG_CONTROL
  = Z.lor (Z.land (content s DS3231_REG_CONTROL) 248) 4 /\
  content s1 DS3231_REG_STATUS = Z.land (content s DS3231_REG_STATUS) 244 /\
  forall r, r <> DS3231_REG_CONTROL -> r <> DS3231_REG_STATUS ->
            content s1 r = content s r.
Proof.
  intros Hok H. unfold DS3231_Init in H.
  destruct (DS3231_SetAlarm1IntEn i2c HAL_I2C_Mem_Write HAL_I2C_Mem_Read control0
              DS3231_DISABLED s) as [st sa] eqn:E1.
  destruct st; try discriminate.
  destruct (DS3231_SetAlarm2IntEn i2c HAL_I2C_Mem_Write HAL_I2C_Mem_Read control0
              DS3231_DISABLED sa) as [st sb] eqn:E2.
  destruct st; try discriminate.
  destruct (DS3231_ClearAlarm1Flag i2c HAL_I2C_Mem_Write HAL_I2C_Mem_Read control0 sb)
    as [st sc] eqn:E3.
  destruct st; try discriminate.
  destruct (DS3231_ClearAlarm2Flag i2c HAL_I2C_Mem_Write HAL_I2C_Mem_Read control0 sc)
    as [st sd] eqn:E4.
  destruct st; try discriminate.
  pose proof (SetAlarm1IntEn_content _ _ _ _ Hok E1) as C1.
  pose proof (write_then_alarm_mode_content
                (fun control =>
                   to_uint8 (Z.lor (Z.land control 253)
                                   (Z.shiftl (Z.land (State_to_int DS3231_DISABLED) 1)
                                             DS3231_A2IE)))
                control0 sa sb E2) as C2.
  cbv beta in C2.
  pose proof (read_modify_write_content _ _ _ _ _ E3) as C3.
  pose proof (read_modify_write_content _ _ _ _ _ E4) as C4.
  pose proof (read_modify_write_content _ _ _ _ _ H) as C5.
  destruct (init_fact (content s DS3231_REG_CONTROL) (content_is_uint8 _ _)) as [F1 _].
  destruct (init_fact (content s DS3231_REG_STATUS) (content_is_uint8 _ _)) as [_ F2].
  split; [|split].
  - rewrite (C5 DS3231_REG_CONTROL), (C4 DS3231_REG_CONTROL),
      (C3 DS3231_REG_CONTROL), (C2 DS3231_REG_CONTROL), (C1 DS3231_REG_CONTROL).
    change (DS3231_REG_CONTROL =? DS3231_REG_STATUS) with false.
    rewrite Z.eqb_refl. cbv iota. rewrite to_uint8_idem. exact F1.
  - rewrite (C5 DS3231_REG_STATUS), (C4 DS3231_REG_STATUS),
      (C3 DS3231_REG_STATUS), (C2 DS3231_REG_STATUS), (C1 DS3231_REG_STATUS).
    change (DS3231_REG_STATUS =? DS3231_REG_CONTROL) with false.
    rewrite Z.eqb_refl. cbv iota. rewrite !to_uint8_idem. exact F2.
  - intros r Hc Hs. rewrite (C5 r), (C4 r), (C3 r), (C2 r), (C1 r).
    destruct (Z.eqb_spec r DS3231_REG_STATUS); [contradiction|].
    destruct (Z.eqb_spec r DS3231_REG_CONTROL); [contradiction | reflexivity].
Qed.

(** [DS3231_GetDateTime] and [DS3231_GetOscillatorStoppedFlag] agree: on
    the same state of the device, the [Enable] field of the one is what
    the other returns, [DS3231_ENABLED] when bit 7 of the status register
    (OSF) is 0 and [DS3231_DISABLED] when it is 1. *)
Theorem GetDateTime_Enable_GetOscillatorStoppedFlag
        buffer0 regSTATUS0 data0 dt dt' s s1 st e s2 :
  length buffer0 = 7%nat ->
  DS3231_GetDateTime i2c HAL_I2C_Mem_Read buffer0 regSTATUS0 dt s = (HAL_OK, dt', s1) ->
  DS3231_GetOscillatorStoppedFlag i2c HAL_I2C_Mem_Read data0 s = (st, e, s2) ->
  st = HAL_OK ->
  Enable dt' = e /\
  e = if Z.land (Z.shiftr (content s DS3231_REG_STATUS) 7) 1 =? 0
      then DS3231_ENABLED else DS3231_DISABLED.
Proof.
  intros Hl Hget Hosf Hst.
  destruct (unchecked_getter_content _ _ _ _ _ _ _ _ Hosf Hst) as [-> _].
  destruct (oscillator_flag_fact (content s DS3231_REG_STATUS) (content_is_uint8 _ _))
    as [F1 F2].
  rewrite F2.
  unfold DS3231_GetDateTime in Hget.
  destruct (DS3231_ReadRegisters i2c HAL_I2C_Mem_Read DS3231_REG_SECOND buffer0 7 s)
    as [[st1 b] sa] eqn:E1.
  destruct st1; try discriminate.
  destruct (ReadRegisters_content _ _ _ _ _ _ E1 Hl) as [_ Hfa].
  destruct (DS3231_ReadRegister i2c HAL_I2C_Mem_Read DS3231_REG_STATUS regSTATUS0 sa)
    as [[st2 c] sb] eqn:E2.
  destruct st2; try discriminate.
  destruct (ReadRegister_content _ _ _ _ _ E2) as [-> _].
  inversion Hget as [[Hdt Hs]]. cbn [Enable].
  rewrite Hfa, F1.
  destruct (Z.land (Z.shiftr (content s DS3231_REG_STATUS) 7) 1 =? 0);
    split; reflexivity.
Qed.

(** After [DS3231_SetDateTime] has succeeded with a time whose fields are
    in range, [DS3231_GetDateTime] returns the same weekday, date and time.
    [Enable] does not come back: it is written to bit 7 of the control
    register (0 for [DS3231_ENABLED]) and read from bit 7 of the status
    register, which [DS3231_SetDateTime] leaves as it was. *)
Theorem GetDateTime_SetDateTime
        buffer0 regCONTROL0 buffer1 regSTATUS0 dt dt0 dt' s s1 s2 :
  length buffer0 = 7%nat -> length buffer1 = 7%nat ->
  1 <= Day dt <= 7 -> 1 <= Date dt <= 31 -> 1 <= Month dt <= 12 ->
  2000 <= Year dt <= 2099 -> 0 <= Hour_24mode dt <= 23 ->
  0 <= Minute dt <= 59 -> 0 <= Second dt <= 59 ->
  DS3231_SetDateTime i2c HAL_I2C_Mem_Write HAL_I2C_Mem_Read
                     buffer0 regCONTROL0 dt s = (HAL_OK, s1) ->
  DS3231_GetDateTime i2c HAL_I2C_Mem_Read buffer1 regSTATUS0 dt0 s1
  = (HAL_OK, dt', s2) ->
  dt' = mkDateTime (Day dt) (Date dt) (Month dt) (Year dt) (Hour_24mode dt)
                   (Minute dt) (Second dt)
                   (if Z.land (Z.shiftr (content s DS3231_REG_STATUS) 7) 1 =? 0
                    then DS3231_ENABLED else DS3231_DISABLED) /\
  Z.land (Z.shiftr (content s1 DS3231_REG_CONTROL) 7) 1
  = match Enable dt with DS3231_ENABLED => 0 | DS3231_DISABLED => 1 end /\
  content s1 DS3231_REG_STATUS = content s DS3231_REG_STATUS.
Proof.
  intros Hl0 Hl1 Hd Ht Hm Hy Hh Hi Hs Hset Hget.
  unfold DS3231_SetDateTime in Hset.
  rewrite SetDateTime_checks_buffer in Hset by assumption.
  unfold SetDateTime_write in Hset.
  set (buf := [DS3231_EncodeBCD (Second dt); DS3231_EncodeBCD (Minute dt);
               DS3231_EncodeBCD (Hour_24mode dt); DS3231_EncodeBCD (Day dt);
               DS3231_EncodeBCD (Date dt); DS3231_EncodeBCD (Month dt);
               DS3231_EncodeBCD (to_uint8 (to_uint32 (Year dt - 2000)))]) in *.
  destruct (DS3231_WriteRegisters i2c HAL_I2C_Mem_Write DS3231_REG_SECOND buf 7 s)
    as [st sa] eqn:E1.
  destruct st; try discriminate.
  destruct (DS3231_ReadRegister i2c HAL_I2C_Mem_Read DS3231_REG_CONTROL regCONTROL0 sa)
    as [[st c] sb] eqn:E2.
  destruct st; try discriminate.
  pose proof (WriteRegisters_content _ _ _ _ _ E1 eq_refl) as Cw.
  destruct (ReadRegister_content _ _ _ _ _ E2) as [-> Cr].
  pose proof (WriteRegister_content _ _ _ _ Hset) as Cc.
  assert (Hbytes : forall k, (k < 7)%nat ->
            content s1 (DS3231_REG_SECOND + Z.of_nat k) = to_uint8 (nth k buf 0)).
  { intros k Hk. rewrite Cc.
    destruct (Z.eqb_spec (DS3231_REG_SECOND + Z.of_nat k) DS3231_REG_CONTROL)
      as [E|_]; [unfold DS3231_REG_SECOND, DS3231_REG_CONTROL in E; lia|].
    rewrite Cr, Cw. unfold DS3231_REG_SECOND.
    destruct (Z.leb_spec 0 (0 + Z.of_nat k)); [|lia].
    destruct (Z.ltb_spec (0 + Z.of_nat k) (0 + Z.of_nat 7)); [|lia].
    cbn [andb]. replace (Z.to_nat (0 + Z.of_nat k - 0)) with k by lia. reflexivity. }
  assert (Hstatus : content s1 DS3231_REG_STATUS = content s DS3231_REG_STATUS).
  { rewrite Cc. change (DS3231_REG_STATUS =? DS3231_REG_CONTROL) with false.
    cbv iota. rewrite Cr, Cw. reflexivity. }
  unfold DS3231_GetDateTime in Hget.
  destruct (DS3231_ReadRegisters i2c HAL_I2C_Mem_Read DS3231_REG_SECOND buffer1 7 s1)
    as [[st b] sc] eqn:E3.
  destruct st; try discriminate.
  destruct (ReadRegisters_content _ _ _ _ _ _ E3 Hl1) as [Hb Cs].
  assert (Hb' : b = map (fun k => to_uint8 (nth k buf 0)) (seq 0 7)).
  { rewrite Hb. apply map_ext_in. intros k Hk. apply in_seq in Hk.
    apply Hbytes. lia. }
  cbn [map seq nth buf] in Hb'. rewrite !to_uint8_EncodeBCD in Hb'.
  clear Hb. subst b.
  rewrite GetDateTime_fields_encoded in Hget by assumption.
  destruct (DS3231_ReadRegister i2c HAL_I2C_Mem_Read DS3231_REG_STATUS regSTATUS0 sc)
    as [[st c] sd] eqn:E4.
  destruct st; try discriminate.
  destruct (ReadRegister_content _ _ _ _ _ E4) as [-> _].
  rewrite Cs, Hstatus in Hget.
  destruct (oscillator_flag_fact (content s DS3231_REG_STATUS) (content_is_uint8 _ _))
    as [F1 _].
  rewrite F1 in Hget. inversion Hget as [[Hdt Hs2]].
  cbn [Day Date Month Year Hour_24mode Minute Second].
  split; [|split; [|exact Hstatus]].
  - destruct (Z.land (Z.shiftr (content s DS3231_REG_STATUS) 7) 1 =? 0); reflexivity.
  - rewrite (Cc DS3231_REG_CONTROL), Z.eqb_refl.
    destruct (eosc_fact (content sa DS3231_REG_CONTROL) (content_is_uint8 _ _))
      as [G1 G2].
    destruct (Enable dt); assumption.
Qed.

End MemoryDevice.

(** ** The write whose status is dropped *)

(** [DS3231_SetAlarm1IntEn] calls [DS3231_WriteRegister] without keeping
    its status: on any transport, once the control register has been read,
    the function goes on with [DS3231_SetInterruptMode] and returns its
    result whatever the write of A1IE returned. [DS3231_SetAlarm2IntEn]
    returns the status of a write of A2IE that fails. *)
Theorem SetAlarm1IntEn_write_status_ignored
        (i2c : Type)
        (HAL_I2C_Mem_Write : Z -> list Z -> i2c -> HAL_StatusTypeDef * i2c)
        (HAL_I2C_Mem_Read : Z -> nat -> i2c -> HAL_StatusTypeDef * list Z * i2c)
        (control0 : Z) (enable : DS3231_State) (s s1 : i2c) (bytes : list Z) :
  HAL_I2C_Mem_Read DS3231_REG_CONTROL 1%nat s = (HAL_OK, bytes, s1) ->
  (forall st s2,
     HAL_I2C_Mem_Write DS3231_REG_CONTROL
       [to_uint8 (Z.lor (Z.land (nth 0 bytes control0) 254)
                        (Z.shiftl (Z.land (State_to_int enable) 1) DS3231_A1IE))] s1
     = (st, s2) ->
     DS3231_SetAlarm1IntEn i2c HAL_I2C_Mem_Write HAL_I2C_Mem_Read control0 enable s
     = DS3231_SetInterruptMode i2c HAL_I2C_Mem_Write HAL_I2C_Mem_Read
                               control0 DS3231_ALARM_INTERRUPT s2) /\
  (forall st s2,
     HAL_I2C_Mem_Write DS3231_REG_CONTROL
       [to_uint8 (Z.lor (Z.land (nth 0 bytes control0) 253)
                        (Z.shiftl (Z.land (State_to_int enable) 1) DS3231_A2IE))] s1
     = (st, s2) ->
     st <> HAL_OK ->
     DS3231_SetAlarm2IntEn i2c HAL_I2C_Mem_Write HAL_I2C_Mem_Read control0 enable s
     = (st, s2)).
Proof.
  intros Hr. split; intros st s2 Hw.
  - unfold DS3231_SetAlarm1IntEn, DS3231_ReadRegister, DS3231_WriteRegister.
    rewrite Hr, Hw. reflexivity.
  - intros Hst.
    unfold DS3231_SetAlarm2IntEn, DS3231_ReadRegister, DS3231_WriteRegister.
    rewrite Hr, Hw. destruct st; [contradiction | reflexivity..].
Qed.

Lemma SetAlarm1IntEn_write_status_ignored_flaky :
  DS3231_SetAlarm1IntEn (nat * regfile) flaky_write flaky_read 0 DS3231_DISABLED
                        (O, regfile_ones)
  = DS3231_SetInterruptMode (nat * regfile) flaky_write flaky_read 0
                            DS3231_ALARM_INTERRUPT (1%nat, regfile_ones).
Proof.
  exact (proj1 (SetAlarm1IntEn_write_status_ignored
                  (nat * regfile) flaky_write flaky_read 0 DS3231_DISABLED
                  (O, regfile_ones) (O, regfile_ones) [255] eq_refl)
               HAL_ERROR (1%nat, regfile_ones) eq_refl).
Defined.

(** On the transport whose first write fails, [DS3231_SetAlarm1IntEn]
    returns [HAL_OK] and A1IE is as it was. *)
Lemma SetAlarm1IntEn_lost_error :
  fst (DS3231_SetAlarm1IntEn (nat * regfile) flaky_write flaky_read 0
                             DS3231_DISABLED (O, regfile_ones)) = HAL_OK /\
  Z.land (regfile_content
            (snd (snd (DS3231_SetAlarm1IntEn (nat * regfile) flaky_write flaky_read
                                             0 DS3231_DISABLED (O, regfile_ones))))
            DS3231_REG_CONTROL) 1 = 1.
Proof. split; vm_compute; reflexivity. Qed.

(** ** The theorems of the section on a register file *)

Lemma GetBatterySquareWave_SetBatterySquareWave_regfile :
  snd (fst (DS3231_GetBatterySquareWave regfile regfile_read 0 DS3231_ENABLED
              (snd (DS3231_SetBatterySquareWave regfile regfile_write regfile_read
                                                0 DS3231_DISABLED regfile_ones))))
  = DS3231_DISABLED.
Proof.
  exact (proj1 (GetBatterySquareWave_SetBatterySquareWave
                  regfile regfile_write regfile_read regfile_content
                  regfile_memory_device 0 0 DS3231_DISABLED DS3231_ENABLED
                  regfile_ones _ _ _ _ eq_refl eq_refl eq_refl)).
Defined.

Lemma GetInterruptMode_SetInterruptMode_regfile :
  snd (fst (DS3231_GetInterruptMode regfile regfile_read 0 DS3231_ALARM_INTERRUPT
              (snd (DS3231_SetInterruptMode regfile regfile_write regfile_read
                      0 DS3231_SQUARE_WAVE_INTERRUPT regfile_ones))))
  = DS3231_SQUARE_WAVE_INTERRUPT.
Proof.
  exact (proj1 (GetInterruptMode_SetInterruptMode
                  regfile regfile_write regfile_read regfile_content
                  regfile_memory_device 0 0 DS3231_SQUARE_WAVE_INTERRUPT
                  DS3231_ALARM_INTERRUPT regfile_ones _ _ _ _
                  eq_refl eq_refl eq_refl)).
Defined.

Lemma SetRateSelect_rate_and_mode_regfile :
  snd (fst (DS3231_GetRateSelect regfile regfile_read 0 DS3231_RATE_1HZ
              (snd (DS3231_SetRateSelect regfile regfile_write regfile_read
                                         0 DS3231_RATE_4096HZ regfile_ones))))
  = DS3231_RATE_4096HZ.
Proof.
  exact (proj1 (SetRateSelect_rate_and_mode
                  regfile regfile_write regfile_read regfile_content
                  regfile_memory_device 0 0 0 DS3231_RATE_4096HZ DS3231_RATE_1HZ
                  DS3231_SQUARE_WAVE_INTERRUPT regfile_ones _ eq_refl)
               _ _ _ eq_refl eq_refl).
Defined.

Lemma SetAlarm2IntEn_enable_and_mode_regfile :
  snd (fst (DS3231_GetAlarm2IntEn regfile regfile_read 0 DS3231_ENABLED
              (snd (DS3231_SetAlarm2IntEn regfile regfile_write regfile_read
                                          0 DS3231_DISABLED regfile_ones))))
  = DS3231_DISABLED.
Proof.
  exact (proj1 (SetAlarm2IntEn_enable_and_mode
                  regfile regfile_write regfile_read regfile_content
                  regfile_memory_device 0 0 0 DS3231_DISABLED DS3231_ENABLED
                  DS3231_SQUARE_WAVE_INTERRUPT regfile_ones _ eq_refl)
               _ _ _ eq_refl eq_refl).
Defined.

Lemma Get32kHzEnabled_Set32kHzOutput_regfile :
  snd (fst (DS3231_Get32kHzEnabled regfile regfile_read 0
              (snd (DS3231_Set32kHzOutput regfile regfile_write regfile_read
                                          0 DS3231_DISABLED regfile_ones))))
  = DS3231_DISABLED.
Proof.
  exact (proj1 (Get32kHzEnabled_Set32kHzOutput
                  regfile regfile_write regfile_read regfile_content
                  regfile_memory_device 0 0 DS3231_DISABLED
                  regfile_ones _ _ _ _ eq_refl eq_refl eq_refl)).
Defined.

Lemma SetOscillator_EOSC_regfile :
  Z.land (Z.shiftr (regfile_content
                      (snd (DS3231_SetOscillator regfile regfile_write regfile_read
                                                 0 DS3231_ENABLED regfile_ones))
                      DS3231_REG_CONTROL) 7) 1 = 0.
Proof.
  exact (proj1 (SetOscillator_EOSC
                  regfile regfile_write regfile_read regfile_content
                  regfile_memory_device 0 DS3231_ENABLED regfile_ones _ eq_refl)).
Defined.

Lemma GetAlarm1Flag_ClearAlarm1Flag_regfile :
  snd (fst (DS3231_GetAlarm1Flag regfile regfile_read 0
              (snd (DS3231_ClearAlarm1Flag regfile regfile_write regfile_read
                                           0 regfile_ones))))
  = DS3231_DISABLED.
Proof.
  exact (proj1 (GetAlarm1Flag_ClearAlarm1Flag
                  regfile regfile_write regfile_read regfile_content
                  regfile_memory_device 0 0 regfile_ones _ _ _ _
                  eq_refl eq_refl eq_refl)).
Defined.

Lemma GetAlarm2Flag_ClearAlarm2Flag_regfile :
  snd (fst (DS3231_GetAlarm2Flag regfile regfile_read 0
              (snd (DS3231_ClearAlarm2Flag regfile regfile_write regfile_read
                                           0 regfile_ones))))
  = DS3231_DISABLED.
Proof.
  exact (proj1 (GetAlarm2Flag_ClearAlarm2Flag
                  regfile regfile_write regfile_read regfile_content
                  regfile_memory_device 0 0 regfile_ones _ _ _ _
                  eq_refl eq_refl eq_refl)).
Defined.

Lemma Init_registers_regfile :
  regfile_content (snd (DS3231_Init regfile regfile_write regfile_read 0 regfile_ones))
                  DS3231_REG_CONTROL
  = Z.lor (Z.land (regfile_content regfile_ones DS3231_REG_CONTROL) 248) 4.
Proof.
  exact (proj1 (Init_registers
                  regfile regfile_write regfile_read regfile_content
                  regfile_memory_device 0 regfile_ones _
                  (fun _ _ _ => eq_refl) eq_refl)).
Defined.

Lemma GetDateTime_Enable_GetOscillatorStoppedFlag_regfile :
  Enable (snd (fst (DS3231_GetDateTime regfile regfile_read [0; 0; 0; 0; 0; 0; 0] 0
                                       t_2000_01_01 regfile_ones)))
  = snd (fst (DS3231_GetOscillatorStoppedFlag regfile regfile_read 0 regfile_ones)).
Proof.
  exact (proj1 (GetDateTime_Enable_GetOscillatorStoppedFlag
                  regfile regfile_write regfile_read regfile_content
                  regfile_memory_device [0; 0; 0; 0; 0; 0; 0] 0 0 t_2000_01_01
                  _ regfile_ones _ _ _ _ eq_refl eq_refl eq_refl eq_refl)).
Defined.

Lemma GetDateTime_SetDateTime_regfile :
  snd (fst (DS3231_GetDateTime regfile regfile_read [0; 0; 0; 0; 0; 0; 0] 0
              t_2000_01_01
              (snd (DS3231_SetDateTime regfile regfile_write regfile_read
                      [0; 0; 0; 0; 0; 0; 0] 0
                      (mkDateTime 4 4 7 2024 12 30 15 DS3231_ENABLED) regfile_ones))))
  = mkDateTime 4 4 7 2024 12 30 15 DS3231_DISABLED.
Proof.
  refine (proj1 (GetDateTime_SetDateTime
                   regfile regfile_write regfile_read regfile_content
                   regfile_memory_device [0; 0; 0; 0; 0; 0; 0] 0
                   [0; 0; 0; 0; 0; 0; 0] 0
                   (mkDateTime 4 4 7 2024 12 30 15 DS3231_ENABLED) t_2000_01_01
                   _ regfile_ones _ _ eq_refl eq_refl _ _ _ _ _ _ _
                   eq_refl eq_refl)); cbn; lia.
Defined.
